(** * ai-data-analyst: the data-processing service, embedded and verified

    A shallow embedding of [src/services/dataProcessing.ts] (type inference,
    the cleaning and transformation executors, the hypothesis tests, the
    descriptive statistics and the chart helpers) together with the
    properties of it that the specification states and further ones read
    off the code.

    Conventions of the embedding.
    - A JavaScript number is an IEEE-754 binary64 value: the kernel's
      primitive [float].  Lengths, counters and indices are [nat].
    - A string is a [string] of code units below 256; case mapping, white
      space and the character classes of the regular expressions are those
      of the language on that range.
    - An object is kept with its own properties in enumeration order
      ([JSObject]).  [Object.prototype] is the one the language defines.
      The dictionaries keyed by cell texts follow what a plain object
      inherits from it ([ObjectPrototype], [countUp]); the chi-square table
      alone is modelled for texts that name none of its members.  A row is
      read through its own properties: column names are taken not to name a
      member of [Object.prototype].
    - The rows of a [DataSet] are distinct objects, as the parser and both
      executors create them.
    - The conversions between numbers, dates and text, whose algorithms the
      language standard fixes but the source never spells out, are an
      interface ([JSHost]); every theorem holds for every implementation of
      it.
    - An exception is a value of [Result]; objects mutated in place live in
      an explicit store. *)

From Stdlib Require Import List String Ascii ZArith NArith Lia Bool Arith Permutation.
From Stdlib Require Import Sorting.Sorted.
From Stdlib Require Import Floats.PrimFloat Numbers.Cyclic.Int63.Uint63 DecimalString.
Import ListNotations.
Open Scope string_scope.
Open Scope list_scope.
Open Scope nat_scope.

Notation "a +++ b" := (String.append a b) (at level 60, right associativity).

Set Implicit Arguments.
Set Warnings "-inexact-float".

(** ** Strings *)

Module JSString.

Definition isWhiteSpace (c : ascii) : bool :=
  let n := nat_of_ascii c in
  ((9 <=? n) && (n <=? 13)) || (n =? 32) || (n =? 160).

Definition isDigit (c : ascii) : bool :=
  let n := nat_of_ascii c in (48 <=? n) && (n <=? 57).

Definition isUpper (c : ascii) : bool :=
  let n := nat_of_ascii c in (65 <=? n) && (n <=? 90).

Definition isLower (c : ascii) : bool :=
  let n := nat_of_ascii c in (97 <=? n) && (n <=? 122).

Definition isAlphaNum (c : ascii) : bool := isLower c || isUpper c || isDigit c.

(** [\w] of a regular expression: [[A-Za-z0-9_]]. *)
Definition isWordChar (c : ascii) : bool := isAlphaNum c || (nat_of_ascii c =? 95).

Fixpoint map (f : ascii -> ascii) (s : string) : string :=
  match s with
  | EmptyString => EmptyString
  | String c r => String (f c) (map f r)
  end.

Fixpoint rev_append (s acc : string) : string :=
  match s with
  | EmptyString => acc
  | String c r => rev_append r (String c acc)
  end.

Definition rev (s : string) : string := rev_append s EmptyString.

(** [String.prototype.toLowerCase] on code units below 256. *)
Definition toLowerChar (c : ascii) : ascii :=
  let n := nat_of_ascii c in
  if isUpper c || ((192 <=? n) && (n <=? 222) && negb (n =? 215))
  then ascii_of_nat (n + 32) else c.

Definition toLowerCase : string -> string := map toLowerChar.

(** [String.prototype.toUpperCase] on the letters a-z (the source applies
    it to the four test names only). *)
Definition toUpperChar (c : ascii) : ascii :=
  if isLower c then ascii_of_nat (nat_of_ascii c - 32) else c.

Definition toUpperCase : string -> string := map toUpperChar.

Fixpoint dropWhile (p : ascii -> bool) (s : string) : string :=
  match s with
  | EmptyString => EmptyString
  | String c r => if p c then dropWhile p r else s
  end.

Definition dropWhileEnd (p : ascii -> bool) (s : string) : string :=
  rev (dropWhile p (rev s)).

Definition trim (s : string) : string :=
  dropWhileEnd isWhiteSpace (dropWhile isWhiteSpace s).

(** [s.replace(/[\s\W]+/g, '_')]: every maximal run of characters of the
    class becomes one underscore. *)
Fixpoint collapseRuns (inClass : ascii -> bool) (inRun : bool) (s : string) : string :=
  match s with
  | EmptyString => EmptyString
  | String c r =>
      if inClass c
      then if inRun then collapseRuns inClass true r
           else String "_" (collapseRuns inClass true r)
      else String c (collapseRuns inClass false r)
  end.

Definition isUnderscore (c : ascii) : bool := nat_of_ascii c =? 95.

(** [s.replace(/^_+|_+$/g, '')]. *)
Definition stripUnderscores (s : string) : string :=
  dropWhileEnd isUnderscore (dropWhile isUnderscore s).

(** [s.replace(/[^a-zA-Z0-9]/g, '_')]. *)
Definition sanitize (s : string) : string :=
  map (fun c => if isAlphaNum c then c else "_"%char) s.

Fixpoint join (sep : string) (l : list string) : string :=
  match l with
  | [] => ""
  | [x] => x
  | x :: r => x +++ sep +++ join sep r
  end.

Definition hexDigit (n : nat) : ascii :=
  if n <? 10 then ascii_of_nat (48 + n) else ascii_of_nat (87 + n).

(** [QuoteJSONString] without the enclosing quotes, one code unit. *)
Definition escapeChar (c : ascii) : string :=
  let n := nat_of_ascii c in
  if n =? 34 then "\" +++ String c ""
  else if n =? 92 then "\\"
  else if n =? 8 then "\b"
  else if n =? 12 then "\f"
  else if n =? 10 then "\n"
  else if n =? 13 then "\r"
  else if n =? 9 then "\t"
  else if n <? 32 then "\u00" +++ String (hexDigit (n / 16)) (String (hexDigit (n mod 16)) "")
  else String c "".

Fixpoint escape (s : string) : string :=
  match s with
  | EmptyString => ""
  | String c r => escapeChar c +++ escape r
  end.

Definition quote (s : string) : string :=
  String (ascii_of_nat 34) (escape s +++ String (ascii_of_nat 34) "").

Fixpoint forallb (p : ascii -> bool) (s : string) : bool :=
  match s with
  | EmptyString => true
  | String c r => p c && forallb p r
  end.

Fixpoint decimalValue (s : string) (acc : N) : N :=
  match s with
  | EmptyString => acc
  | String c r => decimalValue r (10 * acc + N.of_nat (nat_of_ascii c - 48))%N
  end.

(** The array index a property key denotes, if it is one: the canonical
    decimal text of an integer between 0 and 2^32 - 2. *)
Definition arrayIndex (s : string) : option N :=
  match s with
  | EmptyString => None
  | String c r =>
      if forallb isDigit s
         && implb (nat_of_ascii c =? 48) (String.length s =? 1)
         && (String.length s <=? 10)
      then let v := decimalValue s 0 in
           if (v <? 4294967295)%N then Some v else None
      else None
  end.

End JSString.

(** ** Values, objects and the host's conversions *)

Inductive JSValue : Type :=
| VNull
| VUndefined
| VBool (b : bool)
| VNum (x : float)
| VStr (s : string).

(** An object with its own properties in the order [Object.keys] lists
    them: array-index keys ascending, then the other keys as created. *)
Definition JSObject (V : Type) : Type := list (string * V).

Section Objects.
Variable V : Type.

Fixpoint getOwn (k : string) (o : JSObject V) : option V :=
  match o with
  | [] => None
  | (k', v) :: r => if String.eqb k' k then Some v else getOwn k r
  end.

Definition hasOwn (k : string) (o : JSObject V) : bool :=
  match getOwn k o with Some _ => true | None => false end.

Fixpoint replaceOwn (k : string) (v : V) (o : JSObject V) : JSObject V :=
  match o with
  | [] => []
  | (k', v') :: r =>
      if String.eqb k' k then (k, v) :: r else (k', v') :: replaceOwn k v r
  end.

Fixpoint insertIndexed (i : N) (k : string) (v : V) (o : JSObject V) : JSObject V :=
  match o with
  | [] => [(k, v)]
  | (k', v') :: r =>
      match JSString.arrayIndex k' with
      | Some j => if (j <? i)%N then (k', v') :: insertIndexed i k v r
                  else (k, v) :: o
      | None => (k, v) :: o
      end
  end.

(** [o[k] = v]. *)
Definition setProp (k : string) (v : V) (o : JSObject V) : JSObject V :=
  if hasOwn k o then replaceOwn k v o
  else match JSString.arrayIndex k with
       | Some i => insertIndexed i k v o
       | None => o ++ [(k, v)]
       end.

(** [delete o[k]]. *)
Definition deleteProp (k : string) (o : JSObject V) : JSObject V :=
  filter (fun p => negb (String.eqb (fst p) k)) o.

Definition ObjectKeys (o : JSObject V) : list string := List.map fst o.
Definition ObjectValues (o : JSObject V) : list V := List.map snd o.

End Objects.

(** ** What a plain object inherits

    An object literal used as a dictionary answers the lookup of a key it
    does not own with the member of [Object.prototype] of that name, when
    there is one: a function for eleven names, and [Object.prototype]
    itself for [__proto__], under which an assignment of a number or a
    text stores nothing.  [Object.prototype] is the one the language
    defines, with no member added or removed. *)

Module ObjectPrototype.

Definition functionNames : list string :=
  ["constructor"; "__defineGetter__"; "__defineSetter__"; "hasOwnProperty";
   "__lookupGetter__"; "__lookupSetter__"; "isPrototypeOf"; "propertyIsEnumerable";
   "toString"; "valueOf"; "toLocaleString"].

Definition isFunctionName (k : string) : bool := existsb (String.eqb k) functionNames.

Definition isProto (k : string) : bool := String.eqb k "__proto__".

(** [k in Object.prototype] *)
Definition has (k : string) : bool := isFunctionName k || isProto k.

End ObjectPrototype.

(** What [counts[k]] holds once [counts[k] = (counts[k] || 0) + 1] has run
    for [k]: a number or, when [k] names a function of [Object.prototype],
    the text of that function followed by one digit 1 for every round (the
    function is truthy, and adding 1 to it concatenates). *)
Inductive CountValue : Type :=
| Count (n : nat)
| MemberText (member : string) (ones : nat).

Coercion Count : nat >-> CountValue.

Definition Counts : Type := JSObject CountValue.

(** [counts[k] = (counts[k] || 0) + 1] on a [counts] that began as [{}]. *)
Definition countUp (k : string) (counts : Counts) : Counts :=
  match getOwn k counts with
  | Some (Count n) => setProp k (Count (n + 1)) counts
  | Some (MemberText f ones) => setProp k (MemberText f (S ones)) counts
  | None =>
      if ObjectPrototype.isFunctionName k then setProp k (MemberText k 1) counts
      else if ObjectPrototype.isProto k then counts
      else setProp k (Count 1) counts
  end.

(** [counts[k]] where it is compared with a number: a text and an
    inherited member compare as NaN, greater than nothing. *)
Definition numberAt (k : string) (counts : Counts) : option nat :=
  match getOwn k counts with
  | Some (Count n) => Some n
  | _ => None
  end.

Definition DataRow : Type := JSObject JSValue.

(** [r[col]]: the own property, [undefined] when there is none. *)
Definition getProp (r : DataRow) (col : string) : JSValue :=
  match getOwn col r with
  | Some v => v
  | None => VUndefined
  end.

(** [v === null || v === undefined || v === ''] *)
Definition isMissing (v : JSValue) : bool :=
  match v with
  | VNull | VUndefined => true
  | VStr s => String.eqb s ""
  | _ => false
  end.

(** [v === ''] *)
Definition isEmptyText (v : JSValue) : bool :=
  match v with
  | VStr s => String.eqb s ""
  | _ => false
  end.

(** [v === null || v === undefined] *)
Definition isNullish (v : JSValue) : bool :=
  match v with
  | VNull | VUndefined => true
  | _ => false
  end.

Definition isNaN (x : float) : bool := PrimFloat.is_nan x.

Definition ofNat (n : nat) : float := PrimFloat.of_uint63 (Uint63.of_Z (Z.of_nat n)).
Definition ofZ (z : Z) : float :=
  if (z <? 0)%Z then PrimFloat.opp (PrimFloat.of_uint63 (Uint63.of_Z (- z)))
  else PrimFloat.of_uint63 (Uint63.of_Z z).

(** The conversions of the language the source calls and never defines. *)
Class JSHost : Type := {
  (** [Number::toString(x)], radix 10 *)
  NumberToString : float -> string;
  (** [StringToNumber(s)], what [Number(s)] applies to a string *)
  StringToNumber : string -> float;
  (** [Date.parse(s)]: a time value, or NaN *)
  DateParse : string -> float;
  (** the text [Date.prototype.toISOString] builds from a valid time value *)
  TimeToISOString : float -> string;
  (** [Number.prototype.toFixed(digits)] *)
  NumberToFixed : float -> nat -> string;
  MathLog : float -> float;
  MathPow : float -> float -> float;
  (** the empty text converts to +0 *)
  StringToNumber_empty : StringToNumber "" = 0%float
}.

Section Conversions.
Context {host : JSHost}.

(** [String(v)] *)
Definition ToString (v : JSValue) : string :=
  match v with
  | VNull => "null"
  | VUndefined => "undefined"
  | VBool true => "true"
  | VBool false => "false"
  | VNum x => NumberToString x
  | VStr s => s
  end.

(** [Number(v)] *)
Definition ToNumber (v : JSValue) : float :=
  match v with
  | VNull => 0%float
  | VUndefined => PrimFloat.nan
  | VBool true => 1%float
  | VBool false => 0%float
  | VNum x => x
  | VStr s => StringToNumber s
  end.

(** The condition of [if (v)] and of [v ? a : b]. *)
Definition ToBoolean (v : JSValue) : bool :=
  match v with
  | VNull | VUndefined => false
  | VBool b => b
  | VNum x => negb (PrimFloat.is_zero x || PrimFloat.is_nan x)
  | VStr s => negb (String.eqb s "")
  end.

(** The time value of [new Date(s)]: [TimeClip(Date.parse(s))].  A parsed
    time is a whole number of milliseconds, which [TimeClip] returns as it
    is when it lies within 8.64e15 of the epoch. *)
Definition TimeClip (t : float) : float :=
  if negb (PrimFloat.is_finite t) then PrimFloat.nan
  else if PrimFloat.ltb 8.64e15%float (PrimFloat.abs t) then PrimFloat.nan
  else t.

Definition jsonValue (v : JSValue) : option string :=
  match v with
  | VUndefined => None
  | VNull => Some "null"
  | VBool true => Some "true"
  | VBool false => Some "false"
  | VNum x => Some (if PrimFloat.is_finite x then NumberToString x else "null")
  | VStr s => Some (JSString.quote s)
  end.

Fixpoint jsonProps (r : DataRow) : list string :=
  match r with
  | [] => []
  | (k, v) :: rest =>
      match jsonValue v with
      | Some t => (JSString.quote k +++ ":" +++ t) :: jsonProps rest
      | None => jsonProps rest
      end
  end.

(** [JSON.stringify(row)] *)
Definition JSON_stringify (r : DataRow) : string :=
  "{" +++ JSString.join "," (jsonProps r) +++ "}".

(** What [JSON.parse] reads back from the text of a value. *)
Definition cloneValue (v : JSValue) : option JSValue :=
  match v with
  | VUndefined => None
  | VNum x => Some (if PrimFloat.is_finite x
                    then VNum (StringToNumber (NumberToString x)) else VNull)
  | _ => Some v
  end.

(** [JSON.parse(JSON.stringify(row))] *)
Fixpoint cloneRow (r : DataRow) : DataRow :=
  match r with
  | [] => []
  | (k, v) :: rest =>
      match cloneValue v with
      | Some v' => (k, v') :: cloneRow rest
      | None => cloneRow rest
      end
  end.

End Conversions.

(** ** Errors *)

Inductive JSError : Type :=
| RangeError (message : string)
| TypeError (message : string)
| Error (message : string).

Inductive Result (A : Type) : Type :=
| Ok (a : A)
| Throw (e : JSError).

Arguments Ok {A} a.
Arguments Throw {A} e.

Definition isThrow {A : Type} (r : Result A) : bool :=
  match r with
  | Ok _ => false
  | Throw _ => true
  end.

(** ** Arrays *)

Section Arrays.
Variable A : Type.

(** [Array.prototype.sort(cmp)], a stable sort; [gt x y] holds when
    [cmp(x, y) > 0]. *)
Fixpoint insertSorted (gt : A -> A -> bool) (x : A) (l : list A) : list A :=
  match l with
  | [] => [x]
  | y :: r => if gt x y then y :: insertSorted gt x r else x :: l
  end.

Definition sortWith (gt : A -> A -> bool) (l : list A) : list A :=
  fold_right (insertSorted gt) [] l.

(** [a.slice(0, limit)] for an integer [limit]. *)
Definition sliceTo (limit : Z) (l : list A) : list A :=
  if (limit <? 0)%Z
  then firstn (Z.to_nat (Z.max (Z.of_nat (List.length l) + limit) 0)) l
  else firstn (Z.to_nat limit) l.

End Arrays.

(** [Array.from(new Set(l))]: the distinct texts, in order of first
    appearance. *)
Fixpoint distinct (seen : list string) (l : list string) : list string :=
  match l with
  | [] => []
  | x :: r =>
      if existsb (String.eqb x) seen then distinct seen r
      else x :: distinct (x :: seen) r
  end.

(** [Array.from(new Set(l)).sort()]: the default order of [sort] compares
    texts code unit by code unit. *)
Definition sortedDistinct (l : list string) : list string :=
  sortWith (fun x y => String.ltb y x) (distinct [] l).

(** ** Type inference *)

Module ColumnType.
Inductive t : Type := Number | String | Date | Boolean | Mixed | Unknown.
End ColumnType.

Record TypeCounts : Type := {
  numCount : nat;
  strCount : nat;
  dateCount : nat;
  boolCount : nat
}.

(** [count / total > 0.8].  Both operands are array lengths (below 2^32),
    so the rounded quotient exceeds the double nearest to 0.8 exactly when
    [5 * count > 4 * total]. *)
Definition exceeds80 (count total : nat) : bool := 4 * total <? 5 * count.

(** ** Profiles and the dataset *)

Module ColumnProfile.
Record t : Type := {
  name : string;
  type : ColumnType.t;
  missingCount : nat;
  missingPercentage : float;
  uniqueCount : nat;
  example : JSValue
}.
End ColumnProfile.

Record DataSet : Type := {
  fileName : string;
  fileSize : float;
  totalRows : nat;
  headers : list string;
  rows : list DataRow;
  columnProfiles : list ColumnProfile.t
}.

Section TypeInference.
Context {host : JSHost}.

(** The body of the [forEach] of [identifyType]. *)
Definition countValue (c : TypeCounts) (v : JSValue) : TypeCounts :=
  if isMissing v then c
  else match v with
       | VNum _ =>
           {| numCount := S (numCount c); strCount := strCount c;
              dateCount := dateCount c; boolCount := boolCount c |}
       | VBool _ =>
           {| numCount := numCount c; strCount := strCount c;
              dateCount := dateCount c; boolCount := S (boolCount c) |}
       | _ =>
           if negb (isNaN (ToNumber v)) && negb (isEmptyText v)
           then {| numCount := S (numCount c); strCount := strCount c;
                   dateCount := dateCount c; boolCount := boolCount c |}
           else if negb (isNaN (DateParse (ToString v)))
                   && (5 <? String.length (ToString v))
           then {| numCount := numCount c; strCount := strCount c;
                   dateCount := S (dateCount c); boolCount := boolCount c |}
           else {| numCount := numCount c; strCount := S (strCount c);
                   dateCount := dateCount c; boolCount := boolCount c |}
       end.

Definition identifyType (values : list JSValue) : ColumnType.t :=
  let c := fold_left countValue values
             {| numCount := 0; strCount := 0; dateCount := 0; boolCount := 0 |} in
  let total := List.length values in
  if total =? 0 then ColumnType.Unknown
  else if exceeds80 (numCount c) total then ColumnType.Number
  else if exceeds80 (boolCount c) total then ColumnType.Boolean
  else if exceeds80 (dateCount c) total then ColumnType.Date
  else if exceeds80 (strCount c) total then ColumnType.String
  else ColumnType.Mixed.

Definition createColumnProfiles (rows : list DataRow) (headers : list string)
  : list ColumnProfile.t :=
  List.map (fun header =>
    let values := List.map (fun r => getProp r header) rows in
    let nonNullValues := filter (fun v => negb (isMissing v)) values in
    let uniqueValues := distinct [] (List.map ToString nonNullValues) in
    {| ColumnProfile.name := header;
       ColumnProfile.type := identifyType nonNullValues;
       ColumnProfile.missingCount := List.length values - List.length nonNullValues;
       ColumnProfile.missingPercentage :=
         PrimFloat.mul
           (PrimFloat.div (ofNat (List.length values - List.length nonNullValues))
                          (ofNat (List.length values)))
           100%float;
       ColumnProfile.uniqueCount := List.length uniqueValues;
       ColumnProfile.example := match nonNullValues with v :: _ => v | [] => VNull end |})
    headers.

Definition rebuildDataSet (rows : list DataRow) (fileName : string) (fileSize : float)
  : DataSet :=
  let headers := match rows with r :: _ => ObjectKeys r | [] => [] end in
  {| fileName := fileName;
     fileSize := fileSize;
     totalRows := List.length rows;
     headers := headers;
     rows := rows;
     columnProfiles := createColumnProfiles rows headers |}.

End TypeInference.

(** ** The cleaning plan *)

Module ActionType.
Inductive t : Type :=
  impute | remove_duplicates | normalize_headers | cast_type | drop_column.
End ActionType.

Module ImputationStrategy.
Inductive t : Type := mean | median | mode | remove_row | fill_zero | drop_column.
End ImputationStrategy.

Module TypeCastTarget.
Inductive t : Type := Number | String | Date | Boolean.
End TypeCastTarget.

Module Parameters.
Record t : Type := {
  strategy : option ImputationStrategy.t;
  targetType : option TypeCastTarget.t
}.
End Parameters.

Module CleaningAction.
Record t : Type := {
  type : ActionType.t;
  column : option string;
  parameters : option Parameters.t;
  description : string
}.

(** [action.column] when it is truthy: present and not empty. *)
Definition columnGiven (a : t) : option string :=
  match column a with
  | Some c => if String.eqb c "" then None else Some c
  | None => None
  end.

(** [action.parameters?.strategy] *)
Definition strategyGiven (a : t) : option ImputationStrategy.t :=
  match parameters a with
  | Some p => Parameters.strategy p
  | None => None
  end.

(** [action.parameters?.targetType] *)
Definition targetGiven (a : t) : option TypeCastTarget.t :=
  match parameters a with
  | Some p => Parameters.targetType p
  | None => None
  end.
End CleaningAction.

Record CleaningPlan : Type := {
  actions : list CleaningAction.t;
  summary : string
}.

(** ** The store of row objects

    [performDataCleaning] copies the array of rows, not the rows: the
    objects of [cleanedRows] are those of the input until an action
    replaces them.  The store holds every row object at its address; the
    working array and the input array are lists of addresses. *)

Definition Store : Type := list DataRow.

Definition deref (s : Store) (l : nat) : DataRow := nth l s [].

Fixpoint update (l : nat) (r : DataRow) (s : Store) : Store :=
  match s, l with
  | [], _ => []
  | _ :: rest, 0 => r :: rest
  | x :: rest, S l' => x :: update l' r rest
  end.

(** [locs.forEach(r => { ... })] for a body that assigns to properties of
    [r]: [f] maps the object before the body to the object after it. *)
Definition forEachRow (f : DataRow -> DataRow) (locs : list nat) (s : Store) : Store :=
  fold_left (fun s l => update l (f (deref s l)) s) locs s.

(** The same for a body that may throw: the rows before the failing one
    stay assigned. *)
Fixpoint forEachRowTry (f : DataRow -> Result DataRow) (locs : list nat) (s : Store)
  : Store * option JSError :=
  match locs with
  | [] => (s, None)
  | l :: rest =>
      match f (deref s l) with
      | Ok r => forEachRowTry f rest (update l r s)
      | Throw e => (s, Some e)
      end
  end.

Record CleanState : Type := {
  store : Store;
  cleanedRows : list nat;
  currentHeaders : list string
}.

(** The rows of the working array, as [rebuildDataSet] would receive them. *)
Definition currentRows (st : CleanState) : list DataRow :=
  List.map (deref (store st)) (cleanedRows st).

(** [filter] with the callback of [remove_duplicates]: [seen] is the set of
    signatures met so far. *)
Fixpoint filterSeen (A : Type) (sig : A -> string) (seen : list string) (l : list A)
  : list A :=
  match l with
  | [] => []
  | x :: r =>
      if existsb (String.eqb (sig x)) seen then filterSeen sig seen r
      else x :: filterSeen sig (sig x :: seen) r
  end.

Definition normalizeHeader (h : string) : string :=
  JSString.stripUnderscores
    (JSString.collapseRuns
       (fun c => JSString.isWhiteSpace c || negb (JSString.isWordChar c)) false
       (JSString.toLowerCase (JSString.trim h))).

(** The row [normalize_headers] builds from [row] under the renaming. *)
Definition renameRow (newMap : JSObject string) (row : DataRow) : DataRow :=
  fold_left
    (fun newRow k =>
       match getOwn k newMap with
       | Some k' => if String.eqb k' "" then newRow
                    else setProp k' (getProp row k) newRow
       | None => newRow
       end)
    (ObjectKeys row) [].

(** [nums.filter(v => typeof v === 'number' && !isNaN(v))] *)
Fixpoint numericValues (values : list JSValue) : list float :=
  match values with
  | [] => []
  | VNum x :: r => if isNaN x then numericValues r else x :: numericValues r
  | _ :: r => numericValues r
  end.

Definition sum (nums : list float) : float := fold_left PrimFloat.add nums 0%float.

Definition meanOf (nums : list float) : float :=
  PrimFloat.div (sum nums) (ofNat (List.length nums)).

Definition medianOf (nums : list float) : float :=
  let sorted := sortWith (fun a b => PrimFloat.ltb 0%float (PrimFloat.sub a b)) nums in
  let mid := List.length sorted / 2 in
  if negb (List.length sorted mod 2 =? 0) then nth mid sorted PrimFloat.nan
  else PrimFloat.div
         (PrimFloat.add (nth (mid - 1) sorted PrimFloat.nan) (nth mid sorted PrimFloat.nan))
         2%float.

Section CleaningExecutor.
Context {host : JSHost}.

Record ModeScan : Type := {
  counts : Counts;
  maxC : nat;
  modeVal : JSValue
}.

(** The body of the [forEach] that finds the mode.  [counts[s] > maxC]
    holds of a number only: for a text that names a member of
    [Object.prototype] neither [maxC] nor [modeVal] changes. *)
Definition modeStep (m : ModeScan) (v : JSValue) : ModeScan :=
  if negb (isMissing v) then
    let s := ToString v in
    let counts' := countUp s (counts m) in
    match numberAt s counts' with
    | Some n =>
        if maxC m <? n
        then {| counts := counts'; maxC := n; modeVal := v |}
        else {| counts := counts'; maxC := maxC m; modeVal := modeVal m |}
    | None => {| counts := counts'; maxC := maxC m; modeVal := modeVal m |}
    end
  else m.

Definition modeOf (values : list JSValue) : JSValue :=
  modeVal (fold_left modeStep values {| counts := []; maxC := 0; modeVal := VNull |}).

Definition fillValueOf (strat : ImputationStrategy.t) (values : list JSValue) : JSValue :=
  match strat with
  | ImputationStrategy.mean =>
      match numericValues values with
      | [] => VNull
      | nums => VNum (meanOf nums)
      end
  | ImputationStrategy.median =>
      match numericValues values with
      | [] => VNull
      | nums => VNum (medianOf nums)
      end
  | ImputationStrategy.mode => modeOf values
  | ImputationStrategy.fill_zero => VNum 0%float
  | _ => VNull
  end.

(** [if (missing r[col]) r[col] = fillValue] *)
Definition fillRow (col : string) (fillValue : JSValue) (r : DataRow) : DataRow :=
  if isMissing (getProp r col) then setProp col fillValue r else r.

(** The value [cast_type] assigns to a cell holding [val]. *)
Definition castValue (target : TypeCastTarget.t) (val : JSValue) : Result JSValue :=
  match target with
  | TypeCastTarget.Number =>
      let num := ToNumber val in
      Ok (if isNaN num then VNull else VNum num)
  | TypeCastTarget.String =>
      Ok (if isNullish val then VNull else VStr (ToString val))
  | TypeCastTarget.Date =>
      if ToBoolean val then
        let tv := TimeClip (DateParse (ToString val)) in
        if isNaN tv then Throw (RangeError "Invalid time value")
        else Ok (VStr (TimeToISOString tv))
      else Ok VNull
  | TypeCastTarget.Boolean =>
      let s := JSString.toLowerCase (ToString val) in
      Ok (VBool (String.eqb s "true" || String.eqb s "1" || String.eqb s "yes"))
  end.

Definition castRow (col : string) (target : TypeCastTarget.t) (r : DataRow)
  : Result DataRow :=
  match castValue target (getProp r col) with
  | Ok v => Ok (setProp col v r)
  | Throw e => Throw e
  end.

(** Phase 1: one [drop_column] action. *)
Definition dropColumn (st : CleanState) (a : CleaningAction.t) : CleanState :=
  match CleaningAction.columnGiven a with
  | Some c =>
      {| store := forEachRow (deleteProp c) (cleanedRows st) (store st);
         cleanedRows := cleanedRows st;
         currentHeaders := filter (fun h => negb (String.eqb h c)) (currentHeaders st) |}
  | None => st
  end.

Definition isDropColumn (a : CleaningAction.t) : bool :=
  match CleaningAction.type a with
  | ActionType.drop_column => true
  | _ => false
  end.

(** Phase 2: the body of the loop over the plan, for one action. *)
Definition applyAction (a : CleaningAction.t) (st : CleanState)
  : CleanState * option JSError :=
  match CleaningAction.type a with
  | ActionType.drop_column => (st, None)
  | ActionType.remove_duplicates =>
      ({| store := store st;
          cleanedRows :=
            filterSeen (fun l => JSON_stringify (deref (store st) l)) [] (cleanedRows st);
          currentHeaders := currentHeaders st |}, None)
  | ActionType.normalize_headers =>
      let newMap :=
        fold_left (fun m h => setProp h (normalizeHeader h) m) (currentHeaders st) [] in
      let newRows := List.map (renameRow newMap) (currentRows st) in
      ({| store := store st ++ newRows;
          cleanedRows := seq (List.length (store st)) (List.length newRows);
          currentHeaders := List.map normalizeHeader (currentHeaders st) |}, None)
  | ActionType.impute =>
      match CleaningAction.columnGiven a, CleaningAction.strategyGiven a with
      | Some col, Some strat =>
          let values := List.map (fun r => getProp r col) (currentRows st) in
          let fillValue := fillValueOf strat values in
          match strat with
          | ImputationStrategy.remove_row =>
              ({| store := store st;
                  cleanedRows :=
                    filter (fun l => negb (isMissing (getProp (deref (store st) l) col)))
                           (cleanedRows st);
                  currentHeaders := currentHeaders st |}, None)
          | _ =>
              match fillValue with
              | VNull => (st, None)
              | _ =>
                  ({| store := forEachRow (fillRow col fillValue) (cleanedRows st) (store st);
                      cleanedRows := cleanedRows st;
                      currentHeaders := currentHeaders st |}, None)
              end
          end
      | _, _ => (st, None)
      end
  | ActionType.cast_type =>
      match CleaningAction.columnGiven a, CleaningAction.targetGiven a with
      | Some col, Some target =>
          let (s, err) := forEachRowTry (castRow col target) (cleanedRows st) (store st) in
          ({| store := s; cleanedRows := cleanedRows st;
              currentHeaders := currentHeaders st |}, err)
      | _, _ => (st, None)
      end
  end.

(** [for (const action of plan.actions) { ... }], left when an action throws. *)
Fixpoint runActions (l : list CleaningAction.t) (st : CleanState)
  : CleanState * option JSError :=
  match l with
  | [] => (st, None)
  | a :: rest =>
      match applyAction a st with
      | (st', None) => runActions rest st'
      | (st', Some e) => (st', Some e)
      end
  end.

(** What a call leaves behind: the rows the caller's dataset holds after
    it, and the value the returned promise settles to. *)
Record CleaningOutcome : Type := {
  inputRowsAfter : list DataRow;
  settled : Result DataSet
}.

(** The state before the first action: the rows of a [DataSet] are
    distinct objects, the i-th at address i. *)
Definition initialState (dataset : DataSet) : CleanState :=
  {| store := rows dataset;
     cleanedRows := seq 0 (List.length (rows dataset));
     currentHeaders := headers dataset |}.

Definition performDataCleaning (dataset : DataSet) (plan : CleaningPlan)
  : CleaningOutcome :=
  let st1 := fold_left dropColumn (filter isDropColumn (actions plan))
                       (initialState dataset) in
  let (st2, err) := runActions (actions plan) st1 in
  {| inputRowsAfter := firstn (List.length (rows dataset)) (store st2);
     settled :=
       match err with
       | Some e => Throw e
       | None => Ok (rebuildDataSet (currentRows st2) (fileName dataset) (fileSize dataset))
       end |}.

End CleaningExecutor.

(** ** The transformation executor *)

Module TransformationMethod.
Inductive t : Type := label | one_hot | min_max | z_score | log.
End TransformationMethod.

Module TransformationAction.
Record t : Type := {
  column : string;
  method : TransformationMethod.t
}.
End TransformationAction.

(** [Math.min(a, b)] and [Math.max(a, b)]: NaN if an operand is, and -0
    below +0. *)
Definition mathMin2 (a b : float) : float :=
  if PrimFloat.is_nan a || PrimFloat.is_nan b then PrimFloat.nan
  else if PrimFloat.ltb b a then b
  else if PrimFloat.ltb a b then a
  else if PrimFloat.get_sign a then a else b.

Definition mathMax2 (a b : float) : float :=
  if PrimFloat.is_nan a || PrimFloat.is_nan b then PrimFloat.nan
  else if PrimFloat.ltb a b then b
  else if PrimFloat.ltb b a then a
  else if PrimFloat.get_sign a then b else a.

(** [Math.min(...values)] and [Math.max(...values)] *)
Definition mathMin (values : list float) : float :=
  fold_left mathMin2 values PrimFloat.infinity.

Definition mathMax (values : list float) : float :=
  fold_left mathMax2 values PrimFloat.neg_infinity.

Fixpoint indexOf (s : string) (l : list string) : option nat :=
  match l with
  | [] => None
  | x :: r => if String.eqb x s then Some 0
              else match indexOf s r with Some i => Some (S i) | None => None end
  end.

Record TransformState : Type := {
  workRows : list DataRow;
  workHeaders : list string
}.

Section TransformationExecutor.
Context {host : JSHost}.

(** [String(r[col])], the canonical text of a cell. *)
Definition cellText (col : string) (r : DataRow) : string := ToString (getProp r col).

(** [Array.from(new Set(rows.map(r => String(r[col])))).sort()] *)
Definition uniqueTexts (col : string) (rs : list DataRow) : list string :=
  sortedDistinct (List.map (cellText col) rs).

(** [rows.map(r => Number(r[col])).filter(v => !isNaN(v))] *)
Definition numericColumn (col : string) (rs : list DataRow) : list float :=
  filter (fun v => negb (isNaN v)) (List.map (fun r => ToNumber (getProp r col)) rs).

Definition encodedHeader (col : string) : string := col +++ "_encoded".

Definition oneHotHeader (col val : string) : string :=
  col +++ "_" +++ JSString.sanitize val.

Definition indicator (col val : string) (r : DataRow) : JSValue :=
  VNum (if String.eqb (cellText col r) val then 1%float else 0%float).

(** One round of [unique.forEach] in [one_hot]. *)
Definition oneHotStep (col : string) (st : TransformState) (val : string)
  : TransformState :=
  let newHeader := oneHotHeader col val in
  {| workHeaders := workHeaders st ++ [newHeader];
     workRows := List.map (fun r => setProp newHeader (indicator col val r) r)
                          (workRows st) |}.

(** The assignment of [min_max], [z_score] and [log] to one row: cells
    whose [Number(...)] is NaN are skipped. *)
Definition rescaleRow (col : string) (f : float -> option float) (r : DataRow) : DataRow :=
  let val := ToNumber (getProp r col) in
  if negb (isNaN val)
  then match f val with
       | Some x => setProp col (VNum x) r
       | None => r
       end
  else r.

(** The body of the loop over the actions. *)
Definition applyTransformation (st : TransformState) (action : TransformationAction.t)
  : TransformState :=
  let col := TransformationAction.column action in
  match TransformationAction.method action with
  | TransformationMethod.label =>
      let unique := uniqueTexts col (workRows st) in
      {| workRows :=
           List.map (fun r =>
                  setProp (encodedHeader col)
                          (match indexOf (cellText col r) unique with
                           | Some idx => VNum (ofNat idx)
                           | None => VUndefined
                           end) r)
               (workRows st);
         workHeaders := workHeaders st ++ [encodedHeader col] |}
  | TransformationMethod.one_hot =>
      let unique := uniqueTexts col (workRows st) in
      if 50 <? List.length unique then st
      else fold_left (oneHotStep col) unique st
  | TransformationMethod.min_max =>
      let values := numericColumn col (workRows st) in
      let min := mathMin values in
      let max := mathMax values in
      if negb (PrimFloat.eqb max min)
      then {| workRows :=
                List.map (rescaleRow col (fun val =>
                       Some (PrimFloat.div (PrimFloat.sub val min) (PrimFloat.sub max min))))
                    (workRows st);
              workHeaders := workHeaders st |}
      else st
  | TransformationMethod.z_score =>
      let values := numericColumn col (workRows st) in
      let mean := PrimFloat.div (sum values) (ofNat (List.length values)) in
      let stdDev :=
        PrimFloat.sqrt
          (PrimFloat.div
             (sum (List.map (fun v => MathPow (PrimFloat.sub v mean) 2%float) values))
             (ofNat (List.length values))) in
      if negb (PrimFloat.eqb stdDev 0%float)
      then {| workRows :=
                List.map (rescaleRow col (fun val =>
                       Some (PrimFloat.div (PrimFloat.sub val mean) stdDev)))
                    (workRows st);
              workHeaders := workHeaders st |}
      else st
  | TransformationMethod.log =>
      {| workRows :=
           List.map (rescaleRow col (fun val =>
                  if PrimFloat.ltb 0%float val then Some (MathLog val)
                  else if PrimFloat.leb val 0%float then Some 0%float
                  else None))
               (workRows st);
         workHeaders := workHeaders st |}
  end.

(** The rows are a deep copy ([JSON.parse(JSON.stringify(...))]): fresh
    objects, so the executor is a function of their contents. *)
Definition performDataTransformation (dataset : DataSet)
                                     (actions : list TransformationAction.t) : DataSet :=
  let st := fold_left applyTransformation actions
              {| workRows := List.map cloneRow (rows dataset);
                 workHeaders := headers dataset |} in
  rebuildDataSet (workRows st) (fileName dataset) (fileSize dataset).

End TransformationExecutor.

(** ** The hypothesis tests *)

Module TestType.
Inductive t : Type := z_test | t_test | chi_square | anova.

Definition text (ty : t) : string :=
  match ty with
  | z_test => "z-test"
  | t_test => "t-test"
  | chi_square => "chi-square"
  | anova => "anova"
  end.
End TestType.

Module TestParams.
Record t : Type := {
  type : TestType.t;
  targetColumn : string;
  groupColumn : option string;
  secondColumn : option string
}.

(** [params.secondColumn] and [params.groupColumn] when truthy. *)
Definition secondGiven (p : t) : option string :=
  match secondColumn p with
  | Some c => if String.eqb c "" then None else Some c
  | None => None
  end.

Definition groupGiven (p : t) : option string :=
  match groupColumn p with
  | Some c => if String.eqb c "" then None else Some c
  | None => None
  end.
End TestParams.

Module TestResult.
Record t : Type := {
  testName : string;
  statistic : float;
  statisticName : string;
  degreesOfFreedom : Z;
  criticalValue : float;
  isSignificant : bool;
  details : string;
  insights : list string;
  pValue : float
}.
End TestResult.

(** [o[k] = (o[k] || 0) + 1] *)
Definition bump (k : string) (o : JSObject nat) : JSObject nat :=
  setProp k (match getOwn k o with Some c => c | None => 0 end + 1) o.

Definition countOf (k : string) (o : JSObject nat) : nat :=
  match getOwn k o with Some c => c | None => 0 end.

Record Contingency : Type := {
  table : JSObject (JSObject nat);
  rowTotals : JSObject nat;
  colTotals : JSObject nat;
  grandTotal : nat
}.

(** One round of the loop that fills the contingency table, for texts
    that name no member of [Object.prototype]: the three dictionaries are
    read through their own properties.  (Under such a name the code reads
    the inherited member, and [table[rVal][cVal] = ...] then assigns to an
    object shared by the whole program.) *)
Definition tally (col1 col2 : list string) (c : Contingency) (i : nat) : Contingency :=
  let rVal := nth i col1 "undefined" in
  let cVal := nth i col2 "undefined" in
  let inner := match getOwn rVal (table c) with Some o => o | None => [] end in
  {| table := setProp rVal (bump cVal inner) (table c);
     rowTotals := bump rVal (rowTotals c);
     colTotals := bump cVal (colTotals c);
     grandTotal := S (grandTotal c) |}.

Record Grouping : Type := {
  groups : JSObject (list float);
  totalSum : float;
  groupedN : nat
}.

Definition chi2Name : string := "Chi" +++ String (ascii_of_nat 178) EmptyString.

Section HypothesisTesting.
Context {host : JSHost}.

(** [a.reduce((acc, b) => acc + Math.pow(b - m, 2), 0)] *)
Definition sumSquares (m : float) (l : list float) : float :=
  fold_left (fun acc b => PrimFloat.add acc (MathPow (PrimFloat.sub b m) 2%float))
            l 0%float.

(** The body of the [forEach] that groups the rows for ANOVA.  Under a
    text that names a member of [Object.prototype], [groups[gVal]] is that
    member: it is truthy, no array is stored, and [push] is not a function
    of it (the wording of the TypeError is the engine's). *)
Definition groupRow (target group : string) (g : Grouping) (r : DataRow)
  : Result Grouping :=
  let gVal := cellText group r in
  let val := ToNumber (getProp r target) in
  if negb (isNaN val)
  then match getOwn gVal (groups g) with
       | Some l =>
           Ok {| groups := setProp gVal (l ++ [val]) (groups g);
                 totalSum := PrimFloat.add (totalSum g) val;
                 groupedN := S (groupedN g) |}
       | None =>
           if ObjectPrototype.has gVal
           then Throw (TypeError "groups[gVal].push is not a function")
           else Ok {| groups := setProp gVal [val] (groups g);
                      totalSum := PrimFloat.add (totalSum g) val;
                      groupedN := S (groupedN g) |}
       end
  else Ok g.

(** [dataset.rows.forEach(...)], left at the first row that throws. *)
Fixpoint groupRows (target group : string) (rs : list DataRow) (g : Grouping)
  : Result Grouping :=
  match rs with
  | [] => Ok g
  | r :: rest =>
      match groupRow target group g r with
      | Ok g' => groupRows target group rest g'
      | Throw e => Throw e
      end
  end.

Definition grouping (target group : string) (rs : list DataRow) : Result Grouping :=
  groupRows target group rs {| groups := []; totalSum := 0%float; groupedN := 0 |}.

Definition contingency (dataset : DataSet) (c1 c2 : string) : Contingency :=
  fold_left (tally (List.map (cellText c1) (rows dataset))
                   (List.map (cellText c2) (rows dataset)))
            (seq 0 (totalRows dataset))
            {| table := []; rowTotals := []; colTotals := []; grandTotal := 0 |}.

Definition chiStatistic (c : Contingency) : float :=
  fold_left
    (fun acc rKey =>
       let inner := match getOwn rKey (table c) with Some o => o | None => [] end in
       fold_left
         (fun acc cKey =>
            let observed := ofNat (countOf cKey inner) in
            let expected :=
              PrimFloat.div
                (PrimFloat.mul (ofNat (countOf rKey (rowTotals c)))
                               (ofNat (countOf cKey (colTotals c))))
                (ofNat (grandTotal c)) in
            PrimFloat.add acc
              (PrimFloat.div (MathPow (PrimFloat.sub observed expected) 2%float) expected))
         (ObjectKeys inner) acc)
    (ObjectKeys (table c)) 0%float.

(** [ssb] and [ssw] after the loop over [Object.values(groups)]. *)
Definition sumsOfSquares (grandMean : float) (gs : list (list float)) : float * float :=
  fold_left
    (fun (acc : float * float) gData =>
       let gMean := PrimFloat.div (sum gData) (ofNat (List.length gData)) in
       (PrimFloat.add (fst acc)
          (PrimFloat.mul (ofNat (List.length gData))
                         (MathPow (PrimFloat.sub gMean grandMean) 2%float)),
        fold_left (fun ssw val => PrimFloat.add ssw (MathPow (PrimFloat.sub val gMean) 2%float))
                  gData (snd acc)))
    gs (0%float, 0%float).

Definition finish (params : TestParams.t) (statistic : float) (statName : string)
                  (df : Z) (criticalValue : float) (isSignificant : bool)
                  (details : string) (insights : list string) : TestResult.t :=
  {| TestResult.testName := JSString.toUpperCase (TestType.text (TestParams.type params));
     TestResult.statistic := statistic;
     TestResult.statisticName := statName;
     TestResult.degreesOfFreedom := df;
     TestResult.criticalValue := criticalValue;
     TestResult.isSignificant := isSignificant;
     TestResult.details := details;
     TestResult.insights := insights;
     TestResult.pValue := if isSignificant then 0.01%float else 0.2%float |}.

Definition numText (n : nat) : string := NumberToString (ofNat n).

Definition runMeansTest (dataset : DataSet) (params : TestParams.t) : Result TestResult.t :=
  let target := TestParams.targetColumn params in
  let data1 := numericColumn target (rows dataset) in
  let data2 := match TestParams.secondGiven params with
               | Some c => numericColumn c (rows dataset)
               | None => []
               end in
  if (List.length data1 <? 2) || (List.length data2 <? 2)
  then Throw (Error "Not enough numeric data")
  else
    let n1 := List.length data1 in
    let n2 := List.length data2 in
    let mean1 := PrimFloat.div (sum data1) (ofNat n1) in
    let mean2 := PrimFloat.div (sum data2) (ofNat n2) in
    let var1 := PrimFloat.div (sumSquares mean1 data1) (ofNat (n1 - 1)) in
    let var2 := PrimFloat.div (sumSquares mean2 data2) (ofNat (n2 - 1)) in
    let se := PrimFloat.sqrt (PrimFloat.add (PrimFloat.div var1 (ofNat n1))
                                            (PrimFloat.div var2 (ofNat n2))) in
    let statistic := PrimFloat.div (PrimFloat.sub mean1 mean2) se in
    let statName := match TestParams.type params with
                    | TestType.t_test => "t"
                    | _ => "z"
                    end in
    let df := (Z.of_nat n1 + Z.of_nat n2 - 2)%Z in
    let criticalValue := if (30 <? df)%Z then 1.96%float else 2.04%float in
    let isSignificant := PrimFloat.ltb criticalValue (PrimFloat.abs statistic) in
    let second := ToString (match TestParams.secondColumn params with
                            | Some c => VStr c
                            | None => VUndefined
                            end) in
    Ok (finish params statistic statName df criticalValue isSignificant
          ("Mean " +++ target +++ ": " +++ NumberToFixed mean1 2
           +++ ", Mean " +++ second +++ ": " +++ NumberToFixed mean2 2
           +++ ". Standard Error: " +++ NumberToFixed se 4 +++ ".")
          [ if isSignificant
            then "We reject the null hypothesis. There is a significant difference between the means of "
                 +++ target +++ " and " +++ second +++ "."
            else "We fail to reject the null hypothesis. The difference between means is likely due to random chance.";
            "Test Statistic (" +++ statName +++ ") = " +++ NumberToFixed statistic 3
            +++ " vs Critical Value = " +++ NumberToString criticalValue ]).

Definition runChiSquare (dataset : DataSet) (params : TestParams.t) : Result TestResult.t :=
  match TestParams.secondGiven params with
  | None => Throw (Error "Chi-Square requires two categorical columns")
  | Some second =>
      let target := TestParams.targetColumn params in
      let c := contingency dataset target second in
      let statistic := chiStatistic c in
      let nrows := List.length (ObjectKeys (rowTotals c)) in
      let ncols := List.length (ObjectKeys (colTotals c)) in
      let df := ((Z.of_nat nrows - 1) * (Z.of_nat ncols - 1))%Z in
      let chiCritApprox :=
        PrimFloat.add (ofZ df)
          (PrimFloat.mul 1.65%float (PrimFloat.sqrt (PrimFloat.mul 2%float (ofZ df)))) in
      let criticalValue :=
        if (1 <? nrows) && (1 <? ncols) then chiCritApprox else 3.84%float in
      let isSignificant := PrimFloat.ltb criticalValue statistic in
      Ok (finish params statistic chi2Name df criticalValue isSignificant
            ("Contingency Table size: " +++ numText nrows +++ "x" +++ numText ncols
             +++ ". Total Observations: " +++ numText (grandTotal c) +++ ".")
            [ if isSignificant
              then "Significant relationship detected between " +++ target
                   +++ " and " +++ second +++ "."
              else "No significant relationship detected. The variables appear independent.";
              chi2Name +++ " = " +++ NumberToFixed statistic 2
              +++ " (df=" +++ NumberToString (ofZ df) +++ ")" ])
  end.

Definition runAnova (dataset : DataSet) (params : TestParams.t) : Result TestResult.t :=
  match TestParams.groupGiven params with
  | None => Throw (Error "ANOVA requires a group column")
  | Some group =>
      match grouping (TestParams.targetColumn params) group (rows dataset) with
      | Throw e => Throw e
      | Ok g =>
      let k := List.length (ObjectKeys (groups g)) in
      if k <? 2 then Throw (Error "Need at least 2 groups for ANOVA")
      else
        let grandMean := PrimFloat.div (totalSum g) (ofNat (groupedN g)) in
        let (ssb, ssw) := sumsOfSquares grandMean (ObjectValues (groups g)) in
        let dfBetween := (Z.of_nat k - 1)%Z in
        let dfWithin := (Z.of_nat (groupedN g) - Z.of_nat k)%Z in
        let msb := PrimFloat.div ssb (ofZ dfBetween) in
        let msw := PrimFloat.div ssw (ofZ dfWithin) in
        let statistic := PrimFloat.div msb msw in
        let criticalValue := 3%float in
        let isSignificant := PrimFloat.ltb criticalValue statistic in
        Ok (finish params statistic "F" dfBetween criticalValue isSignificant
              ("Groups: " +++ numText k +++ ". Between MS: " +++ NumberToFixed msb 2
               +++ ", Within MS: " +++ NumberToFixed msw 2 +++ ".")
              [ if isSignificant
                then "At least one group mean is significantly different from the others."
                else "No significant difference found between the group means.";
                "F-Statistic = " +++ NumberToFixed statistic 2 ])
      end
  end.

Definition performHypothesisTest (dataset : DataSet) (params : TestParams.t)
  : Result TestResult.t :=
  match TestParams.type params with
  | TestType.t_test | TestType.z_test => runMeansTest dataset params
  | TestType.chi_square => runChiSquare dataset params
  | TestType.anova => runAnova dataset params
  end.

End HypothesisTesting.

(** ** Category counts *)

Module CategoryCount.
Record t : Type := {
  name : string;
  value : CountValue
}.
End CategoryCount.

(** [b.value - a.value > 0]: the difference is NaN when either value is a
    text. *)
Definition countBelow (a b : CountValue) : bool :=
  match a, b with
  | Count x, Count y => x <? y
  | _, _ => false
  end.

Section Aggregation.
Context {host : JSHost}.

(** The body of the [forEach] of [getCategoryCounts]. *)
Definition countRow (column : string) (counts : Counts) (row : DataRow) : Counts :=
  let val := getProp row column in
  if negb (isNullish val) then countUp (ToString val) counts else counts.

(** [limit] is the optional third argument, 10 when it is left out.  When
    a value is a text the comparison of [sort] is not an order and the
    language leaves the arrangement to the engine: of the order, only what
    holds when every value is a number is proved. *)
Definition getCategoryCounts (dataset : DataSet) (column : string) (limit : option Z)
  : list CategoryCount.t :=
  let counts := fold_left (countRow column) (rows dataset) [] in
  sliceTo (match limit with Some n => n | None => 10%Z end)
    (sortWith (fun a b => countBelow (CategoryCount.value a) (CategoryCount.value b))
       (List.map (fun e => {| CategoryCount.name := fst e; CategoryCount.value := snd e |})
            counts)).

End Aggregation.

(** ** Descriptive statistics *)

Module ColumnStats.
Record t : Type := {
  column : string;
  count : nat;
  mean : float;
  median : float;
  mode : JSValue;
  stdDev : float;
  min : float;
  max : float;
  q1 : float;
  q3 : float
}.
End ColumnStats.

Record NumberModeScan : Type := {
  numberCounts : JSObject nat;
  maxCount : nat;
  numberModeVal : float
}.

Module CorrelationResult.
Record t : Type := {
  column1 : string;
  column2 : string;
  value : float
}.
End CorrelationResult.

(** [p.type === 'Number'] *)
Definition isNumberProfile (p : ColumnProfile.t) : bool :=
  match ColumnProfile.type p with
  | ColumnType.Number => true
  | _ => false
  end.

(** [dataset.columnProfiles.filter(p => p.type === 'Number').map(p => p.name)] *)
Definition numericColumns (dataset : DataSet) : list string :=
  List.map ColumnProfile.name (filter isNumberProfile (columnProfiles dataset)).

Section Statistics.
Context {host : JSHost}.

(** The body of the loop that finds the mode of the sorted values; the
    key of a number in [counts] is its text. *)
Definition numberModeStep (m : NumberModeScan) (v : float) : NumberModeScan :=
  let counts' := bump (NumberToString v) (numberCounts m) in
  if maxCount m <? countOf (NumberToString v) counts'
  then {| numberCounts := counts';
          maxCount := countOf (NumberToString v) counts';
          numberModeVal := v |}
  else {| numberCounts := counts'; maxCount := maxCount m;
          numberModeVal := numberModeVal m |}.

(** The statistics of one column.  [Math.floor(n * 0.25)] and
    [Math.floor(n * 0.75)] are [n / 4] and [3 * n / 4]: both products are
    exact for an array length. *)
Definition columnStatistics (dataset : DataSet) (colName : string) : ColumnStats.t :=
  match numericValues (List.map (fun r => getProp r colName) (rows dataset)) with
  | [] =>
      {| ColumnStats.column := colName; ColumnStats.count := 0;
         ColumnStats.mean := 0%float; ColumnStats.median := 0%float;
         ColumnStats.mode := VNull; ColumnStats.stdDev := 0%float;
         ColumnStats.min := 0%float; ColumnStats.max := 0%float;
         ColumnStats.q1 := 0%float; ColumnStats.q3 := 0%float |}
  | unsorted =>
      let values :=
        sortWith (fun a b => PrimFloat.ltb 0%float (PrimFloat.sub a b)) unsorted in
      let n := List.length values in
      let mean := PrimFloat.div (sum values) (ofNat n) in
      let mid := n / 2 in
      let median :=
        if negb (n mod 2 =? 0) then nth mid values PrimFloat.nan
        else PrimFloat.div
               (PrimFloat.add (nth (mid - 1) values PrimFloat.nan)
                              (nth mid values PrimFloat.nan))
               2%float in
      let scan :=
        fold_left numberModeStep values
          {| numberCounts := []; maxCount := 0;
             numberModeVal := nth 0 values PrimFloat.nan |} in
      let avgSquaredDiff :=
        PrimFloat.div
          (sum (List.map (fun v => MathPow (PrimFloat.sub v mean) 2%float) values))
          (ofNat n) in
      {| ColumnStats.column := colName; ColumnStats.count := n;
         ColumnStats.mean := mean; ColumnStats.median := median;
         ColumnStats.mode := VNum (numberModeVal scan);
         ColumnStats.stdDev := PrimFloat.sqrt avgSquaredDiff;
         ColumnStats.min := nth 0 values PrimFloat.nan;
         ColumnStats.max := nth (n - 1) values PrimFloat.nan;
         ColumnStats.q1 := nth (n / 4) values PrimFloat.nan;
         ColumnStats.q3 := nth (3 * n / 4) values PrimFloat.nan |}
  end.

Definition generateStatistics (dataset : DataSet) : list ColumnStats.t :=
  List.map (columnStatistics dataset) (numericColumns dataset).

(** ** Correlations *)

(** [colData[col]]: the cells of the column, NaN where the cell is not a
    number. *)
Definition columnData (dataset : DataSet) (col : string) : list float :=
  List.map (fun r => match getProp r col with
                     | VNum x => if isNaN x then PrimFloat.nan else x
                     | _ => PrimFloat.nan
                     end)
           (rows dataset).

(** The loop over [k]: an index past the end of an array reads
    [undefined], which [isNaN] rejects. *)
Definition validPairs (dataset : DataSet) (data1 data2 : list float) : list (float * float) :=
  fold_left
    (fun acc k =>
       match nth_error data1 k, nth_error data2 k with
       | Some x, Some y => if negb (isNaN x) && negb (isNaN y) then acc ++ [(x, y)] else acc
       | _, _ => acc
       end)
    (seq 0 (totalRows dataset)) [].

Definition pearson (pairs : list (float * float)) : float :=
  let n := ofNat (List.length pairs) in
  let sumX := fold_left (fun acc p => PrimFloat.add acc (fst p)) pairs 0%float in
  let sumY := fold_left (fun acc p => PrimFloat.add acc (snd p)) pairs 0%float in
  let sumXY := fold_left (fun acc p => PrimFloat.add acc (PrimFloat.mul (fst p) (snd p)))
                         pairs 0%float in
  let sumX2 := fold_left (fun acc p => PrimFloat.add acc (MathPow (fst p) 2%float))
                         pairs 0%float in
  let sumY2 := fold_left (fun acc p => PrimFloat.add acc (MathPow (snd p) 2%float))
                         pairs 0%float in
  let numerator := PrimFloat.sub (PrimFloat.mul n sumXY) (PrimFloat.mul sumX sumY) in
  let denominator :=
    PrimFloat.sqrt
      (PrimFloat.mul
         (PrimFloat.sub (PrimFloat.mul n sumX2) (MathPow sumX 2%float))
         (PrimFloat.sub (PrimFloat.mul n sumY2) (MathPow sumY 2%float))) in
  if PrimFloat.eqb denominator 0%float then 0%float
  else PrimFloat.div numerator denominator.

Definition correlate (dataset : DataSet) (col1 col2 : string) : CorrelationResult.t :=
  let pairs := validPairs dataset (columnData dataset col1) (columnData dataset col2) in
  {| CorrelationResult.column1 := col1; CorrelationResult.column2 := col2;
     CorrelationResult.value :=
       if List.length pairs <? 2 then 0%float else pearson pairs |}.

(** The two nested loops: every column with each of the later ones. *)
Fixpoint correlatePairs (dataset : DataSet) (cols : list string) : list CorrelationResult.t :=
  match cols with
  | [] => []
  | c :: rest => List.map (correlate dataset c) rest ++ correlatePairs dataset rest
  end.

(** The final [sort] compares absolute values; when a value is NaN the
    comparison is not an order and the language leaves the arrangement to
    the engine, so only what holds of every arrangement is proved of it. *)
Definition calculateCorrelations (dataset : DataSet) : list CorrelationResult.t :=
  sortWith
    (fun a b => PrimFloat.ltb 0%float
                  (PrimFloat.sub (PrimFloat.abs (CorrelationResult.value b))
                                 (PrimFloat.abs (CorrelationResult.value a))))
    (correlatePairs dataset (numericColumns dataset)).

End Statistics.

(** ** Scatter samples and grouped means *)

Module ScatterPoint.
Record t : Type := {
  x : float;
  y : float
}.
End ScatterPoint.

(** What a call of [getScatterData] ends with: the points, or the
    TypeError of reading a property of [undefined] when [totalRows]
    exceeds the number of rows. *)
Inductive ScatterOutcome : Type :=
| Points (data : list ScatterPoint.t)
| TypeErrorThrown.

Module BarEntry.
Record t : Type := {
  name : string;
  value : float
}.
End BarEntry.


Section ChartData.
Context {host : JSHost}.

(** [Math.max(1, Math.floor(totalRows / limit))] for an integer [limit];
    [None] stands for the infinite step a limit of 0 gives. *)
Definition scatterStep (total : nat) (limit : Z) : option nat :=
  if (0 <? limit)%Z then Some (Nat.max 1 (total / Z.to_nat limit))
  else if (limit =? 0)%Z then None
  else Some 1.

(** The body of the loop for the row at index [i]. *)
Definition scatterPoint (row : DataRow) (xCol yCol : string) (data : list ScatterPoint.t)
  : list ScatterPoint.t :=
  match getProp row xCol, getProp row yCol with
  | VNum x, VNum y =>
      if negb (isNaN x) && negb (isNaN y)
      then data ++ [{| ScatterPoint.x := x; ScatterPoint.y := y |}]
      else data
  | _, _ => data
  end.

(** [for (let i = ...; i < dataset.totalRows; i += step)], at most [fuel]
    rounds. *)
Fixpoint scatterLoop (dataset : DataSet) (xCol yCol : string) (step : option nat)
         (fuel i : nat) (data : list ScatterPoint.t) : ScatterOutcome :=
  match fuel with
  | 0 => Points data
  | S fuel' =>
      if i <? totalRows dataset then
        match nth_error (rows dataset) i with
        | None => TypeErrorThrown
        | Some row =>
            let data' := scatterPoint row xCol yCol data in
            match step with
            | Some s => scatterLoop dataset xCol yCol step fuel' (i + s) data'
            | None => Points data'
            end
        end
      else Points data
  end.

(** [limit] is the optional fourth argument, 500 when it is left out.  The
    step is at least 1, so [totalRows] rounds end the loop. *)
Definition getScatterData (dataset : DataSet) (xCol yCol : string) (limit : option Z)
  : ScatterOutcome :=
  let step := scatterStep (totalRows dataset)
                          (match limit with Some n => n | None => 500%Z end) in
  scatterLoop dataset xCol yCol step (totalRows dataset) 0 [].




End ChartData.

(** ** Histograms *)

Module HistogramBin.
Record t : Type := {
  name : string;
  count : nat
}.
End HistogramBin.

(** What a call of [getHistogramData] ends with: the bins, the RangeError
    of [new Array(bins)] for a length that is no array length, or the
    TypeError of [histogram[bucketIndex].count++] when the index names no
    bin. *)
Inductive HistogramOutcome : Type :=
| Bins (histogram : list HistogramBin.t)
| InvalidArrayLength
| NoSuchBin.

(** [Math.floor(x)] of a finite [x], which is [m * 2^e] up to its sign. *)
Definition floorZ (x : float) : Z :=
  let (f, ex) := PrimFloat.frshiftexp (PrimFloat.abs x) in
  let m := Uint63.to_Z (PrimFloat.normfr_mantissa f) in
  let e := (Uint63.to_Z ex - 2101 - 53)%Z in
  let signed := (if PrimFloat.get_sign x then - m else m)%Z in
  (if 0 <=? e then signed * 2 ^ e else signed / 2 ^ (- e))%Z.

(** The index [Math.floor(q)] after [if (bucketIndex >= bins) bucketIndex =
    bins - 1], when it is an integer: NaN and -Infinity are not. *)
Definition bucketIndex (bins : Z) (q : float) : option Z :=
  if PrimFloat.is_nan q then None
  else if PrimFloat.is_infinity q
  then (if PrimFloat.get_sign q then None else Some (bins - 1)%Z)
  else if (bins <=? floorZ q)%Z then Some (bins - 1)%Z else Some (floorZ q).

(** [histogram[i].count++]: nothing to increment past the last bin. *)
Fixpoint increment (i : nat) (histogram : list HistogramBin.t)
  : option (list HistogramBin.t) :=
  match histogram, i with
  | [], _ => None
  | b :: r, 0 =>
      Some ({| HistogramBin.name := HistogramBin.name b;
               HistogramBin.count := S (HistogramBin.count b) |} :: r)
  | b :: r, S i' =>
      match increment i' r with
      | Some r' => Some (b :: r')
      | None => None
      end
  end.

Section Histogram.
Context {host : JSHost}.

(** The body of [values.forEach]; [None] once the TypeError is thrown. *)
Definition countValueIn (bins : Z) (min binSize : float)
           (acc : option (list HistogramBin.t)) (v : float)
  : option (list HistogramBin.t) :=
  match acc with
  | Some histogram =>
      match bucketIndex bins (PrimFloat.div (PrimFloat.sub v min) binSize) with
      | Some i => if (0 <=? i)%Z then increment (Z.to_nat i) histogram else None
      | None => None
      end
  | None => None
  end.

(** [bins] is the optional third argument, an integer, 10 when it is left
    out. *)
Definition getHistogramData (dataset : DataSet) (column : string) (bins : option Z)
  : HistogramOutcome :=
  let bins := match bins with Some n => n | None => 10%Z end in
  match numericValues (List.map (fun r => getProp r column) (rows dataset)) with
  | [] => Bins []
  | values =>
      let min := mathMin values in
      let max := mathMax values in
      let range := PrimFloat.sub max min in
      let binSize := PrimFloat.div range (ofZ bins) in
      if PrimFloat.eqb range 0%float
      then Bins [{| HistogramBin.name := NumberToString min;
                    HistogramBin.count := List.length values |}]
      else if ((bins <? 0) || (4294967295 <? bins))%Z then InvalidArrayLength
      else
        let histogram :=
          List.map
            (fun i => {| HistogramBin.name :=
                           NumberToFixed
                             (PrimFloat.add min (PrimFloat.mul (ofNat i) binSize)) 1;
                         HistogramBin.count := 0 |})
            (seq 0 (Z.to_nat bins)) in
        match fold_left (countValueIn bins min binSize) values (Some histogram) with
        | Some counted => Bins counted
        | None => NoSuchBin
        end
  end.

End Histogram.

(** ** A host for worked examples

    The conversions computed exactly, on the part of their domain the
    examples of this file use:
    - [NumberToString] prints the exact decimal expansion of a double,
      which is the text the language prints when that expansion has at
      most 15 significant digits and the magnitude lies between 1e-6 and
      1e21;
    - [StringToNumber] reads decimal literals without exponent of at most
      15 digits (the quotient of two exactly represented integers is
      rounded once), and answers NaN otherwise;
    - [DateParse] reads the date-only form YYYY-MM-DD, and
      [TimeToISOString] prints years 0 to 9999;
    - [NumberToFixed] is exact below 1e21; [MathPow] squares and [MathLog]
      is taken at 1 only. *)

Module RefHost.

Definition digits (n : N) : string := NilZero.string_of_uint (N.to_uint n).

(** [|x| = m * 2^e] for a finite [x]. *)
Definition decompose (x : float) : Z * Z :=
  let (f, ex) := PrimFloat.frshiftexp (PrimFloat.abs x) in
  (Uint63.to_Z (PrimFloat.normfr_mantissa f), (Uint63.to_Z ex - 2101 - 53)%Z).

Fixpoint zeros (n : nat) : string :=
  match n with
  | 0 => EmptyString
  | S n' => String "0" (zeros n')
  end.

Definition padLeft (n : nat) (s : string) : string := zeros (n - String.length s) +++ s.

Definition stripZeros (s : string) : string :=
  JSString.dropWhileEnd (fun c => nat_of_ascii c =? 48) s.

Definition exactDecimal (x : float) : string :=
  let (m, e) := decompose x in
  if (0 <=? e)%Z then digits (Z.to_N (m * 2 ^ e))
  else
    let k := Z.to_nat (- e) in
    let d := (2 ^ Z.of_nat k)%Z in
    let frac := stripZeros (padLeft k (digits (Z.to_N ((m mod d) * 5 ^ Z.of_nat k)))) in
    digits (Z.to_N (m / d)) +++ (if String.eqb frac "" then "" else "." +++ frac).

Definition numberToString (x : float) : string :=
  if PrimFloat.is_nan x then "NaN"
  else if PrimFloat.is_zero x then "0"
  else if PrimFloat.is_infinity x then (if PrimFloat.get_sign x then "-Infinity" else "Infinity")
  else (if PrimFloat.get_sign x then "-" else "") +++ exactDecimal x.

(** The digits of a text, and how many follow the point. *)
Fixpoint readDecimal (s : string) (acc : N) (seenPoint : bool) (frac count : nat)
  : option (N * nat * nat) :=
  match s with
  | EmptyString => Some (acc, frac, count)
  | String c r =>
      if JSString.isDigit c
      then readDecimal r (10 * acc + N.of_nat (nat_of_ascii c - 48))%N seenPoint
                       (if seenPoint then S frac else frac) (S count)
      else if (nat_of_ascii c =? 46) && negb seenPoint
      then readDecimal r acc true frac count
      else None
  end.

Definition stringToNumber (s : string) : float :=
  let t := JSString.trim s in
  match t with
  | EmptyString => 0%float
  | String c r =>
      let neg := nat_of_ascii c =? 45 in
      let body := if neg || (nat_of_ascii c =? 43) then r else t in
      match readDecimal body 0 false 0 0 with
      | Some (d, frac, count) =>
          if (count =? 0) || (15 <? count) then PrimFloat.nan
          else
            let q := PrimFloat.div (ofZ (Z.of_N d)) (ofZ (10 ^ Z.of_nat frac)) in
            if neg then PrimFloat.opp q else q
      | None => PrimFloat.nan
      end
  end.

(** The integer a finite double holds, its fraction dropped. *)
Definition toInteger (x : float) : Z :=
  let (m, e) := decompose x in
  ((if PrimFloat.get_sign x then -1 else 1)
   * (if 0 <=? e then m * 2 ^ e else m / 2 ^ (- e)))%Z.

(** Days from 1970-01-01 to the civil date, proleptic Gregorian. *)
Definition daysFromCivil (y m d : Z) : Z :=
  let y' := (if m <=? 2 then y - 1 else y)%Z in
  let era := (y' / 400)%Z in
  let yoe := (y' - era * 400)%Z in
  let doy := ((153 * (if m >? 2 then m - 3 else m + 9) + 2) / 5 + d - 1)%Z in
  let doe := (yoe * 365 + yoe / 4 - yoe / 100 + doy)%Z in
  (era * 146097 + doe - 719468)%Z.

Definition civilFromDays (z : Z) : Z * Z * Z :=
  let z' := (z + 719468)%Z in
  let era := (z' / 146097)%Z in
  let doe := (z' - era * 146097)%Z in
  let yoe := ((doe - doe / 1460 + doe / 36524 - doe / 146096) / 365)%Z in
  let doy := (doe - (365 * yoe + yoe / 4 - yoe / 100))%Z in
  let mp := ((5 * doy + 2) / 153)%Z in
  let d := (doy - (153 * mp + 2) / 5 + 1)%Z in
  let m := (if mp <? 10 then mp + 3 else mp - 9)%Z in
  ((if m <=? 2 then yoe + era * 400 + 1 else yoe + era * 400)%Z, m, d).

Definition number (s : string) : option Z :=
  if JSString.forallb JSString.isDigit s && negb (String.eqb s "")
  then Some (Z.of_N (JSString.decimalValue s 0)) else None.

Definition dateParse (s : string) : float :=
  if (String.length s =? 10)
     && String.eqb (substring 4 1 s) "-" && String.eqb (substring 7 1 s) "-"
  then match number (substring 0 4 s), number (substring 5 2 s), number (substring 8 2 s) with
       | Some y, Some m, Some d =>
           if ((1 <=? m) && (m <=? 12) && (1 <=? d))%Z
              && (let '(y', m', d') := civilFromDays (daysFromCivil y m d) in
                  (y' =? y) && (m' =? m) && (d' =? d))%Z
           then ofZ (daysFromCivil y m d * 86400000)
           else PrimFloat.nan
       | _, _, _ => PrimFloat.nan
       end
  else PrimFloat.nan.

Definition pad (n : nat) (z : Z) : string := padLeft n (digits (Z.to_N z)).

Definition timeToISOString (tv : float) : string :=
  let ms := toInteger tv in
  let '(y, mo, d) := civilFromDays (ms / 86400000) in
  let r := (ms mod 86400000)%Z in
  pad 4 y +++ "-" +++ pad 2 mo +++ "-" +++ pad 2 d +++ "T"
  +++ pad 2 (r / 3600000) +++ ":" +++ pad 2 (r / 60000 mod 60) +++ ":"
  +++ pad 2 (r / 1000 mod 60) +++ "." +++ pad 3 (r mod 1000) +++ "Z".

(** [n] with [n / 10^f - x] closest to zero, the larger of two such. *)
Definition numberToFixed (x : float) (f : nat) : string :=
  if PrimFloat.is_nan x then "NaN"
  else if PrimFloat.is_infinity x then numberToString x
  else
    let (m, e) := decompose x in
    let p := (m * 10 ^ Z.of_nat f)%Z in
    let n := (if 0 <=? e then p * 2 ^ e
              else (2 * p + 2 ^ (- e)) / (2 * 2 ^ (- e)))%Z in
    let s := padLeft (S f) (digits (Z.to_N n)) in
    (if PrimFloat.ltb x 0 then "-" else "")
    +++ substring 0 (String.length s - f) s
    +++ (if f =? 0 then "" else "." +++ substring (String.length s - f) f s).

Definition mathPow (x y : float) : float :=
  if PrimFloat.eqb y 2 then PrimFloat.mul x x else PrimFloat.nan.

Definition mathLog (x : float) : float :=
  if PrimFloat.eqb x 1 then 0%float else PrimFloat.nan.

Definition host : JSHost :=
  {| NumberToString := numberToString;
     StringToNumber := stringToNumber;
     DateParse := dateParse;
     TimeToISOString := timeToISOString;
     NumberToFixed := numberToFixed;
     MathLog := mathLog;
     MathPow := mathPow;
     StringToNumber_empty := eq_refl |}.

End RefHost.

(** ** Vocabulary of the properties *)

Module Category.
Inductive t : Type := Numeric | Bool | DateLike | Text.

Definition eqb (a b : t) : bool :=
  match a, b with
  | Numeric, Numeric | Bool, Bool | DateLike, DateLike | Text, Text => true
  | _, _ => false
  end.
End Category.

Section Vocabulary.
Context {host : JSHost}.

(** The counter the loop of [identifyType] advances for a value that is
    not missing. *)
Definition categoryOf (v : JSValue) : Category.t :=
  match v with
  | VNum _ => Category.Numeric
  | VBool _ => Category.Bool
  | _ =>
      if negb (isNaN (ToNumber v)) && negb (isEmptyText v) then Category.Numeric
      else if negb (isNaN (DateParse (ToString v))) && (5 <? String.length (ToString v))
      then Category.DateLike
      else Category.Text
  end.

(** How many values of a sequence fall in a category. *)
Definition share (c : Category.t) (values : list JSValue) : nat :=
  List.length (filter (fun v => Category.eqb (categoryOf v) c) values).

(** No value of the sequence is missing. *)
Definition present (values : list JSValue) : Prop :=
  Forall (fun v => isMissing v = false) values.

(** [seen.has(s)] *)
Definition member (s : string) (l : list string) : bool := existsb (String.eqb s) l.

(** The working array holds distinct objects of the store. *)
Definition wellFormed (st : CleanState) : Prop :=
  NoDup (cleanedRows st)
  /\ Forall (fun l => l < List.length (store st)) (cleanedRows st).

(** What [cast_type] to Number assigns for a cell holding [v]. *)
Definition numberCell (v : JSValue) : JSValue :=
  if isNaN (ToNumber v) then VNull else VNum (ToNumber v).

(** The values the scan for the mode counts: those that are not missing
    and whose text names no member of [Object.prototype]. *)
Definition counted (v : JSValue) : bool :=
  negb (isMissing v) && negb (ObjectPrototype.has (ToString v)).


(** The strategies that fill, as opposed to remove_row. *)
Definition isFill (strat : ImputationStrategy.t) : Prop :=
  match strat with
  | ImputationStrategy.mean | ImputationStrategy.median
  | ImputationStrategy.mode | ImputationStrategy.fill_zero => True
  | _ => False
  end.

(** The number [counts[s]] holds, 0 when it holds none. *)
Definition countAt (s : string) (c : Counts) : nat :=
  match numberAt s c with Some n => n | None => 0 end.

(** A dictionary of counts holds numbers, all positive, under the keys
    that name no member of [Object.prototype], and texts under the others. *)
Definition countsOk (c : Counts) : Prop :=
  forall s, match getOwn s c with
            | Some (Count n) => ObjectPrototype.has s = false /\ 1 <= n
            | Some (MemberText _ _) => ObjectPrototype.has s = true
            | None => True
            end.

(** What the rounds of [unique.forEach] do to one row. *)
Definition oneHotRow (col : string) (l : list string) (r : DataRow) : DataRow :=
  fold_left (fun r val => setProp (oneHotHeader col val) (indicator col val r) r) l r.


(** [!isNaN(Number(r[col]))]: the cell counts as a numeric observation. *)
Definition convertible (col : string) (r : DataRow) : bool :=
  negb (isNaN (ToNumber (getProp r col))).





(** Where [performDataCleaning] stands when the actions [done] of the plan
    are behind it: every drop_column action of the plan has run, whatever
    its place, then the actions of [done] in their order. *)
Definition stateAfter (ds : DataSet) (plan : CleaningPlan) (done : list CleaningAction.t)
  : CleanState * option JSError :=
  runActions done (fold_left dropColumn (filter isDropColumn (actions plan))
                             (initialState ds)).

(** The rows [performDataTransformation] works on when the actions [done]
    are behind it: the deep copy of the rows of the dataset, transformed by
    [done]. *)
Definition workingCopy (ds : DataSet) (done : list TransformationAction.t)
  : TransformState :=
  fold_left applyTransformation done
            {| workRows := List.map cloneRow (rows ds); workHeaders := headers ds |}.

(** The rows of [l] whose signature no earlier row of [l] has. *)
Definition firstOfEachSignature (A : Type) (sig : A -> string) (l : list A) : list A :=
  List.map snd
    (filter (fun p => negb (member (sig (snd p)) (List.map sig (firstn (fst p) l))))
            (combine (seq 0 (List.length l)) l)).

End Vocabulary.

(** ** Building blocks of the worked examples *)

Module Sample.

(** A dataset as [rebuildDataSet] makes it from rows. *)
Definition dataset (rs : list DataRow) : DataSet :=
  rebuildDataSet (host := RefHost.host) rs "data.csv" 64%float.

Definition action (ty : ActionType.t) (col : option string) (p : option Parameters.t)
  : CleaningAction.t :=
  {| CleaningAction.type := ty; CleaningAction.column := col;
     CleaningAction.parameters := p; CleaningAction.description := "" |}.

Definition impute (col : string) (s : ImputationStrategy.t) : CleaningAction.t :=
  action ActionType.impute (Some col)
         (Some {| Parameters.strategy := Some s; Parameters.targetType := None |}).

Definition cast (col : string) (target : TypeCastTarget.t) : CleaningAction.t :=
  action ActionType.cast_type (Some col)
         (Some {| Parameters.strategy := None; Parameters.targetType := Some target |}).

Definition drop (col : string) : CleaningAction.t :=
  action ActionType.drop_column (Some col) None.

Definition dedup : CleaningAction.t := action ActionType.remove_duplicates None None.

Definition plan (l : list CleaningAction.t) : CleaningPlan :=
  {| actions := l; summary := "" |}.

Definition transform (col : string) (m : TransformationMethod.t) : TransformationAction.t :=
  {| TransformationAction.column := col; TransformationAction.method := m |}.

(** The rows of the dataset a call returned. *)
Definition rowsOf (r : Result DataSet) : option (list DataRow) :=
  match r with
  | Ok d => Some (rows d)
  | Throw _ => None
  end.

End Sample.

(** * Vocabulary of the further properties *)

Unset Implicit Arguments.

Section ProfileVocabulary.
Context {host : JSHost}.




End ProfileVocabulary.

Section CleaningVocabulary.
Context {host : JSHost}.

(** The plan with its drop_column actions moved to the front. *)
Definition dropsFirst (plan : CleaningPlan) : CleaningPlan :=
  {| actions := filter isDropColumn (actions plan)
                ++ filter (fun a => negb (isDropColumn a)) (actions plan);
     summary := summary plan |}.

(** What [cast_type] to Boolean and to String assign for a cell holding [v]. *)
Definition booleanCell (v : JSValue) : JSValue :=
  let s := JSString.toLowerCase (ToString v) in
  VBool (String.eqb s "true" || String.eqb s "1" || String.eqb s "yes").


End CleaningVocabulary.

Section CategoryVocabulary.
Context {host : JSHost}.

(** The texts of the cells of a column that are neither null nor absent. *)
Definition countedTexts (ds : DataSet) (column : string) : list string :=
  List.map ToString
    (filter (fun v => negb (isNullish v)) (List.map (fun r => getProp r column) (rows ds))).

(** What a dictionary of counts holds under [s] once [countUp] has run for
    the texts of [texts]. *)
Definition expectedCount (texts : list string) (s : string) : option CountValue :=
  let n := count_occ string_dec texts s in
  if n =? 0 then None
  else if ObjectPrototype.isFunctionName s then Some (MemberText s n)
  else if ObjectPrototype.isProto s then None
  else Some (Count n).

(** The value of the entry is a number. *)
Definition hasNumber (e : CategoryCount.t) : Prop :=
  exists n, CategoryCount.value e = Count n.

(** Both values are numbers, the second no greater than the first. *)
Definition descending (a b : CategoryCount.t) : Prop :=
  exists x y, CategoryCount.value a = Count x /\ CategoryCount.value b = Count y /\ y <= x.

End CategoryVocabulary.

Section StatisticsVocabulary.
Context {host : JSHost}.

(** The numbers of a column: its cells that are numbers other than NaN. *)
Definition numericCells (ds : DataSet) (col : string) : list float :=
  numericValues (List.map (fun r => getProp r col) (rows ds)).

(** Every element of a list paired with each of the later ones. *)
Fixpoint laterPairs (l : list string) : list (string * string) :=
  match l with
  | [] => []
  | c :: rest => List.map (pair c) rest ++ laterPairs rest
  end.

(** The record [generateStatistics] gives a column without numbers. *)
Definition zeroStats (col : string) : ColumnStats.t :=
  {| ColumnStats.column := col; ColumnStats.count := 0;
     ColumnStats.mean := 0%float; ColumnStats.median := 0%float;
     ColumnStats.mode := VNull; ColumnStats.stdDev := 0%float;
     ColumnStats.min := 0%float; ColumnStats.max := 0%float;
     ColumnStats.q1 := 0%float; ColumnStats.q3 := 0%float |}.

End StatisticsVocabulary.

Section ChartVocabulary.
Context {host : JSHost}.

(** The point is read off a row: both cells are numbers other than NaN. *)
Definition pointOfRow (ds : DataSet) (xCol yCol : string) (p : ScatterPoint.t) : Prop :=
  exists r,
    In r (rows ds)
    /\ getProp r xCol = VNum (ScatterPoint.x p)
    /\ getProp r yCol = VNum (ScatterPoint.y p)
    /\ isNaN (ScatterPoint.x p) = false
    /\ isNaN (ScatterPoint.y p) = false.


End ChartVocabulary.

Section ModeVocabulary.
Context {host : JSHost}.

(** The texts of the values the scan for the mode counts. *)
Definition modeTexts (values : list JSValue) : list string :=
  List.map ToString (filter counted values).

(** What the scan for the mode has established after the values [seen]. *)
Definition modeScanInvariant (seen : list JSValue) (m : ModeScan) : Prop :=
  countsOk (counts m)
  /\ (forall s, countAt s (counts m) = count_occ string_dec (modeTexts seen) s)
  /\ (forall s, countAt s (counts m) <= maxC m)
  /\ (maxC m = 0 -> modeVal m = VNull)
  /\ (1 <= maxC m ->
      In (modeVal m) seen
      /\ counted (modeVal m) = true
      /\ countAt (ToString (modeVal m)) (counts m) = maxC m).

End ModeVocabulary.

Section ResultVocabulary.
Context {host : JSHost}.


End ResultVocabulary.

Section HistogramVocabulary.

(** The values a histogram has counted. *)
Definition countedValues (histogram : list HistogramBin.t) : nat :=
  list_sum (List.map HistogramBin.count histogram).

End HistogramVocabulary.

Section HeaderVocabulary.


(** The characters of a normalised header: [[a-z0-9_]]. *)
Definition headerChar (c : ascii) : bool :=
  JSString.isLower c || JSString.isDigit c || JSString.isUnderscore c.

(** What is left of a text after [dropWhile] does not begin in the class. *)
Definition beginsOutside (q : ascii -> bool) (s : string) : bool :=
  match s with
  | EmptyString => true
  | String c _ => negb (q c)
  end.

End HeaderVocabulary.

(** * Properties *)

Unset Implicit Arguments.

(** ** Objects: reading after writing *)

Section ObjectFacts.
Variable V : Type.

Lemma getOwn_replaceOwn_same (k : string) (v : V) (o : JSObject V) :
  hasOwn k o = true -> getOwn k (replaceOwn k v o) = Some v.
Proof.
  unfold hasOwn. induction o as [|[k' v'] r IH]; simpl; [discriminate|].
  destruct (String.eqb k' k) eqn:E; simpl.
  - now rewrite String.eqb_refl.
  - rewrite E. exact IH.
Qed.

Lemma getOwn_replaceOwn_other (k k' : string) (v : V) (o : JSObject V) :
  k' <> k -> getOwn k' (replaceOwn k v o) = getOwn k' o.
Proof.
  intros Hne. induction o as [|[k0 v0] r IH]; simpl; [reflexivity|].
  destruct (String.eqb k0 k) eqn:E; simpl.
  - apply String.eqb_eq in E. subst k0.
    destruct (String.eqb k k') eqn:E'; [|reflexivity].
    apply String.eqb_eq in E'. congruence.
  - destruct (String.eqb k0 k'); [reflexivity|exact IH].
Qed.

Lemma getOwn_insertIndexed_same (i : N) (k : string) (v : V) (o : JSObject V) :
  getOwn k o = None -> getOwn k (insertIndexed i k v o) = Some v.
Proof.
  induction o as [|[k0 v0] r IH]; simpl; intros Hn.
  - now rewrite String.eqb_refl.
  - destruct (String.eqb k0 k) eqn:E; [discriminate|].
    destruct (JSString.arrayIndex k0) as [j|]; [destruct (j <? i)%N|]; simpl;
      rewrite ?E, ?String.eqb_refl; auto.
Qed.

Lemma getOwn_insertIndexed_other (i : N) (k k' : string) (v : V) (o : JSObject V) :
  k' <> k -> getOwn k' (insertIndexed i k v o) = getOwn k' o.
Proof.
  intros Hne.
  assert (Hk : String.eqb k k' = false) by (apply String.eqb_neq; congruence).
  induction o as [|[k0 v0] r IH]; simpl.
  - now rewrite Hk.
  - destruct (JSString.arrayIndex k0) as [j|]; [destruct (j <? i)%N|]; simpl;
      rewrite ?Hk; try reflexivity.
    destruct (String.eqb k0 k'); [reflexivity|exact IH].
Qed.

Lemma getOwn_app (k : string) (o1 o2 : JSObject V) :
  getOwn k (o1 ++ o2) = match getOwn k o1 with Some v => Some v | None => getOwn k o2 end.
Proof.
  induction o1 as [|[k0 v0] r IH]; simpl; [reflexivity|].
  destruct (String.eqb k0 k); [reflexivity|exact IH].
Qed.

Lemma getOwn_setProp_same (k : string) (v : V) (o : JSObject V) :
  getOwn k (setProp k v o) = Some v.
Proof.
  unfold setProp. destruct (hasOwn k o) eqn:H.
  - now apply getOwn_replaceOwn_same.
  - assert (Hn : getOwn k o = None).
    { unfold hasOwn in H. destruct (getOwn k o); [discriminate|reflexivity]. }
    destruct (JSString.arrayIndex k).
    + now apply getOwn_insertIndexed_same.
    + rewrite getOwn_app, Hn. simpl. now rewrite String.eqb_refl.
Qed.

Lemma getOwn_setProp_other (k k' : string) (v : V) (o : JSObject V) :
  k' <> k -> getOwn k' (setProp k v o) = getOwn k' o.
Proof.
  intros Hne. unfold setProp. destruct (hasOwn k o).
  - now apply getOwn_replaceOwn_other.
  - destruct (JSString.arrayIndex k).
    + now apply getOwn_insertIndexed_other.
    + rewrite getOwn_app. destruct (getOwn k' o); [reflexivity|].
      simpl. destruct (String.eqb k k') eqn:E; [|reflexivity].
      apply String.eqb_eq in E. congruence.
Qed.

End ObjectFacts.

Lemma getProp_setProp_same (k : string) (v : JSValue) (r : DataRow) :
  getProp (setProp k v r) k = v.
Proof. unfold getProp. now rewrite getOwn_setProp_same. Qed.

Lemma getProp_setProp_other (k k' : string) (v : JSValue) (r : DataRow) :
  k' <> k -> getProp (setProp k v r) k' = getProp r k'.
Proof. intros H. unfold getProp. now rewrite getOwn_setProp_other. Qed.

(** ** Type inference: the 80% rule *)

Section TypeInferenceFacts.
Context {host : JSHost}.

Lemma countValue_present (c : TypeCounts) (v : JSValue) :
  isMissing v = false ->
  countValue c v =
    {| numCount := numCount c + (if Category.eqb (categoryOf v) Category.Numeric then 1 else 0);
       strCount := strCount c + (if Category.eqb (categoryOf v) Category.Text then 1 else 0);
       dateCount := dateCount c + (if Category.eqb (categoryOf v) Category.DateLike then 1 else 0);
       boolCount := boolCount c + (if Category.eqb (categoryOf v) Category.Bool then 1 else 0) |}.
Proof.
  intros Hm. unfold countValue, categoryOf. rewrite Hm.
  destruct c as [n s d b]; simpl.
  destruct v as [| |bv|x|str]; simpl in *; try discriminate;
    repeat match goal with
           | |- context [if ?t then _ else _] => destruct t; simpl
           end;
    f_equal; lia.
Qed.

Lemma counts_fold (values : list JSValue) :
  present values ->
  forall c,
    fold_left countValue values c =
      {| numCount := numCount c + share Category.Numeric values;
         strCount := strCount c + share Category.Text values;
         dateCount := dateCount c + share Category.DateLike values;
         boolCount := boolCount c + share Category.Bool values |}.
Proof.
  unfold share. induction 1 as [|v vs Hv Hvs IH]; intros c; simpl.
  - destruct c; simpl; f_equal; lia.
  - rewrite IH, (countValue_present c v Hv). simpl.
    destruct (categoryOf v); simpl; f_equal; lia.
Qed.

Lemma shares_total (values : list JSValue) :
  share Category.Numeric values + share Category.Bool values
  + share Category.DateLike values + share Category.Text values = List.length values.
Proof.
  unfold share. induction values as [|v vs IH]; simpl; [reflexivity|].
  destruct (categoryOf v); simpl; lia.
Qed.

Lemma identifyType_shares (values : list JSValue) :
  present values ->
  identifyType values =
    let total := List.length values in
    if total =? 0 then ColumnType.Unknown
    else if exceeds80 (share Category.Numeric values) total then ColumnType.Number
    else if exceeds80 (share Category.Bool values) total then ColumnType.Boolean
    else if exceeds80 (share Category.DateLike values) total then ColumnType.Date
    else if exceeds80 (share Category.Text values) total then ColumnType.String
    else ColumnType.Mixed.
Proof.
  intros Hp. unfold identifyType. rewrite (counts_fold values Hp). reflexivity.
Qed.

(** C3, as amended.  For every sequence of non-missing values: a category
    whose share is strictly above 80% decides the type (Number, Boolean,
    Date or String); when no share is above 80% the type is Mixed; the
    empty sequence is Unknown. *)
Theorem identifyType_above_80_percent (values : list JSValue) :
  present values ->
  let total := List.length values in
  (total = 0 -> identifyType values = ColumnType.Unknown)
  /\ (4 * total < 5 * share Category.Numeric values -> identifyType values = ColumnType.Number)
  /\ (4 * total < 5 * share Category.Bool values -> identifyType values = ColumnType.Boolean)
  /\ (4 * total < 5 * share Category.DateLike values -> identifyType values = ColumnType.Date)
  /\ (4 * total < 5 * share Category.Text values -> identifyType values = ColumnType.String)
  /\ (0 < total ->
      5 * share Category.Numeric values <= 4 * total ->
      5 * share Category.Bool values <= 4 * total ->
      5 * share Category.DateLike values <= 4 * total ->
      5 * share Category.Text values <= 4 * total ->
      identifyType values = ColumnType.Mixed).
Proof.
  intros Hp total. rewrite (identifyType_shares values Hp). fold total.
  pose proof (shares_total values) as Ht. fold total in Ht.
  unfold exceeds80.
  repeat split; intros;
    repeat match goal with
           | |- context [?a =? ?b] => destruct (Nat.eqb_spec a b)
           | |- context [?a <? ?b] => destruct (Nat.ltb_spec a b)
           end; try reflexivity; try lia.
Qed.

End TypeInferenceFacts.

(** The rule at work: five numbers and one numeric text. *)
Lemma identifyType_above_80_percent_witness :
  identifyType (host := RefHost.host)
    [VNum 1; VNum 2; VNum 3; VNum 4; VNum 5; VStr "12"] = ColumnType.Number.
Proof.
  refine (proj1 (proj2 (@identifyType_above_80_percent RefHost.host
            [VNum 1; VNum 2; VNum 3; VNum 4; VNum 5; VStr "12"] _)) _).
  - repeat constructor.
  - vm_compute. lia.
Defined.

(** C3 as stated fails at exactly 80%: four numbers and one boolean are
    80% numeric, and the inferred type is Mixed. *)
Lemma identifyType_at_80_percent_is_Mixed :
  let values := [VNum 1; VNum 2; VNum 3; VNum 4; VBool true] in
  present values
  /\ 5 * share (host := RefHost.host) Category.Numeric values = 4 * List.length values
  /\ identifyType (host := RefHost.host) values = ColumnType.Mixed.
Proof.
  repeat split.
  repeat constructor.
Qed.

(** The integer test of [exceeds80] against the comparison of doubles the
    source writes, on every count and total up to 150. *)
Example exceeds80_agrees_with_doubles :
  forallb (fun total =>
             forallb (fun count =>
                        Bool.eqb (PrimFloat.ltb 0.8%float
                                    (PrimFloat.div (ofNat count) (ofNat total)))
                                 (exceeds80 count total))
                     (seq 0 (S total)))
          (seq 1 150) = true.
Proof. vm_compute. reflexivity. Qed.

(** ** Deduplication keeps first occurrences *)

Section FilterSeen.
Variable A : Type.
Variable sig : A -> string.

Lemma member_In (s : string) (l : list string) : member s l = true <-> In s l.
Proof.
  unfold member. rewrite existsb_exists. split.
  - intros [x [Hx He]]. apply String.eqb_eq in He. now subst.
  - intros H. exists s. split; [exact H|apply String.eqb_refl].
Qed.

Lemma member_ext (s : string) (l1 l2 : list string) :
  (In s l1 <-> In s l2) -> member s l1 = member s l2.
Proof.
  intros H. destruct (member s l1) eqn:E1, (member s l2) eqn:E2; try reflexivity.
  - apply member_In, H, member_In in E1. congruence.
  - apply member_In, H, member_In in E2. congruence.
Qed.

Lemma filterSeen_ext (l : list A) :
  forall seen1 seen2,
    (forall s, In s seen1 <-> In s seen2) ->
    filterSeen sig seen1 l = filterSeen sig seen2 l.
Proof.
  induction l as [|x r IH]; intros seen1 seen2 H; simpl; [reflexivity|].
  fold (member (sig x) seen1). fold (member (sig x) seen2).
  rewrite (member_ext (sig x) seen1 seen2 (H (sig x))).
  destruct (member (sig x) seen2).
  - now apply IH.
  - f_equal. apply IH. intros s. simpl. rewrite H. reflexivity.
Qed.

(** The signatures of the kept rows are those of all rows. *)
Lemma filterSeen_sigs (l : list A) :
  forall seen s,
    In s seen \/ In s (List.map sig (filterSeen sig seen l))
    <-> In s seen \/ In s (List.map sig l).
Proof.
  induction l as [|x r IH]; intros seen s; simpl; [reflexivity|].
  fold (member (sig x) seen).
  destruct (member (sig x) seen) eqn:E.
  - apply member_In in E. rewrite IH. split; intros [H|H]; auto.
    destruct H as [H|H]; [subst; auto|auto].
  - simpl. specialize (IH (sig x :: seen) s). simpl in IH. tauto.
Qed.

Lemma filterSeen_app (l1 l2 : list A) :
  forall seen,
    filterSeen sig seen (l1 ++ l2)
    = filterSeen sig seen l1 ++ filterSeen sig (List.map sig l1 ++ seen) l2.
Proof.
  induction l1 as [|x r IH]; intros seen; simpl; [reflexivity|].
  fold (member (sig x) seen).
  destruct (member (sig x) seen) eqn:E.
  - rewrite IH. f_equal. apply filterSeen_ext. intros s.
    apply member_In in E. simpl. rewrite !in_app_iff. split; intros H.
    + tauto.
    + destruct H as [H|H]; [|tauto]. subst. tauto.
  - simpl. rewrite IH. do 2 f_equal. apply filterSeen_ext. intros s.
    simpl. rewrite !in_app_iff. simpl. tauto.
Qed.

Lemma filterSeen_map (B : Type) (f : B -> A) (l : list B) :
  forall seen,
    List.map f (filterSeen (fun b => sig (f b)) seen l) = filterSeen sig seen (List.map f l).
Proof.
  induction l as [|x r IH]; intros seen; simpl; [reflexivity|].
  destruct (existsb (String.eqb (sig (f x))) seen); simpl; now rewrite IH.
Qed.

(** Where a row stands decides its fate: it follows what its predecessors
    left, unless one of them, equivalently one that was kept, has its
    signature. *)
Lemma filterSeen_position (pre : list A) (x : A) (post : list A) :
  exists post',
    filterSeen sig [] (pre ++ x :: post)
    = filterSeen sig [] pre
      ++ (if member (sig x) (List.map sig pre) then [] else [x]) ++ post'
    /\ member (sig x) (List.map sig pre)
       = member (sig x) (List.map sig (filterSeen sig [] pre)).
Proof.
  rewrite filterSeen_app. simpl. rewrite app_nil_r.
  fold (member (sig x) (List.map sig pre)).
  assert (Hm : member (sig x) (List.map sig pre)
               = member (sig x) (List.map sig (filterSeen sig [] pre))).
  { apply member_ext. pose proof (filterSeen_sigs pre [] (sig x)) as H.
    simpl in H. tauto. }
  destruct (member (sig x) (List.map sig pre)); eexists;
    (split; [simpl; reflexivity|exact Hm]).
Qed.

Lemma filterSeen_after (pre l : list A) :
  filterSeen sig (List.map sig pre) l
  = List.map snd
      (filter (fun p => negb (member (sig (snd p))
                                     (List.map sig (firstn (fst p) (pre ++ l)))))
              (combine (seq (List.length pre) (List.length l)) l)).
Proof.
  revert pre. induction l as [|x r IH]; intros pre; [reflexivity|].
  cbn [filterSeen List.length seq combine filter].
  cbn [fst snd].
  rewrite firstn_app, Nat.sub_diag, firstn_all. cbn [firstn]. rewrite app_nil_r.
  fold (member (sig x) (List.map sig pre)).
  assert (Htail : forall seen,
            (forall s, In s seen <-> In s (List.map sig (pre ++ [x]))) ->
            filterSeen sig seen r
            = List.map snd
                (filter (fun p => negb (member (sig (snd p))
                                               (List.map sig (firstn (fst p) (pre ++ x :: r)))))
                        (combine (seq (S (List.length pre)) (List.length r)) r))).
  { intros seen Hseen.
    rewrite (filterSeen_ext r seen (List.map sig (pre ++ [x])) Hseen), IH.
    rewrite <- app_assoc, length_app. simpl.
    now replace (List.length pre + 1) with (S (List.length pre)) by lia. }
  destruct (member (sig x) (List.map sig pre)) eqn:E; cbn [negb map snd].
  - apply Htail. intros s. rewrite map_app, in_app_iff. simpl.
    apply member_In in E. split; [tauto|]. intros [H|[<-|[]]]; assumption.
  - f_equal. apply Htail. intros s. rewrite map_app, in_app_iff. simpl. tauto.
Qed.

(** Deduplication keeps a row exactly when no earlier row has its
    signature. *)
Lemma filterSeen_firsts (l : list A) :
  filterSeen sig [] l = firstOfEachSignature sig l.
Proof. exact (filterSeen_after [] l). Qed.

Lemma filterSeen_sigs_NoDup (l : list A) :
  forall seen,
    NoDup (List.map sig (filterSeen sig seen l))
    /\ forall s, In s (List.map sig (filterSeen sig seen l)) -> ~ In s seen.
Proof.
  induction l as [|x r IH]; intros seen; simpl.
  - split; [constructor|tauto].
  - fold (member (sig x) seen). destruct (member (sig x) seen) eqn:E; [apply IH|].
    destruct (IH (sig x :: seen)) as [Hnd Hout]. simpl. split.
    + constructor; [|exact Hnd]. intros H. apply (Hout _ H). now left.
    + intros s [<-|H].
      * rewrite <- member_In. congruence.
      * intros Hs. apply (Hout _ H). now right.
Qed.

End FilterSeen.

(** C4 as stated fails: two rows with the same fields, stored in a
    different order, are both kept. *)
Lemma remove_duplicates_depends_on_field_order :
  let r1 := [("a", VNum 1); ("b", VNum 2)] in
  let r2 := [("b", VNum 2); ("a", VNum 1)] in
  (forall k, getProp r1 k = getProp r2 k)
  /\ Sample.rowsOf
       (settled (performDataCleaning (host := RefHost.host)
                   (Sample.dataset [r1; r2]) (Sample.plan [Sample.dedup])))
     = Some [r1; r2].
Proof.
  split.
  - intros k. unfold getProp. cbv beta iota delta [getOwn].
    destruct (String.eqb_spec "a" k), (String.eqb_spec "b" k);
      try reflexivity; congruence.
  - vm_compute. reflexivity.
Qed.

(** ** The store under in-place assignments *)

Lemma length_update (l : nat) (r : DataRow) (s : Store) :
  List.length (update l r s) = List.length s.
Proof.
  revert l. induction s as [|x rest IH]; intros [|l]; simpl; auto.
Qed.

Lemma deref_update_same (l : nat) (r : DataRow) (s : Store) :
  l < List.length s -> deref (update l r s) l = r.
Proof.
  unfold deref. revert l. induction s as [|x rest IH]; intros [|l] H; simpl in *;
    try lia; [reflexivity|]. apply IH. lia.
Qed.

Lemma deref_update_other (l l' : nat) (r : DataRow) (s : Store) :
  l' <> l -> deref (update l r s) l' = deref s l'.
Proof.
  unfold deref. revert l l'.
  induction s as [|x rest IH]; intros [|l] [|l'] H; simpl; try reflexivity; try congruence.
  apply IH. congruence.
Qed.

Lemma length_forEachRow (f : DataRow -> DataRow) (locs : list nat) :
  forall s, List.length (forEachRow f locs s) = List.length s.
Proof.
  unfold forEachRow. induction locs as [|l rest IH]; intros s; simpl; [reflexivity|].
  rewrite IH. apply length_update.
Qed.

Lemma deref_forEachRow_out (f : DataRow -> DataRow) (locs : list nat) (l : nat) :
  forall s, ~ In l locs -> deref (forEachRow f locs s) l = deref s l.
Proof.
  unfold forEachRow. induction locs as [|l0 rest IH]; intros s Hn; simpl; [reflexivity|].
  rewrite IH by (intros H; apply Hn; now right).
  apply deref_update_other. intros ->. apply Hn. now left.
Qed.

Lemma deref_forEachRow_in (f : DataRow -> DataRow) (locs : list nat) (l : nat) :
  forall s,
    NoDup locs -> Forall (fun l => l < List.length s) locs -> In l locs ->
    deref (forEachRow f locs s) l = f (deref s l).
Proof.
  induction locs as [|l0 rest IH]; intros s Hnd Hb Hin; [destruct Hin|].
  inversion Hnd as [|? ? Hl0 Hnd']; subst. inversion Hb as [|? ? Hb0 Hb']; subst.
  change (forEachRow f (l0 :: rest) s)
    with (forEachRow f rest (update l0 (f (deref s l0)) s)).
  destruct Hin as [->|Hin].
  - rewrite deref_forEachRow_out by exact Hl0. now apply deref_update_same.
  - rewrite IH; auto.
    + rewrite deref_update_other; [reflexivity|]. intros ->. contradiction.
    + rewrite length_update. exact Hb'.
Qed.

Lemma map_deref_forEachRow (f : DataRow -> DataRow) (locs : list nat) (s : Store) :
  NoDup locs -> Forall (fun l => l < List.length s) locs ->
  List.map (deref (forEachRow f locs s)) locs = List.map f (List.map (deref s) locs).
Proof.
  intros Hnd Hb. rewrite map_map. apply map_ext_in. intros l Hl.
  now apply deref_forEachRow_in.
Qed.

Lemma forEachRowTry_total (f : DataRow -> Result DataRow) (g : DataRow -> DataRow)
      (locs : list nat) :
  (forall r, f r = Ok (g r)) ->
  forall s, forEachRowTry f locs s = (forEachRow g locs s, None).
Proof.
  intros H. induction locs as [|l rest IH]; intros s; simpl; [reflexivity|].
  rewrite H. apply IH.
Qed.

(** A row whose body throws stops the loop, at that row or before. *)
Lemma forEachRowTry_throws (f : DataRow -> Result DataRow) (locs : list nat) (l : nat) :
  forall s,
    In l locs -> isThrow (f (deref s l)) = true ->
    exists s' l' e,
      forEachRowTry f locs s = (s', Some e) /\ In l' locs /\ f (deref s' l') = Throw e.
Proof.
  induction locs as [|l0 rest IH]; intros s Hin Hthrow; [destruct Hin|].
  simpl. destruct (f (deref s l0)) as [r|e] eqn:E.
  - assert (Hne : l <> l0) by (intros ->; rewrite E in Hthrow; discriminate).
    destruct Hin as [Heq|Hin]; [congruence|].
    destruct (IH (update l0 r s) Hin) as (s' & l' & e & H1 & H2 & H3).
    + now rewrite deref_update_other.
    + exists s', l', e. auto.
  - exists s, l0, e. auto.
Qed.

Lemma map_deref_seq (s : Store) : List.map (deref s) (seq 0 (List.length s)) = s.
Proof.
  unfold deref. apply nth_ext with (d := []) (d' := []).
  - now rewrite length_map, length_seq.
  - intros n Hn. rewrite length_map, length_seq in Hn.
    rewrite (nth_indep _ [] (nth 0 s [])) by now rewrite length_map, length_seq.
    rewrite (map_nth (fun l => nth l s [])). now rewrite seq_nth.
Qed.

Section CleaningFacts.
Context {host : JSHost}.

Lemma currentRows_initial (ds : DataSet) : currentRows (initialState ds) = rows ds.
Proof. unfold currentRows, initialState. simpl. apply map_deref_seq. Qed.

Lemma wellFormed_initial (ds : DataSet) : wellFormed (initialState ds).
Proof.
  split; simpl.
  - apply seq_NoDup.
  - apply Forall_forall. intros l Hl. apply in_seq in Hl. lia.
Qed.

Lemma length_forEachRowTry (f : DataRow -> Result DataRow) (locs : list nat) :
  forall s, List.length (fst (forEachRowTry f locs s)) = List.length s.
Proof.
  induction locs as [|l rest IH]; intros s; simpl; [reflexivity|].
  destruct (f (deref s l)); [|reflexivity]. rewrite IH. apply length_update.
Qed.

Lemma wellFormed_same_rows (st : CleanState) (s : Store) (hs : list string) :
  wellFormed st -> List.length s = List.length (store st) ->
  wellFormed {| store := s; cleanedRows := cleanedRows st; currentHeaders := hs |}.
Proof.
  intros [Hnd Hb] Hlen. split; simpl; [exact Hnd|]. now rewrite Hlen.
Qed.

Lemma wellFormed_filter (st : CleanState) (locs : list nat) (hs : list string) :
  wellFormed st -> NoDup locs -> incl locs (cleanedRows st) ->
  wellFormed {| store := store st; cleanedRows := locs; currentHeaders := hs |}.
Proof.
  intros [Hnd Hb] Hnd' Hincl. split; simpl; [exact Hnd'|].
  rewrite Forall_forall in *. auto.
Qed.

Lemma filterSeen_incl (A : Type) (sig : A -> string) (l : list A) :
  forall seen, incl (filterSeen sig seen l) l.
Proof.
  induction l as [|x r IH]; intros seen; simpl; [apply incl_refl|].
  destruct (existsb _ seen).
  - apply incl_tl, IH.
  - apply incl_cons; [now left|apply incl_tl, IH].
Qed.

Lemma filterSeen_NoDup (A : Type) (sig : A -> string) (l : list A) :
  forall seen, NoDup l -> NoDup (filterSeen sig seen l).
Proof.
  induction l as [|x r IH]; intros seen Hnd; simpl; [constructor|].
  inversion Hnd; subst. destruct (existsb _ seen); [now apply IH|].
  constructor; [|now apply IH].
  intros Hin. now apply filterSeen_incl in Hin.
Qed.

(** Every state the loop over the plan reaches keeps its rows at distinct,
    allocated addresses. *)
Lemma wellFormed_dropColumn (st : CleanState) (a : CleaningAction.t) :
  wellFormed st -> wellFormed (dropColumn st a).
Proof.
  intros Hwf. unfold dropColumn. destruct (CleaningAction.columnGiven a); [|exact Hwf].
  apply wellFormed_same_rows; [exact Hwf|apply length_forEachRow].
Qed.

Lemma wellFormed_applyAction (a : CleaningAction.t) (st : CleanState) :
  wellFormed st -> wellFormed (fst (applyAction a st)).
Proof.
  intros Hwf. unfold applyAction.
  destruct (CleaningAction.type a); simpl.
  - destruct (CleaningAction.columnGiven a) as [col|]; [|exact Hwf].
    destruct (CleaningAction.strategyGiven a) as [strat|]; [|exact Hwf].
    assert (Hfill : forall v,
      wellFormed {| store := forEachRow (fillRow col v) (cleanedRows st) (store st);
                    cleanedRows := cleanedRows st; currentHeaders := currentHeaders st |}).
    { intros v. apply wellFormed_same_rows; [exact Hwf|apply length_forEachRow]. }
    set (fv := fillValueOf strat _). clearbody fv.
    destruct strat; try (destruct fv; simpl; solve [exact Hwf | apply Hfill]).
    simpl. apply wellFormed_filter; [exact Hwf| |apply incl_filter].
    apply NoDup_filter, Hwf.
  - apply wellFormed_filter; [exact Hwf| |apply filterSeen_incl].
    apply filterSeen_NoDup, Hwf.
  - split; simpl.
    + apply seq_NoDup.
    + apply Forall_forall. intros l Hl. apply in_seq in Hl.
      rewrite length_app. lia.
  - destruct (CleaningAction.columnGiven a) as [col|]; [|exact Hwf].
    destruct (CleaningAction.targetGiven a) as [target|]; [|exact Hwf].
    pose proof (length_forEachRowTry (castRow col target) (cleanedRows st) (store st)) as Hlen.
    destruct (forEachRowTry (castRow col target) (cleanedRows st) (store st)) as [s err].
    simpl in *. apply wellFormed_same_rows; [exact Hwf|exact Hlen].
  - exact Hwf.
Qed.

Lemma wellFormed_runActions (l : list CleaningAction.t) :
  forall st, wellFormed st -> wellFormed (fst (runActions l st)).
Proof.
  induction l as [|a rest IH]; intros st Hwf; simpl; [exact Hwf|].
  pose proof (wellFormed_applyAction a st Hwf) as H.
  destruct (applyAction a st) as [st' [e|]]; simpl in *; [exact H|now apply IH].
Qed.

Lemma wellFormed_phase1 (l : list CleaningAction.t) :
  forall st, wellFormed st -> wellFormed (fold_left dropColumn l st).
Proof.
  induction l as [|a rest IH]; intros st Hwf; simpl; [exact Hwf|].
  apply IH, wellFormed_dropColumn, Hwf.
Qed.

Lemma runActions_app (l1 l2 : list CleaningAction.t) :
  forall st,
    runActions (l1 ++ l2) st
    = match runActions l1 st with
      | (st', None) => runActions l2 st'
      | (st', Some e) => (st', Some e)
      end.
Proof.
  induction l1 as [|a rest IH]; intros st; simpl; [reflexivity|].
  destruct (applyAction a st) as [st' [e|]]; [reflexivity|apply IH].
Qed.

Lemma wellFormed_stateAfter (ds : DataSet) (plan : CleaningPlan)
      (done : list CleaningAction.t) :
  wellFormed (fst (stateAfter ds plan done)).
Proof.
  apply wellFormed_runActions, wellFormed_phase1, wellFormed_initial.
Qed.

(** The call returns the dataset rebuilt from the rows the last action of
    the plan leaves. *)
Lemma performDataCleaning_ends_with (ds : DataSet) (plan : CleaningPlan)
      (done : list CleaningAction.t) (a : CleaningAction.t) (st st' : CleanState) :
  actions plan = done ++ [a] ->
  stateAfter ds plan done = (st, None) ->
  applyAction a st = (st', None) ->
  settled (performDataCleaning ds plan)
  = Ok (rebuildDataSet (currentRows st') (fileName ds) (fileSize ds)).
Proof.
  intros Hplan Hdone Hstep. unfold performDataCleaning.
  unfold stateAfter in Hdone. rewrite Hplan in *.
  rewrite runActions_app, Hdone. simpl. rewrite Hstep. reflexivity.
Qed.

End CleaningFacts.

Lemma Forall2_map_self (A : Type) (P : A -> A -> Prop) (g : A -> A) (l : list A) :
  (forall x, In x l -> P x (g x)) -> Forall2 P l (List.map g l).
Proof.
  induction l as [|x r IH]; intros H; simpl; constructor.
  - apply H. now left.
  - apply IH. intros y Hy. apply H. now right.
Qed.

(** ** remove_duplicates *)

Section Deduplication.
Context {host : JSHost}.

Lemma remove_duplicates_rows (st : CleanState) (a : CleaningAction.t) :
  CleaningAction.type a = ActionType.remove_duplicates ->
  exists st',
    applyAction a st = (st', None)
    /\ store st' = store st
    /\ currentRows st' = filterSeen JSON_stringify [] (currentRows st).
Proof.
  intros Hty. unfold applyAction. rewrite Hty.
  eexists. split; [reflexivity|]. split; [reflexivity|].
  unfold currentRows. simpl.
  now rewrite (filterSeen_map DataRow JSON_stringify nat (deref (store st))).
Qed.

(** C4, as amended.  When a plan ends with remove_duplicates, the returned
    rows are, in their order, exactly the rows the action finds whose JSON
    serialization (the fields in the order they are stored) no earlier row
    has: a row is dropped if and only if an earlier row, equivalently an
    earlier kept row, has its serialization, and it follows the rows kept
    before it otherwise.  So no two returned rows share a serialization,
    and every serialization found is that of a returned row. *)
Theorem remove_duplicates_by_serialization (ds : DataSet) (plan : CleaningPlan)
        (done : list CleaningAction.t) (a : CleaningAction.t) (st : CleanState) :
  actions plan = done ++ [a] ->
  CleaningAction.type a = ActionType.remove_duplicates ->
  stateAfter ds plan done = (st, None) ->
  exists ds',
    settled (performDataCleaning ds plan) = Ok ds'
    /\ rows ds' = firstOfEachSignature JSON_stringify (currentRows st)
    /\ (forall before r after,
          currentRows st = before ++ r :: after ->
          let kept := firstOfEachSignature JSON_stringify before in
          (exists rest,
              rows ds'
              = kept
                ++ (if member (JSON_stringify r) (List.map JSON_stringify before)
                    then [] else [r])
                ++ rest)
          /\ member (JSON_stringify r) (List.map JSON_stringify before)
             = member (JSON_stringify r) (List.map JSON_stringify kept))
    /\ NoDup (List.map JSON_stringify (rows ds'))
    /\ (forall s, In s (List.map JSON_stringify (rows ds'))
                  <-> In s (List.map JSON_stringify (currentRows st))).
Proof.
  intros Hplan Hty Hdone.
  destruct (remove_duplicates_rows st a Hty) as (st' & Hstep & _ & Hrows).
  eexists. split; [exact (performDataCleaning_ends_with ds plan done a st st'
                            Hplan Hdone Hstep)|].
  simpl. rewrite Hrows. split; [apply filterSeen_firsts|]. split; [|split].
  - intros before r after Hsplit. cbv zeta. rewrite Hsplit.
    rewrite <- (filterSeen_firsts DataRow JSON_stringify before).
    destruct (filterSeen_position DataRow JSON_stringify before r after)
      as (rest & Heq & Hmem).
    split; [now exists rest|exact Hmem].
  - apply (filterSeen_sigs_NoDup DataRow JSON_stringify (currentRows st) []).
  - intros s.
    pose proof (filterSeen_sigs DataRow JSON_stringify (currentRows st) [] s) as H.
    simpl in H. tauto.
Qed.

End Deduplication.

(** The scenario of the specification: of three rows, the second repeating
    the first, the first and the third are returned. *)
Lemma remove_duplicates_by_serialization_witness :
  let r1 := [("a", VNum 1); ("b", VNum 2)] in
  let r3 := [("a", VNum 3); ("b", VNum 4)] in
  exists ds',
    settled (performDataCleaning (host := RefHost.host)
               (Sample.dataset [r1; r1; r3]) (Sample.plan [Sample.dedup])) = Ok ds'
    /\ rows ds' = [r1; r3].
Proof.
  intros r1 r3.
  destruct (@remove_duplicates_by_serialization RefHost.host
              (Sample.dataset [r1; r1; r3]) (Sample.plan [Sample.dedup]) []
              Sample.dedup (initialState (Sample.dataset [r1; r1; r3]))
              eq_refl eq_refl eq_refl) as (ds' & H1 & H2 & _).
  exists ds'. split; [exact H1|]. rewrite H2. reflexivity.
Defined.

(** ** cast_type *)

Section CastType.
Context {host : JSHost}.

Lemma castRow_Number (col : string) (r : DataRow) :
  castRow col TypeCastTarget.Number r = Ok (setProp col (numberCell (getProp r col)) r).
Proof. reflexivity. Qed.

Lemma cast_Number_rows (st : CleanState) (a : CleaningAction.t) (col : string) :
  wellFormed st ->
  CleaningAction.type a = ActionType.cast_type ->
  CleaningAction.columnGiven a = Some col ->
  CleaningAction.targetGiven a = Some TypeCastTarget.Number ->
  exists st',
    applyAction a st = (st', None)
    /\ cleanedRows st' = cleanedRows st
    /\ currentRows st'
       = List.map (fun r => setProp col (numberCell (getProp r col)) r) (currentRows st).
Proof.
  intros [Hnd Hb] Hty Hcol Htarget. unfold applyAction.
  rewrite Hty, Hcol, Htarget.
  rewrite (forEachRowTry_total _ _ (cleanedRows st) (castRow_Number col)).
  eexists. split; [reflexivity|]. split; [reflexivity|].
  unfold currentRows. simpl. now apply map_deref_forEachRow.
Qed.

(** C10, as amended.  When a plan ends with cast_type to Number on a
    column, every cell of the column that holds null or the empty text
    when the cast runs is the number 0 in the returned dataset: a cell is
    null in the result exactly when the numeric conversion of what the cast
    found is NaN, and holds the converted number otherwise; the other
    cells of the rows keep their values. *)
Theorem cast_Number_missing_becomes_zero (ds : DataSet) (plan : CleaningPlan)
        (done : list CleaningAction.t) (a : CleaningAction.t) (col : string)
        (st : CleanState) :
  actions plan = done ++ [a] ->
  CleaningAction.type a = ActionType.cast_type ->
  CleaningAction.columnGiven a = Some col ->
  CleaningAction.targetGiven a = Some TypeCastTarget.Number ->
  stateAfter ds plan done = (st, None) ->
  exists ds',
    settled (performDataCleaning ds plan) = Ok ds'
    /\ Forall2
         (fun r r' =>
            (getProp r col = VNull \/ getProp r col = VStr "" ->
             getProp r' col = VNum 0%float)
            /\ (getProp r' col = VNull <-> isNaN (ToNumber (getProp r col)) = true)
            /\ (isNaN (ToNumber (getProp r col)) = false ->
                getProp r' col = VNum (ToNumber (getProp r col)))
            /\ (forall k, k <> col -> getProp r' k = getProp r k))
         (currentRows st) (rows ds').
Proof.
  intros Hplan Hty Hcol Htarget Hdone.
  assert (Hwf : wellFormed st).
  { pose proof (wellFormed_stateAfter ds plan done) as H. now rewrite Hdone in H. }
  destruct (cast_Number_rows st a col Hwf Hty Hcol Htarget) as (st' & Hstep & _ & Hrows).
  eexists. split; [exact (performDataCleaning_ends_with ds plan done a st st'
                            Hplan Hdone Hstep)|].
  simpl. rewrite Hrows.
  apply Forall2_map_self. intros r _.
  rewrite getProp_setProp_same. unfold numberCell.
  repeat split.
  - intros [-> | ->]; simpl.
    + reflexivity.
    + rewrite StringToNumber_empty. reflexivity.
  - destruct (isNaN (ToNumber (getProp r col))); [reflexivity|discriminate].
  - intros H. now rewrite H.
  - intros H. now rewrite H.
  - intros k Hk. now apply getProp_setProp_other.
Qed.

End CastType.

(** A plan of that one action, on a column holding null, the empty text,
    a word and a numeral: the first two cells are 0 in the result. *)
Lemma cast_Number_missing_becomes_zero_witness :
  let input := [[("x", VNull)]; [("x", VStr "")]; [("x", VStr "abc")]; [("x", VStr "12")]] in
  exists ds',
    settled (performDataCleaning (host := RefHost.host) (Sample.dataset input)
               (Sample.plan [Sample.cast "x" TypeCastTarget.Number])) = Ok ds'
    /\ Forall2
         (fun r r' =>
            getProp r "x" = VNull \/ getProp r "x" = VStr "" ->
            getProp r' "x" = VNum 0%float)
         input (rows ds').
Proof.
  intros input.
  destruct (@cast_Number_missing_becomes_zero RefHost.host
              (Sample.dataset input)
              (Sample.plan [Sample.cast "x" TypeCastTarget.Number]) []
              (Sample.cast "x" TypeCastTarget.Number) "x"
              (initialState (Sample.dataset input))
              eq_refl eq_refl eq_refl eq_refl eq_refl) as (ds' & H1 & H2).
  exists ds'. split; [exact H1|].
  change input with (currentRows (initialState (Sample.dataset input))).
  eapply Forall2_impl; [|exact H2].
  intros r r' H. exact (proj1 H).
Defined.

(** C10 as stated fails: the cast is in the plan, yet a later cast of the
    column to Date turns the zeros (which are falsy) into null. *)
Lemma cast_Number_undone_by_later_cast :
  Sample.rowsOf
    (settled (performDataCleaning (host := RefHost.host)
       (Sample.dataset [[("x", VNull)]; [("x", VStr "")]])
       (Sample.plan [Sample.cast "x" TypeCastTarget.Number;
                     Sample.cast "x" TypeCastTarget.Date])))
  = Some [[("x", VNull)]; [("x", VNull)]].
Proof. vm_compute. reflexivity. Qed.

(** The same cast through [performDataCleaning]. *)
Example cast_Number_example :
  Sample.rowsOf
    (settled (performDataCleaning (host := RefHost.host)
       (Sample.dataset
          [[("x", VNull)]; [("x", VStr "")]; [("x", VStr "abc")]; [("x", VStr "12")]])
       (Sample.plan [Sample.cast "x" TypeCastTarget.Number])))
  = Some [[("x", VNum 0)]; [("x", VNum 0)]; [("x", VNull)]; [("x", VNum 12)]].
Proof. vm_compute. reflexivity. Qed.

(** ** Counting in a plain object *)

Lemma countUp_other (k s : string) (c : Counts) :
  s <> k -> getOwn s (countUp k c) = getOwn s c.
Proof.
  intros Hne. unfold countUp.
  destruct (getOwn k c) as [[n|f ones]|];
    [now rewrite getOwn_setProp_other..|].
  destruct (ObjectPrototype.isFunctionName k);
    [now rewrite getOwn_setProp_other|].
  destruct (ObjectPrototype.isProto k); [reflexivity|].
  now rewrite getOwn_setProp_other.
Qed.

Lemma has_false (k : string) :
  ObjectPrototype.has k = false ->
  ObjectPrototype.isFunctionName k = false /\ ObjectPrototype.isProto k = false.
Proof. unfold ObjectPrototype.has. apply orb_false_iff. Qed.

(** Under a key that names no member, the count goes up by one. *)
Lemma countUp_ordinary (k : string) (c : Counts) :
  countsOk c -> ObjectPrototype.has k = false ->
  getOwn k (countUp k c) = Some (Count (countAt k c + 1)).
Proof.
  intros Hok Hk. specialize (Hok k). unfold countUp, countAt, numberAt.
  destruct (has_false k Hk) as [Hf Hp].
  destruct (getOwn k c) as [[n|f ones]|].
  - apply getOwn_setProp_same.
  - congruence.
  - rewrite Hf, Hp. apply getOwn_setProp_same.
Qed.

Lemma has_true (k : string) :
  ObjectPrototype.has k = true ->
  ObjectPrototype.isFunctionName k = true
  \/ (ObjectPrototype.isFunctionName k = false /\ ObjectPrototype.isProto k = true).
Proof.
  unfold ObjectPrototype.has. destruct (ObjectPrototype.isFunctionName k); simpl; auto.
Qed.

(** Under a key that names a member, what is held is a text or nothing. *)
Lemma countUp_member (k : string) (c : Counts) :
  countsOk c -> ObjectPrototype.has k = true ->
  match getOwn k (countUp k c) with
  | Some (Count _) => False
  | _ => True
  end.
Proof.
  intros Hok Hk. pose proof (Hok k) as Hkc. unfold countUp.
  destruct (getOwn k c) as [[n|f ones]|] eqn:E.
  - destruct Hkc. congruence.
  - now rewrite getOwn_setProp_same.
  - destruct (has_true k Hk) as [Hf|[Hf Hp]]; rewrite Hf.
    + now rewrite getOwn_setProp_same.
    + rewrite Hp. now rewrite E.
Qed.

Lemma numberAt_member (k : string) (c : Counts) :
  countsOk c -> ObjectPrototype.has k = true -> numberAt k (countUp k c) = None.
Proof.
  intros Hok Hk. pose proof (countUp_member k c Hok Hk) as H. unfold numberAt.
  destruct (getOwn k (countUp k c)) as [[n|f ones]|]; [contradiction|reflexivity..].
Qed.


Lemma countUp_ok (k : string) (c : Counts) : countsOk c -> countsOk (countUp k c).
Proof.
  intros Hok s. destruct (string_dec s k) as [->|Hne].
  - destruct (ObjectPrototype.has k) eqn:Hk.
    + pose proof (countUp_member k c Hok Hk) as H.
      destruct (getOwn k (countUp k c)) as [[n|f ones]|]; [contradiction|reflexivity|exact I].
    + rewrite (countUp_ordinary k c Hok Hk). split; [reflexivity|lia].
  - rewrite (countUp_other k s c Hne). apply Hok.
Qed.

Lemma countAt_countUp (k s : string) (c : Counts) :
  countsOk c ->
  countAt s (countUp k c)
  = countAt s c
    + (if ObjectPrototype.has k then 0 else if string_dec k s then 1 else 0).
Proof.
  intros Hok. destruct (string_dec k s) as [<-|Hne].
  - destruct (ObjectPrototype.has k) eqn:Hk.
    + unfold countAt at 1. rewrite (numberAt_member k c Hok Hk).
      unfold countAt, numberAt. pose proof (Hok k) as Hkc.
      destruct (getOwn k c) as [[n|f ones]|]; try lia.
      destruct Hkc. congruence.
    + unfold countAt at 1, numberAt. now rewrite (countUp_ordinary k c Hok Hk).
  - unfold countAt, numberAt. rewrite countUp_other by congruence.
    destruct (ObjectPrototype.has k); lia.
Qed.

(** ** impute *)

Section Imputation.
Context {host : JSHost}.

Lemma modeTexts_snoc (seen : list JSValue) (v : JSValue) :
  modeTexts (seen ++ [v]) = modeTexts seen ++ (if counted v then [ToString v] else []).
Proof.
  unfold modeTexts. rewrite filter_app, map_app. simpl.
  destruct (counted v); reflexivity.
Qed.

Lemma modeStep_scan (seen : list JSValue) (m : ModeScan) (v : JSValue) :
  modeScanInvariant seen m -> modeScanInvariant (seen ++ [v]) (modeStep m v).
Proof.
  intros (Hok & Hcount & Hmax & Hzero & Hmode). unfold modeScanInvariant.
  rewrite modeTexts_snoc. unfold modeStep, counted.
  destruct (isMissing v) eqn:Hv; simpl.
  - rewrite app_nil_r. repeat split; auto.
    + apply in_or_app. left. now apply Hmode.
    + now apply Hmode.
    + now apply Hmode.
  - set (s := ToString v).
    assert (Hnew : forall t,
              countAt t (countUp s (counts m))
              = count_occ string_dec
                  (modeTexts seen ++ (if negb (ObjectPrototype.has s) then [s] else [])) t).
    { intros t. rewrite (countAt_countUp s t (counts m) Hok), count_occ_app, Hcount.
      destruct (ObjectPrototype.has s); simpl; [lia|].
      destruct (string_dec s t); lia. }
    pose proof (countUp_ok s (counts m) Hok) as Hok'.
    destruct (ObjectPrototype.has s) eqn:Hs.
    + rewrite (numberAt_member s (counts m) Hok Hs). simpl.
      simpl in Hnew. split; [exact Hok'|]. split; [exact Hnew|].
      split; [intros t; rewrite Hnew, app_nil_r, <- Hcount; apply Hmax|].
      split; [exact Hzero|].
      intros H. destruct (Hmode H) as (H1 & H2 & H3).
      split; [apply in_or_app; now left|]. split; [exact H2|].
      rewrite Hnew, app_nil_r, <- Hcount. exact H3.
    + unfold numberAt. rewrite (countUp_ordinary s (counts m) Hok Hs).
      assert (Hbound : forall t,
                countAt t (countUp s (counts m))
                <= Nat.max (maxC m) (countAt s (counts m) + 1)).
      { intros t. rewrite (countAt_countUp s t (counts m) Hok), Hs.
        specialize (Hmax t). destruct (string_dec s t) as [<-|Hne]; lia. }
      assert (Hself : countAt s (countUp s (counts m)) = countAt s (counts m) + 1).
      { rewrite (countAt_countUp s s (counts m) Hok), Hs.
        destruct (string_dec s s); [reflexivity|congruence]. }
      destruct (Nat.ltb_spec (maxC m) (countAt s (counts m) + 1)) as [Hlt|Hge]; simpl.
      * split; [exact Hok'|]. split; [exact Hnew|].
        split; [intros t; specialize (Hbound t); lia|].
        split; [intros H; lia|].
        intros _. split; [apply in_or_app; right; now left|].
        split; [unfold counted; fold s; now rewrite Hv, Hs|exact Hself].
      * split; [exact Hok'|]. split; [exact Hnew|].
        split; [intros t; specialize (Hbound t); lia|].
        split; [exact Hzero|].
        intros H. destruct (Hmode H) as (H1 & H2 & H3).
        split; [apply in_or_app; now left|]. split; [exact H2|].
        rewrite (countAt_countUp s _ (counts m) Hok), Hs.
        destruct (string_dec s (ToString (modeVal m))) as [Heq|Hne]; [|lia].
        rewrite <- Heq in H3. lia.
Qed.

Lemma modeFold_scan (values : list JSValue) :
  forall seen m,
    modeScanInvariant seen m ->
    modeScanInvariant (seen ++ values) (fold_left modeStep values m).
Proof.
  induction values as [|v vs IH]; intros seen m H; simpl.
  - now rewrite app_nil_r.
  - replace (seen ++ v :: vs) with ((seen ++ [v]) ++ vs) by now rewrite <- app_assoc.
    apply IH, modeStep_scan, H.
Qed.

(** What the scan has established when [modeOf] reads the mode off it. *)
Lemma modeOf_scan (values : list JSValue) :
  modeScanInvariant values
    (fold_left modeStep values {| counts := []; maxC := 0; modeVal := VNull |}).
Proof.
  apply (modeFold_scan values [] {| counts := []; maxC := 0; modeVal := VNull |}).
  unfold modeScanInvariant, countsOk, countAt. simpl.
  repeat split; try reflexivity; lia.
Qed.

Lemma modeTexts_counted (values : list JSValue) (v : JSValue) :
  In v values -> counted v = true ->
  1 <= count_occ string_dec (modeTexts values) (ToString v).
Proof.
  intros Hin Hv. apply count_occ_In. unfold modeTexts.
  apply in_map, filter_In. auto.
Qed.



Lemma modeOf_no_basis (values : list JSValue) :
  ~ (exists v, In v values /\ counted v = true) -> modeOf values = VNull.
Proof.
  intros H. unfold modeOf.
  destruct (modeOf_scan values) as (_ & _ & _ & Hzero & Hmode).
  destruct (Nat.eq_dec
              (maxC (fold_left modeStep values {| counts := []; maxC := 0; modeVal := VNull |}))
              0) as [E|E]; [now apply Hzero|].
  exfalso. apply H. destruct Hmode as (H1 & H2 & _); [lia|]. eauto.
Qed.



Lemma impute_fill_step (st : CleanState) (a : CleaningAction.t)
      (col : string) (strat : ImputationStrategy.t) :
  CleaningAction.type a = ActionType.impute ->
  CleaningAction.columnGiven a = Some col ->
  CleaningAction.strategyGiven a = Some strat ->
  isFill strat ->
  let fillValue :=
    fillValueOf strat (List.map (fun r => getProp r col) (currentRows st)) in
  applyAction a st
  = (match fillValue with
     | VNull => st
     | _ => {| store := forEachRow (fillRow col fillValue) (cleanedRows st) (store st);
               cleanedRows := cleanedRows st;
               currentHeaders := currentHeaders st |}
     end, None).
Proof.
  intros Hty Hcol Hstrat Hfill fillValue. unfold applyAction.
  rewrite Hty, Hcol, Hstrat. fold fillValue.
  destruct strat; try contradiction; destruct fillValue; reflexivity.
Qed.

End Imputation.

Section ImputationTheorem.
Context {host : JSHost}.

Lemma impute_fill_rows (st : CleanState) (a : CleaningAction.t)
      (col : string) (strat : ImputationStrategy.t) :
  wellFormed st ->
  CleaningAction.type a = ActionType.impute ->
  CleaningAction.columnGiven a = Some col ->
  CleaningAction.strategyGiven a = Some strat ->
  isFill strat ->
  let fillValue :=
    fillValueOf strat (List.map (fun r => getProp r col) (currentRows st)) in
  exists st',
    applyAction a st = (st', None)
    /\ ((fillValue = VNull /\ st' = st)
        \/ (fillValue <> VNull
            /\ currentRows st' = List.map (fillRow col fillValue) (currentRows st))).
Proof.
  intros [Hnd Hb] Hty Hcol Hstrat Hfill fillValue.
  rewrite (impute_fill_step st a col strat Hty Hcol Hstrat Hfill). fold fillValue.
  assert (Hrows : currentRows
                    {| store := forEachRow (fillRow col fillValue) (cleanedRows st) (store st);
                       cleanedRows := cleanedRows st;
                       currentHeaders := currentHeaders st |}
                  = List.map (fillRow col fillValue) (currentRows st)).
  { unfold currentRows. simpl. now apply map_deref_forEachRow. }
  destruct fillValue eqn:E; eexists; (split; [reflexivity|]);
    solve [left; split; reflexivity | right; split; [discriminate|exact Hrows]].
Qed.



End ImputationTheorem.


(** C6, what the code does.  The scan for the mode counts in a plain
    object: under a text that names a member of [Object.prototype], such as
    constructor, it finds the inherited member in place of a count, and the
    text is never the mode.  A column whose values that are not missing all
    hold such a text is left with its gap, although there are values to
    fill it from; with any other text in their place the gap is filled. *)
Theorem impute_mode_leaves_gap :
  let cells (word : string) := [[("c", VStr word)]; [("c", VNull)]; [("c", VStr word)]] in
  let imputed (word : string) :=
    Sample.rowsOf
      (settled (performDataCleaning (host := RefHost.host) (Sample.dataset (cells word))
                  (Sample.plan [Sample.impute "c" ImputationStrategy.mode]))) in
  imputed "constructor" = Some (cells "constructor")
  /\ (exists v, In v (List.map (fun r => getProp r "c") (cells "constructor"))
                /\ isMissing v = false)
  /\ imputed "red" = Some [[("c", VStr "red")]; [("c", VStr "red")]; [("c", VStr "red")]].
Proof.
  split; [vm_compute; reflexivity|]. split; [|vm_compute; reflexivity].
  exists (VStr "constructor"). split; [now left|reflexivity].
Qed.

Example impute_mean_example :
  Sample.rowsOf
    (settled (performDataCleaning (host := RefHost.host)
       (Sample.dataset [[("x", VNum 1)]; [("x", VNull)]; [("x", VNum 3)]])
       (Sample.plan [Sample.impute "x" ImputationStrategy.mean])))
  = Some [[("x", VNum 1)]; [("x", VNum 2)]; [("x", VNum 3)]].
Proof. vm_compute. reflexivity. Qed.

(** ** cast_type to Date, and the caller's rows *)

Section CastDate.
Context {host : JSHost}.

Lemma castRow_Date_error (col : string) (r : DataRow) (e : JSError) :
  castRow col TypeCastTarget.Date r = Throw e -> e = RangeError "Invalid time value".
Proof.
  unfold castRow, castValue.
  destruct (ToBoolean (getProp r col)); [|discriminate].
  destruct (isNaN (TimeClip (DateParse (ToString (getProp r col))))); [|discriminate].
  congruence.
Qed.

Lemma castRow_Date_throws (col : string) (r : DataRow) :
  ToBoolean (getProp r col) = true ->
  isNaN (TimeClip (DateParse (ToString (getProp r col)))) = true ->
  isThrow (castRow col TypeCastTarget.Date r) = true.
Proof.
  intros Ht Hn. unfold castRow, castValue. now rewrite Ht, Hn.
Qed.

(** C2, what the code does.  When a cell of the column holds a truthy
    value that does not parse as a date, cast_type to Date throws a
    RangeError and the call ends with it: no dataset is returned. *)
Theorem cast_Date_unparseable_throws (ds : DataSet) (a : CleaningAction.t)
        (col : string) (note : string) :
  CleaningAction.type a = ActionType.cast_type ->
  CleaningAction.columnGiven a = Some col ->
  CleaningAction.targetGiven a = Some TypeCastTarget.Date ->
  (exists r, In r (rows ds)
             /\ ToBoolean (getProp r col) = true
             /\ isNaN (TimeClip (DateParse (ToString (getProp r col)))) = true) ->
  settled (performDataCleaning ds {| actions := [a]; summary := note |})
  = Throw (RangeError "Invalid time value").
Proof.
  intros Hty Hcol Htarget (r & Hin & Htruthy & Hnan).
  unfold performDataCleaning. simpl.
  assert (Hdrop : isDropColumn a = false) by (unfold isDropColumn; now rewrite Hty).
  rewrite Hdrop. simpl. unfold applyAction. rewrite Hty, Hcol, Htarget.
  destruct (In_nth _ _ [] Hin) as (l & Hl & Hnth).
  destruct (forEachRowTry_throws (castRow col TypeCastTarget.Date)
              (cleanedRows (initialState ds)) l (store (initialState ds)))
    as (s' & l' & e & Hrun & _ & He).
  - simpl. apply in_seq. split; [apply Nat.le_0_l|exact Hl].
  - simpl. unfold deref, DataRow, JSObject in *. rewrite Hnth.
    now apply castRow_Date_throws.
  - rewrite Hrun. simpl. f_equal. eapply castRow_Date_error, He.
Qed.

End CastDate.

Lemma cast_Date_unparseable_throws_witness :
  settled (performDataCleaning (host := RefHost.host)
             (Sample.dataset [[("d", VStr "2020-03-07")]; [("d", VStr "abc")]])
             (Sample.plan [Sample.cast "d" TypeCastTarget.Date]))
  = Throw (RangeError "Invalid time value").
Proof.
  apply (@cast_Date_unparseable_throws RefHost.host
           (Sample.dataset [[("d", VStr "2020-03-07")]; [("d", VStr "abc")]])
           (Sample.cast "d" TypeCastTarget.Date) "d" "" eq_refl eq_refl eq_refl).
  exists [("d", VStr "abc")]. split; [right; left; reflexivity|].
  split; reflexivity.
Defined.

(** Parseable dates and falsy cells are cast as the specification says. *)
Example cast_Date_example :
  Sample.rowsOf
    (settled (performDataCleaning (host := RefHost.host)
       (Sample.dataset [[("d", VStr "2020-03-07")]; [("d", VNull)]; [("d", VStr "")]])
       (Sample.plan [Sample.cast "d" TypeCastTarget.Date])))
  = Some [[("d", VStr "2020-03-07T00:00:00.000Z")]; [("d", VNull)]; [("d", VNull)]].
Proof. vm_compute. reflexivity. Qed.

(** C1, what the code does.  The working array shares its row objects with
    the input: dropping a column, filling a gap and casting a cell all
    change the rows the caller still holds. *)
Theorem performDataCleaning_changes_input_rows :
  let input := [[("a", VNum 1); ("b", VNull)]; [("a", VStr "7"); ("b", VNum 2)]] in
  inputRowsAfter (performDataCleaning (host := RefHost.host)
                    (Sample.dataset input) (Sample.plan [Sample.drop "b"]))
  = [[("a", VNum 1)]; [("a", VStr "7")]]
  /\ inputRowsAfter (performDataCleaning (host := RefHost.host)
                       (Sample.dataset input)
                       (Sample.plan [Sample.impute "b" ImputationStrategy.fill_zero]))
     = [[("a", VNum 1); ("b", VNum 0)]; [("a", VStr "7"); ("b", VNum 2)]]
  /\ inputRowsAfter (performDataCleaning (host := RefHost.host)
                       (Sample.dataset input)
                       (Sample.plan [Sample.cast "a" TypeCastTarget.Number]))
     = [[("a", VNum 1); ("b", VNull)]; [("a", VNum 7); ("b", VNum 2)]].
Proof. vm_compute. repeat split. Qed.

(** The transformation executor, which copies the rows first, leaves the
    caller's rows alone whatever it is asked to do. *)
Example performDataTransformation_example :
  Sample.rowsOf
    (Ok (performDataTransformation (host := RefHost.host)
           (Sample.dataset [[("x", VNum 1)]; [("x", VNum 3)]; [("x", VStr "n/a")]])
           [Sample.transform "x" TransformationMethod.min_max]))
  = Some [[("x", VNum 0)]; [("x", VNum 1)]; [("x", VStr "n/a")]].
Proof. vm_compute. reflexivity. Qed.

(** ** min_max *)

Section MinMax.
Context {host : JSHost}.

Lemma rescaleRow_spec (col : string) (f : float -> option float) (r : DataRow) :
  (isNaN (ToNumber (getProp r col)) = true -> rescaleRow col f r = r)
  /\ (forall x, isNaN (ToNumber (getProp r col)) = false ->
                f (ToNumber (getProp r col)) = Some x ->
                getProp (rescaleRow col f r) col = VNum x)
  /\ (forall k, k <> col -> getProp (rescaleRow col f r) k = getProp r k).
Proof.
  unfold rescaleRow. destruct (isNaN (ToNumber (getProp r col))) eqn:E; simpl.
  - repeat split; auto. discriminate.
  - repeat split.
    + discriminate.
    + intros x _ Hx. rewrite Hx. apply getProp_setProp_same.
    + intros k Hk. destruct (f (ToNumber (getProp r col))); [|reflexivity].
      now apply getProp_setProp_other.
Qed.

Lemma performDataTransformation_ends_with (ds : DataSet)
      (done : list TransformationAction.t) (action : TransformationAction.t) :
  performDataTransformation ds (done ++ [action])
  = rebuildDataSet (workRows (applyTransformation (workingCopy ds done) action))
                   (fileName ds) (fileSize ds).
Proof.
  unfold performDataTransformation, workingCopy. now rewrite fold_left_app.
Qed.

Lemma min_max_step (st : TransformState) (action : TransformationAction.t) :
  TransformationAction.method action = TransformationMethod.min_max ->
  let col := TransformationAction.column action in
  let values := numericColumn col (workRows st) in
  let min := mathMin values in
  let max := mathMax values in
  let st' := applyTransformation st action in
  (PrimFloat.eqb max min = true -> st' = st)
  /\ Forall2
       (fun r r' =>
          (isNaN (ToNumber (getProp r col)) = true -> r' = r)
          /\ (isNaN (ToNumber (getProp r col)) = false ->
              PrimFloat.eqb max min = false ->
              getProp r' col
              = VNum (PrimFloat.div (PrimFloat.sub (ToNumber (getProp r col)) min)
                                    (PrimFloat.sub max min)))
          /\ (forall k, k <> col -> getProp r' k = getProp r k))
       (workRows st) (workRows st').
Proof.
  intros Hm col values min max st'.
  unfold st', applyTransformation. rewrite Hm. fold col values min max.
  destruct (PrimFloat.eqb max min) eqn:E; simpl.
  - split; [reflexivity|].
    replace (workRows st) with (List.map (fun r => r) (workRows st)) at 2 by apply map_id.
    apply Forall2_map_self. intros r _. repeat split; auto. discriminate.
  - split; [discriminate|].
    apply Forall2_map_self. intros r _.
    destruct (rescaleRow_spec col
                (fun val => Some (PrimFloat.div (PrimFloat.sub val min) (PrimFloat.sub max min)))
                r) as (H1 & H2 & H3).
    repeat split; auto.
Qed.

(** C8, as amended.  When the transformations end with min_max on a
    column, the returned rows are compared with the rows the action finds:
    the deep copy of the rows of the dataset (in which NaN and the
    infinities have become null and absent cells stay absent), as the
    earlier transformations left it.  A row whose cell does not convert to
    a number ([Number(cell)] is NaN: an absent cell, or text that is not a
    number) is returned untouched; a cell that converts (a number, but also
    null, a boolean and blank text, which convert to 0 or 1) is replaced by
    [(value - min) / (max - min)], where min and max range over the
    converted cells; no other cell of a row changes, and when max equals
    min nothing changes at all. *)
Theorem min_max_rescales_convertible_cells (ds : DataSet)
        (done : list TransformationAction.t) (action : TransformationAction.t) :
  TransformationAction.method action = TransformationMethod.min_max ->
  let col := TransformationAction.column action in
  let found := workRows (workingCopy ds done) in
  let values := numericColumn col found in
  let min := mathMin values in
  let max := mathMax values in
  let ds' := performDataTransformation ds (done ++ [action]) in
  (PrimFloat.eqb max min = true -> rows ds' = found)
  /\ Forall2
       (fun r r' =>
          (isNaN (ToNumber (getProp r col)) = true -> r' = r)
          /\ (isNaN (ToNumber (getProp r col)) = false ->
              PrimFloat.eqb max min = false ->
              getProp r' col
              = VNum (PrimFloat.div (PrimFloat.sub (ToNumber (getProp r col)) min)
                                    (PrimFloat.sub max min)))
          /\ (forall k, k <> col -> getProp r' k = getProp r k))
       found (rows ds').
Proof.
  intros Hm col found values min max ds'.
  unfold ds'. rewrite performDataTransformation_ends_with. simpl.
  destruct (min_max_step (workingCopy ds done) action Hm) as [Hsame Hcells].
  split; [|exact Hcells].
  intros Heq. unfold found. now rewrite (Hsame Heq).
Qed.

End MinMax.

(** The numbers 1 and 3 become 0 and 1, and the row holding the text n/a
    is returned as it was found. *)
Lemma min_max_rescales_convertible_cells_witness :
  let ds := Sample.dataset [[("x", VNum 1)]; [("x", VStr "n/a")]; [("x", VNum 3)]] in
  let ds' := performDataTransformation (host := RefHost.host) ds
               [Sample.transform "x" TransformationMethod.min_max] in
  rows ds' = [[("x", VNum 0)]; [("x", VStr "n/a")]; [("x", VNum 1)]]
  /\ Forall2 (fun r r' => isNaN (ToNumber (host := RefHost.host) (getProp r "x")) = true ->
                          r' = r)
       (workRows (workingCopy (host := RefHost.host) ds [])) (rows ds').
Proof.
  intros ds ds'. split; [reflexivity|].
  eapply Forall2_impl;
    [|exact (proj2 (@min_max_rescales_convertible_cells RefHost.host ds []
               (Sample.transform "x" TransformationMethod.min_max) eq_refl))].
  intros r r' H. exact (proj1 H).
Defined.

(** C8 as stated fails: a null cell and a boolean cell are converted to 0
    and 1 and rescaled with the numbers. *)
Lemma min_max_rescales_null_and_boolean :
  Sample.rowsOf
    (Ok (performDataTransformation (host := RefHost.host)
           (Sample.dataset [[("x", VNum 4)]; [("x", VNull)]; [("x", VBool true)]])
           [Sample.transform "x" TransformationMethod.min_max]))
  = Some [[("x", VNum 1)]; [("x", VNum 0)]; [("x", VNum 0.25)]].
Proof. vm_compute. reflexivity. Qed.

(** ** one_hot *)

Lemma string_length_append (s1 s2 : string) :
  String.length (s1 +++ s2) = String.length s1 + String.length s2.
Proof. induction s1 as [|c r IH]; simpl; [reflexivity|now rewrite IH]. Qed.

Lemma insertSorted_Permutation (A : Type) (gt : A -> A -> bool) (x : A) (l : list A) :
  Permutation (insertSorted gt x l) (x :: l).
Proof.
  induction l as [|y r IH]; simpl; [apply Permutation_refl|].
  destruct (gt x y); [|apply Permutation_refl].
  eapply perm_trans; [apply perm_skip, IH|apply perm_swap].
Qed.

Lemma sortWith_Permutation (A : Type) (gt : A -> A -> bool) (l : list A) :
  Permutation (sortWith gt l) l.
Proof.
  unfold sortWith. induction l as [|x r IH]; simpl; [apply Permutation_refl|].
  eapply perm_trans; [apply insertSorted_Permutation|now apply perm_skip].
Qed.







Section OneHot.
Context {host : JSHost}.

Lemma oneHot_fold (col : string) (l : list string) :
  forall st,
    workRows (fold_left (oneHotStep col) l st) = List.map (oneHotRow col l) (workRows st)
    /\ workHeaders (fold_left (oneHotStep col) l st)
       = workHeaders st ++ List.map (oneHotHeader col) l.
Proof.
  induction l as [|v l' IH]; intros st; simpl.
  - split; [symmetry; apply map_id|symmetry; apply app_nil_r].
  - destruct (IH (oneHotStep col st v)) as [H1 H2]. rewrite H1, H2. simpl. split.
    + now rewrite map_map.
    + now rewrite <- app_assoc.
Qed.

Lemma oneHotHeader_neq (col val : string) : oneHotHeader col val <> col.
Proof.
  intros H. apply (f_equal String.length) in H. unfold oneHotHeader in H.
  rewrite !string_length_append in H. simpl in H. lia.
Qed.

Lemma cellText_oneHotRow (col : string) (l : list string) :
  forall r, cellText col (oneHotRow col l r) = cellText col r.
Proof.
  unfold oneHotRow. induction l as [|v l' IH]; intros r; simpl; [reflexivity|].
  rewrite IH. unfold cellText. rewrite getProp_setProp_other; [reflexivity|].
  intros H. symmetry in H. now apply oneHotHeader_neq in H.
Qed.







End OneHot.


Example one_hot_example :
  Sample.rowsOf
    (Ok (performDataTransformation (host := RefHost.host)
           (Sample.dataset [[("c", VStr "red")]; [("c", VStr "blue")]])
           [Sample.transform "c" TransformationMethod.one_hot]))
  = Some [[("c", VStr "red"); ("c_blue", VNum 0); ("c_red", VNum 1)];
          [("c", VStr "blue"); ("c_blue", VNum 1); ("c_red", VNum 0)]].
Proof. vm_compute. reflexivity. Qed.


(** ** The keys of an object *)

Section KeyFacts.
Variable V : Type.

Lemma hasOwn_In (k : string) (o : JSObject V) :
  hasOwn k o = true <-> In k (ObjectKeys o).
Proof.
  unfold hasOwn, ObjectKeys. induction o as [|[k' v'] r IH]; simpl.
  - split; [discriminate|tauto].
  - destruct (String.eqb_spec k' k) as [->|Hne].
    + split; auto.
    + rewrite IH. split; [auto|]. intros [H|H]; [contradiction|exact H].
Qed.

Lemma keys_replaceOwn (k : string) (v : V) (o : JSObject V) :
  ObjectKeys (replaceOwn k v o) = ObjectKeys o.
Proof.
  unfold ObjectKeys. induction o as [|[k' v'] r IH]; simpl; [reflexivity|].
  destruct (String.eqb_spec k' k) as [->|Hne]; simpl; [reflexivity|now rewrite IH].
Qed.

Lemma keys_insertIndexed (i : N) (k : string) (v : V) (o : JSObject V) :
  Permutation (ObjectKeys (insertIndexed i k v o)) (k :: ObjectKeys o).
Proof.
  unfold ObjectKeys. induction o as [|[k' v'] r IH]; simpl; [apply Permutation_refl|].
  destruct (JSString.arrayIndex k') as [j|]; [destruct (j <? i)%N|]; simpl;
    try apply Permutation_refl.
  eapply perm_trans; [apply perm_skip, IH|apply perm_swap].
Qed.

Lemma keys_setProp (k : string) (v : V) (o : JSObject V) :
  Permutation (ObjectKeys (setProp k v o))
              (if hasOwn k o then ObjectKeys o else k :: ObjectKeys o).
Proof.
  unfold setProp. destruct (hasOwn k o).
  - rewrite keys_replaceOwn. apply Permutation_refl.
  - destruct (JSString.arrayIndex k).
    + apply keys_insertIndexed.
    + unfold ObjectKeys. rewrite map_app. simpl.
      apply Permutation_sym, Permutation_cons_append.
Qed.

Lemma keys_setProp_In (k k' : string) (v : V) (o : JSObject V) :
  In k' (ObjectKeys (setProp k v o)) <-> k' = k \/ In k' (ObjectKeys o).
Proof.
  pose proof (keys_setProp k v o) as Hp.
  split; intros H.
  - apply (Permutation_in _ Hp) in H. destruct (hasOwn k o); [now right|].
    destruct H; [left; congruence|now right].
  - apply (Permutation_in _ (Permutation_sym Hp)).
    destruct (hasOwn k o) eqn:E.
    + destruct H as [->|H]; [now apply hasOwn_In|exact H].
    + destruct H as [->|H]; [now left|now right].
Qed.

Lemma keys_setProp_NoDup (k : string) (v : V) (o : JSObject V) :
  NoDup (ObjectKeys o) -> NoDup (ObjectKeys (setProp k v o)).
Proof.
  intros Hnd. apply (Permutation_NoDup (Permutation_sym (keys_setProp k v o))).
  destruct (hasOwn k o) eqn:E; [exact Hnd|].
  constructor; [|exact Hnd]. rewrite <- hasOwn_In. congruence.
Qed.

End KeyFacts.


(** ** When a hypothesis test fails *)

Section HypothesisFacts.
Context {host : JSHost}.




Lemma groupRows_throws (target group : string) (rs : list DataRow) :
  forall g0,
    (forall s, In s (ObjectKeys (groups g0)) -> ObjectPrototype.has s = false) ->
    (exists r, In r rs /\ convertible target r = true
               /\ ObjectPrototype.has (cellText group r) = true) ->
    groupRows target group rs g0 = Throw (TypeError "groups[gVal].push is not a function").
Proof.
  induction rs as [|r rest IH]; intros g0 Hkeys (r0 & Hin & Hconv & Hmember);
    [destruct Hin|].
  simpl. unfold groupRow. unfold convertible in Hconv.
  destruct (isNaN (ToNumber (getProp r target))) eqn:Hnan; simpl.
  - destruct Hin as [->|Hin]; [rewrite Hnan in Hconv; discriminate|].
    apply IH; [exact Hkeys|]. exists r0. auto.
  - destruct (ObjectPrototype.has (cellText group r)) eqn:Hr.
    + destruct (getOwn (cellText group r) (groups g0)) as [l|] eqn:E; [|reflexivity].
      assert (Hown : In (cellText group r) (ObjectKeys (groups g0))).
      { apply hasOwn_In. unfold hasOwn. now rewrite E. }
      apply Hkeys in Hown. congruence.
    + destruct Hin as [->|Hin]; [congruence|].
      destruct (getOwn (cellText group r) (groups g0)) as [l|];
        (apply IH; [|exists r0; auto]); simpl; intros s Hs;
        apply keys_setProp_In in Hs; destruct Hs as [->|Hs]; auto.
Qed.










(** X26.  ANOVA with a group column throws a TypeError as soon as a row
    with a numeric target has a group text that names a member of
    [Object.prototype], however many groups the rows form. *)
Theorem anova_member_named_group_throws (ds : DataSet) (params : TestParams.t)
        (group : string) :
  TestParams.type params = TestType.anova ->
  TestParams.groupGiven params = Some group ->
  (exists r, In r (rows ds)
             /\ convertible (TestParams.targetColumn params) r = true
             /\ ObjectPrototype.has (cellText group r) = true) ->
  performHypothesisTest ds params
  = Throw (TypeError "groups[gVal].push is not a function").
Proof.
  intros Hty Hgroup Hmember. unfold performHypothesisTest, runAnova.
  rewrite Hty, Hgroup. unfold grouping.
  rewrite groupRows_throws; [reflexivity| |exact Hmember].
  intros s [].
Qed.

End HypothesisFacts.


(** Groups named constructor and a: the loop over the rows throws a
    TypeError at the first row, though there are 2 groups of 2 numbers. *)
Lemma anova_member_named_group_throws_witness :
  performHypothesisTest (host := RefHost.host)
    (Sample.dataset
       [[("g", VStr "constructor"); ("t", VNum 1)]; [("g", VStr "a"); ("t", VNum 2)];
        [("g", VStr "constructor"); ("t", VNum 3)]; [("g", VStr "a"); ("t", VNum 5)]])
    {| TestParams.type := TestType.anova;
       TestParams.targetColumn := "t";
       TestParams.groupColumn := Some "g";
       TestParams.secondColumn := None |}
  = Throw (TypeError "groups[gVal].push is not a function").
Proof.
  apply (@anova_member_named_group_throws RefHost.host
           (Sample.dataset
              [[("g", VStr "constructor"); ("t", VNum 1)]; [("g", VStr "a"); ("t", VNum 2)];
               [("g", VStr "constructor"); ("t", VNum 3)]; [("g", VStr "a"); ("t", VNum 5)]])
           {| TestParams.type := TestType.anova;
              TestParams.targetColumn := "t";
              TestParams.groupColumn := Some "g";
              TestParams.secondColumn := None |}
           "g" eq_refl eq_refl).
  exists [("g", VStr "constructor"); ("t", VNum 1)].
  split; [now left|]. split; reflexivity.
Defined.


(** ** Category counts *)

(** C9, what the code does.  A cell holding the empty text, which the
    profiler and the cleaning executor treat as missing, is counted as a
    category of its own; null cells are left out, the entries are in
    descending order of count and cut at the limit. *)
Theorem getCategoryCounts_counts_empty_text :
  let ds := Sample.dataset
              [[("c", VStr "a")]; [("c", VStr "")]; [("c", VStr "a")]; [("c", VNull)];
               [("c", VStr "b")]] in
  getCategoryCounts (host := RefHost.host) ds "c" None
  = [{| CategoryCount.name := "a"; CategoryCount.value := 2 |};
     {| CategoryCount.name := ""; CategoryCount.value := 1 |};
     {| CategoryCount.name := "b"; CategoryCount.value := 1 |}]
  /\ getCategoryCounts (host := RefHost.host) ds "c" (Some 1%Z)
     = [{| CategoryCount.name := "a"; CategoryCount.value := 2 |}]
  /\ List.map ColumnProfile.missingCount (columnProfiles ds) = [2].
Proof. vm_compute. repeat split. Qed.

(** ** Whole calls *)

Section WholeCalls.
Context {host : JSHost}.

(** The loop of [performDataCleaning] only reaches well-formed states. *)
Lemma wellFormed_reached (ds : DataSet) (drops done : list CleaningAction.t) :
  wellFormed (fst (runActions done (fold_left dropColumn drops (initialState ds)))).
Proof.
  apply wellFormed_runActions, wellFormed_phase1, wellFormed_initial.
Qed.

Lemma performDataCleaning_single (ds : DataSet) (a : CleaningAction.t) (note : string)
      (st' : CleanState) :
  isDropColumn a = false ->
  applyAction a (initialState ds) = (st', None) ->
  settled (performDataCleaning ds {| actions := [a]; summary := note |})
  = Ok (rebuildDataSet (currentRows st') (fileName ds) (fileSize ds)).
Proof.
  intros Hdrop Hstep. unfold performDataCleaning. simpl.
  rewrite Hdrop. simpl. rewrite Hstep. reflexivity.
Qed.

(** A plan of one cast to Number returns the dataset rebuilt from the
    rows with the column cast. *)
Lemma performDataCleaning_cast_Number (ds : DataSet) (a : CleaningAction.t)
      (col note : string) :
  CleaningAction.type a = ActionType.cast_type ->
  CleaningAction.columnGiven a = Some col ->
  CleaningAction.targetGiven a = Some TypeCastTarget.Number ->
  settled (performDataCleaning ds {| actions := [a]; summary := note |})
  = Ok (rebuildDataSet
          (List.map (fun r => setProp col (numberCell (getProp r col)) r) (rows ds))
          (fileName ds) (fileSize ds)).
Proof.
  intros Hty Hcol Htarget.
  destruct (cast_Number_rows (initialState ds) a col (wellFormed_initial ds)
              Hty Hcol Htarget) as (st' & Hstep & _ & Hrows).
  rewrite (performDataCleaning_single ds a note st'); [|unfold isDropColumn; now rewrite Hty|exact Hstep].
  now rewrite Hrows, currentRows_initial.
Qed.

(** A plan of one impute with a fill strategy returns the dataset rebuilt
    from the rows with the gaps of the column filled, or from the rows as
    they were when there is nothing to fill from. *)
Lemma performDataCleaning_impute (ds : DataSet) (a : CleaningAction.t)
      (col note : string) (strat : ImputationStrategy.t) :
  CleaningAction.type a = ActionType.impute ->
  CleaningAction.columnGiven a = Some col ->
  CleaningAction.strategyGiven a = Some strat ->
  isFill strat ->
  let fillValue := fillValueOf strat (List.map (fun r => getProp r col) (rows ds)) in
  settled (performDataCleaning ds {| actions := [a]; summary := note |})
  = Ok (rebuildDataSet
          (match fillValue with
           | VNull => rows ds
           | _ => List.map (fillRow col fillValue) (rows ds)
           end)
          (fileName ds) (fileSize ds)).
Proof.
  intros Hty Hcol Hstrat Hfill fillValue.
  destruct (impute_fill_rows (initialState ds) a col strat (wellFormed_initial ds)
              Hty Hcol Hstrat Hfill) as (st' & Hstep & Hcases).
  rewrite (performDataCleaning_single ds a note st'); [|unfold isDropColumn; now rewrite Hty|exact Hstep].
  rewrite currentRows_initial in Hcases. fold fillValue in Hcases.
  destruct Hcases as [[Hnull ->] | [Hnot Hrows]].
  - rewrite Hnull. now rewrite currentRows_initial.
  - rewrite Hrows. destruct fillValue; try reflexivity. congruence.
Qed.

End WholeCalls.

(** * Further properties of the service *)

(** ** Profiles *)

Section ProfileFacts.
Context {host : JSHost}.











End ProfileFacts.

(** ** More of the cleaning executor *)

Section MoreCleaning.
Context {host : JSHost}.

Lemma filterSeen_idempotent (A : Type) (sig : A -> string) (l : list A) :
  forall seen, filterSeen sig seen (filterSeen sig seen l) = filterSeen sig seen l.
Proof.
  induction l as [|x r IH]; intros seen; simpl; [reflexivity|].
  destruct (existsb (String.eqb (sig x)) seen) eqn:E; [apply IH|].
  simpl. rewrite E. f_equal. apply IH.
Qed.

(** X3.  remove_duplicates is idempotent: applied to the state it leaves,
    it leaves the same state. *)
Theorem remove_duplicates_idempotent (st : CleanState) (a : CleaningAction.t) :
  CleaningAction.type a = ActionType.remove_duplicates ->
  applyAction a (fst (applyAction a st)) = applyAction a st.
Proof.
  intros Hty. unfold applyAction. rewrite Hty. simpl.
  now rewrite filterSeen_idempotent.
Qed.

Lemma getOwn_deleteProp_same (k : string) (r : DataRow) : getOwn k (deleteProp k r) = None.
Proof.
  unfold deleteProp. induction r as [|[k' v] rest IH]; simpl; [reflexivity|].
  destruct (String.eqb k' k) eqn:E; simpl; [exact IH|now rewrite E].
Qed.

Lemma getOwn_deleteProp_other (k k' : string) (r : DataRow) :
  k' <> k -> getOwn k' (deleteProp k r) = getOwn k' r.
Proof.
  intros Hne. unfold deleteProp. induction r as [|[k0 v] rest IH]; simpl; [reflexivity|].
  destruct (String.eqb_spec k0 k) as [->|Hk]; simpl.
  - destruct (String.eqb_spec k k'); [congruence|exact IH].
  - destruct (String.eqb k0 k'); [reflexivity|exact IH].
Qed.

Lemma keys_deleteProp (k : string) (r : DataRow) :
  ObjectKeys (deleteProp k r) = filter (fun h => negb (String.eqb h k)) (ObjectKeys r).
Proof.
  unfold deleteProp, ObjectKeys. induction r as [|[k0 v] rest IH]; simpl; [reflexivity|].
  destruct (String.eqb k0 k); simpl; now rewrite IH.
Qed.

(** X4.  A drop_column action with a column takes the column out of the
    headers and out of every row: the row has no such key afterwards, its
    other keys keep their order and their values. *)
Theorem dropColumn_removes_the_column (st : CleanState) (a : CleaningAction.t) (c : string) :
  wellFormed st ->
  CleaningAction.columnGiven a = Some c ->
  let st' := dropColumn st a in
  currentHeaders st' = filter (fun h => negb (String.eqb h c)) (currentHeaders st)
  /\ Forall2
       (fun r r' =>
          getOwn c r' = None
          /\ ObjectKeys r' = filter (fun h => negb (String.eqb h c)) (ObjectKeys r)
          /\ (forall k, k <> c -> getOwn k r' = getOwn k r))
       (currentRows st) (currentRows st').
Proof.
  intros [Hnd Hb] Hcol st'. unfold st', dropColumn. rewrite Hcol.
  split; [reflexivity|].
  unfold currentRows. simpl. rewrite map_deref_forEachRow by assumption.
  apply Forall2_map_self. intros r _. split; [|split].
  - apply getOwn_deleteProp_same.
  - apply keys_deleteProp.
  - intros k Hk. now apply getOwn_deleteProp_other.
Qed.

Lemma runActions_skips_drops (l : list CleaningAction.t) :
  forall st,
    runActions l st = runActions (filter (fun a => negb (isDropColumn a)) l) st.
Proof.
  induction l as [|a rest IH]; intros st; simpl; [reflexivity|].
  destruct (isDropColumn a) eqn:E; simpl.
  - unfold isDropColumn in E. unfold applyAction.
    destruct (CleaningAction.type a); try discriminate. apply IH.
  - destruct (applyAction a st) as [st' [e|]]; [reflexivity|apply IH].
Qed.

Lemma filter_filter_same (A : Type) (p : A -> bool) (l : list A) :
  filter p (filter p l) = filter p l.
Proof.
  induction l as [|x r IH]; simpl; [reflexivity|].
  destruct (p x) eqn:E; simpl; [rewrite E; now f_equal|exact IH].
Qed.

Lemma filter_filter_neg (A : Type) (p : A -> bool) (l : list A) :
  filter p (filter (fun x => negb (p x)) l) = [].
Proof.
  induction l as [|x r IH]; simpl; [reflexivity|].
  destruct (p x) eqn:E; simpl; [exact IH|now rewrite E].
Qed.

(** X5.  The outcome of a plan does not depend on where its drop_column
    actions stand among the others: moving them to the front, in their
    order, gives the same rows to the caller and the same result. *)
Theorem performDataCleaning_drops_first (ds : DataSet) (plan : CleaningPlan) :
  performDataCleaning ds (dropsFirst plan) = performDataCleaning ds plan.
Proof.
  unfold performDataCleaning, dropsFirst. simpl.
  rewrite filter_app, filter_filter_same, filter_filter_neg, app_nil_r.
  rewrite (runActions_skips_drops (actions plan)).
  rewrite (runActions_skips_drops (_ ++ _)).
  rewrite filter_app.
  rewrite (filter_filter_same _ (fun a => negb (isDropColumn a))).
  replace (filter (fun a => negb (isDropColumn a)) (filter isDropColumn (actions plan)))
    with (@nil CleaningAction.t); [reflexivity|].
  symmetry. induction (actions plan) as [|a rest IH]; simpl; [reflexivity|].
  destruct (isDropColumn a) eqn:E; simpl; [now rewrite E|exact IH].
Qed.


Lemma castRow_Boolean (col : string) (r : DataRow) :
  castRow col TypeCastTarget.Boolean r = Ok (setProp col (booleanCell (getProp r col)) r).
Proof. reflexivity. Qed.


Lemma booleanCell_fixed (b : bool) : booleanCell (VBool b) = VBool b.
Proof. destruct b; reflexivity. Qed.

(** X7.  cast_type to Boolean never throws and leaves a boolean in every
    cell of the column, true exactly for the texts true, 1 and yes in any
    letter case; a cell that is already a boolean keeps its value, so the
    cast is idempotent on cells. *)
Theorem cast_Boolean_total (st : CleanState) (a : CleaningAction.t) (col : string) :
  wellFormed st ->
  CleaningAction.type a = ActionType.cast_type ->
  CleaningAction.columnGiven a = Some col ->
  CleaningAction.targetGiven a = Some TypeCastTarget.Boolean ->
  exists st',
    applyAction a st = (st', None)
    /\ Forall2
         (fun r r' =>
            getProp r' col = booleanCell (getProp r col)
            /\ booleanCell (getProp r' col) = getProp r' col
            /\ (forall k, k <> col -> getProp r' k = getProp r k))
         (currentRows st) (currentRows st').
Proof.
  intros [Hnd Hb] Hty Hcol Htarget. unfold applyAction.
  rewrite Hty, Hcol, Htarget.
  rewrite (forEachRowTry_total _ _ (cleanedRows st) (castRow_Boolean col)).
  eexists. split; [reflexivity|].
  unfold currentRows. simpl. rewrite map_deref_forEachRow by assumption.
  apply Forall2_map_self. intros r _.
  rewrite getProp_setProp_same. split; [reflexivity|]. split.
  - unfold booleanCell at 2 3. apply booleanCell_fixed.
  - intros k Hk. now apply getProp_setProp_other.
Qed.


End MoreCleaning.

(** ** Row counts *)

Section RowCounts.
Context {host : JSHost}.

Lemma filterSeen_length_le (A : Type) (sig : A -> string) (l : list A) :
  forall seen, List.length (filterSeen sig seen l) <= List.length l.
Proof.
  induction l as [|x r IH]; intros seen; simpl; [lia|].
  destruct (existsb _ seen); simpl.
  - specialize (IH seen). lia.
  - specialize (IH (sig x :: seen)). lia.
Qed.

Lemma applyAction_rows_le (a : CleaningAction.t) (st : CleanState) :
  List.length (cleanedRows (fst (applyAction a st))) <= List.length (cleanedRows st).
Proof.
  unfold applyAction. destruct (CleaningAction.type a); simpl; try lia.
  - destruct (CleaningAction.columnGiven a) as [col|]; [|simpl; lia].
    destruct (CleaningAction.strategyGiven a) as [strat|]; [|simpl; lia].
    set (fv := fillValueOf strat _). clearbody fv.
    destruct strat; try (destruct fv; simpl; lia).
    simpl. apply filter_length_le.
  - apply filterSeen_length_le.
  - unfold currentRows. rewrite length_seq, !length_map. lia.
  - destruct (CleaningAction.columnGiven a) as [col|]; [|simpl; lia].
    destruct (CleaningAction.targetGiven a) as [target|]; [|simpl; lia].
    destruct (forEachRowTry _ _ _). simpl. lia.
Qed.

Lemma runActions_rows_le (l : list CleaningAction.t) :
  forall st,
    List.length (cleanedRows (fst (runActions l st))) <= List.length (cleanedRows st).
Proof.
  induction l as [|a rest IH]; intros st; simpl; [lia|].
  pose proof (applyAction_rows_le a st) as H.
  destruct (applyAction a st) as [st' [e|]]; simpl in *; [exact H|].
  specialize (IH st'). lia.
Qed.

Lemma phase1_rows (l : list CleaningAction.t) :
  forall st,
    cleanedRows (fold_left dropColumn l st) = cleanedRows st
    /\ List.length (store (fold_left dropColumn l st)) = List.length (store st).
Proof.
  induction l as [|a rest IH]; intros st; simpl; [split; reflexivity|].
  destruct (IH (dropColumn st a)) as [H1 H2]. rewrite H1, H2.
  unfold dropColumn. destruct (CleaningAction.columnGiven a); simpl; [|split; reflexivity].
  split; [reflexivity|apply length_forEachRow].
Qed.

Lemma applyAction_store_ge (a : CleaningAction.t) (st : CleanState) :
  List.length (store st) <= List.length (store (fst (applyAction a st))).
Proof.
  unfold applyAction. destruct (CleaningAction.type a); simpl; try lia.
  - destruct (CleaningAction.columnGiven a) as [col|]; [|simpl; lia].
    destruct (CleaningAction.strategyGiven a) as [strat|]; [|simpl; lia].
    set (fv := fillValueOf strat _). clearbody fv.
    destruct strat; destruct fv; simpl; rewrite ?length_forEachRow; lia.
  - rewrite length_app. lia.
  - destruct (CleaningAction.columnGiven a) as [col|]; [|simpl; lia].
    destruct (CleaningAction.targetGiven a) as [target|]; [|simpl; lia].
    pose proof (length_forEachRowTry (castRow col target) (cleanedRows st) (store st)) as H.
    destruct (forEachRowTry _ _ _). simpl in *. lia.
Qed.

Lemma runActions_store_ge (l : list CleaningAction.t) :
  forall st, List.length (store st) <= List.length (store (fst (runActions l st))).
Proof.
  induction l as [|a rest IH]; intros st; simpl; [lia|].
  pose proof (applyAction_store_ge a st) as H.
  destruct (applyAction a st) as [st' [e|]]; simpl in *; [exact H|].
  specialize (IH st'). lia.
Qed.

(** X9.  Cleaning never adds a row and never shortens the caller's array:
    the returned dataset has at most as many rows as the input, its
    [totalRows] is the number of its rows, and the caller's dataset holds
    as many rows after the call as before, whether the call returns or
    throws. *)
Theorem performDataCleaning_row_counts (ds : DataSet) (plan : CleaningPlan) :
  List.length (inputRowsAfter (performDataCleaning ds plan)) = List.length (rows ds)
  /\ forall ds',
       settled (performDataCleaning ds plan) = Ok ds' ->
       totalRows ds' = List.length (rows ds')
       /\ List.length (rows ds') <= List.length (rows ds).
Proof.
  unfold performDataCleaning.
  set (st1 := fold_left dropColumn _ (initialState ds)).
  destruct (phase1_rows (filter isDropColumn (actions plan)) (initialState ds))
    as [Hrows Hstore]. fold st1 in Hrows, Hstore. simpl in Hrows, Hstore.
  pose proof (runActions_rows_le (actions plan) st1) as Hle.
  pose proof (runActions_store_ge (actions plan) st1) as Hge.
  destruct (runActions (actions plan) st1) as [st2 err]. simpl in *.
  split.
  - rewrite length_firstn. unfold Store, DataRow, JSObject in *. lia.
  - intros ds' H. destruct err; [discriminate|]. inversion H; subst. simpl.
    split; [reflexivity|].
    unfold currentRows. rewrite length_map, Hrows, length_seq in *. exact Hle.
Qed.

Lemma applyTransformation_rows (st : TransformState) (action : TransformationAction.t) :
  List.length (workRows (applyTransformation st action)) = List.length (workRows st).
Proof.
  unfold applyTransformation. destruct (TransformationAction.method action).
  - simpl. apply length_map.
  - destruct (50 <? _); [reflexivity|].
    destruct (oneHot_fold (TransformationAction.column action)
                (uniqueTexts (TransformationAction.column action) (workRows st)) st) as [H _].
    rewrite H. apply length_map.
  - destruct (negb _); [simpl; apply length_map|reflexivity].
  - destruct (negb _); [simpl; apply length_map|reflexivity].
  - simpl. apply length_map.
Qed.

(** X10.  Transformations keep the rows one to one: whatever the actions,
    the returned dataset has as many rows as the input. *)
Theorem performDataTransformation_row_count (ds : DataSet)
        (actions : list TransformationAction.t) :
  let ds' := performDataTransformation ds actions in
  totalRows ds' = List.length (rows ds) /\ List.length (rows ds') = List.length (rows ds).
Proof.
  unfold performDataTransformation. simpl.
  assert (H : forall st,
             List.length (workRows (fold_left applyTransformation actions st))
             = List.length (workRows st)).
  { induction actions as [|a rest IH]; intros st; simpl; [reflexivity|].
    rewrite IH. apply applyTransformation_rows. }
  rewrite H. simpl. rewrite length_map. split; reflexivity.
Qed.

End RowCounts.

(** ** label, z_score and log *)

Section MoreTransformations.
Context {host : JSHost}.


Lemma encodedHeader_neq (col : string) : encodedHeader col <> col.
Proof.
  intros H. apply (f_equal String.length) in H. unfold encodedHeader in H.
  rewrite string_length_append in H. simpl in H. lia.
Qed.


(** X12.  log replaces a cell that converts to a positive number by its
    natural logarithm and one that converts to a number that is not
    positive by 0; a cell that does not convert stays as it is, with its
    row, and no other column changes. *)
Theorem log_transform_cells (st : TransformState) (action : TransformationAction.t) :
  TransformationAction.method action = TransformationMethod.log ->
  let col := TransformationAction.column action in
  let st' := applyTransformation st action in
  workHeaders st' = workHeaders st
  /\ Forall2
       (fun r r' =>
          let val := ToNumber (getProp r col) in
          (isNaN val = true -> r' = r)
          /\ (isNaN val = false -> PrimFloat.ltb 0%float val = true ->
              getProp r' col = VNum (MathLog val))
          /\ (isNaN val = false -> PrimFloat.ltb 0%float val = false ->
              PrimFloat.leb val 0%float = true ->
              getProp r' col = VNum 0%float)
          /\ (forall k, k <> col -> getProp r' k = getProp r k))
       (workRows st) (workRows st').
Proof.
  intros Hm col st'. unfold st', applyTransformation. rewrite Hm. fold col. simpl.
  split; [reflexivity|].
  apply Forall2_map_self. intros r _.
  match goal with
  | |- context [rescaleRow col ?f r] => destruct (rescaleRow_spec col f r) as (H1 & H2 & H3)
  end.
  cbv zeta. split; [exact H1|]. split; [|split; [|exact H3]].
  - intros Hn Hpos. apply H2; [exact Hn|]. now rewrite Hpos.
  - intros Hn Hpos Hle. apply H2; [exact Hn|]. now rewrite Hpos, Hle.
Qed.

(** X13.  z_score uses the population deviation of the converted cells:
    when it is 0 nothing changes; otherwise each cell that converts to a
    number is replaced by [(value - mean) / stdDev], cells that do not
    convert stay as they are, and no other column changes. *)
Theorem z_score_cells (st : TransformState) (action : TransformationAction.t) :
  TransformationAction.method action = TransformationMethod.z_score ->
  let col := TransformationAction.column action in
  let values := numericColumn col (workRows st) in
  let mean := PrimFloat.div (sum values) (ofNat (List.length values)) in
  let stdDev :=
    PrimFloat.sqrt
      (PrimFloat.div
         (sum (List.map (fun v => MathPow (PrimFloat.sub v mean) 2%float) values))
         (ofNat (List.length values))) in
  let st' := applyTransformation st action in
  (PrimFloat.eqb stdDev 0%float = true -> st' = st)
  /\ Forall2
       (fun r r' =>
          (isNaN (ToNumber (getProp r col)) = true -> r' = r)
          /\ (isNaN (ToNumber (getProp r col)) = false ->
              PrimFloat.eqb stdDev 0%float = false ->
              getProp r' col
              = VNum (PrimFloat.div (PrimFloat.sub (ToNumber (getProp r col)) mean) stdDev))
          /\ (forall k, k <> col -> getProp r' k = getProp r k))
       (workRows st) (workRows st').
Proof.
  intros Hm col values mean stdDev st'.
  unfold st', applyTransformation. rewrite Hm. fold col values mean stdDev.
  destruct (PrimFloat.eqb stdDev 0%float) eqn:E; simpl.
  - split; [reflexivity|].
    replace (workRows st) with (List.map (fun r => r) (workRows st)) at 2 by apply map_id.
    apply Forall2_map_self. intros r _. repeat split; auto. discriminate.
  - split; [discriminate|].
    apply Forall2_map_self. intros r _.
    destruct (rescaleRow_spec col
                (fun val => Some (PrimFloat.div (PrimFloat.sub val mean) stdDev)) r)
      as (H1 & H2 & H3).
    repeat split; auto.
Qed.

End MoreTransformations.

Lemma expectedCount_snoc (texts : list string) (k : string) (c : Counts) :
  (forall s, getOwn s c = expectedCount texts s) ->
  forall s, getOwn s (countUp k c) = expectedCount (texts ++ [k]) s.
Proof.
  intros Hc s. unfold expectedCount. rewrite count_occ_app. simpl.
  destruct (string_dec k s) as [<-|Hne].
  - specialize (Hc k). unfold expectedCount in Hc. unfold countUp. rewrite Hc.
    replace (count_occ string_dec texts k + 1 =? 0) with false
      by (symmetry; apply Nat.eqb_neq; lia).
    destruct (Nat.eqb_spec (count_occ string_dec texts k) 0) as [E|E].
    + rewrite E. simpl.
      destruct (ObjectPrototype.isFunctionName k); [apply getOwn_setProp_same|].
      destruct (ObjectPrototype.isProto k); [exact Hc|apply getOwn_setProp_same].
    + destruct (ObjectPrototype.isFunctionName k).
      * rewrite getOwn_setProp_same. now rewrite Nat.add_1_r.
      * destruct (ObjectPrototype.isProto k); [exact Hc|].
        now rewrite getOwn_setProp_same.
  - rewrite countUp_other by congruence. rewrite Hc. unfold expectedCount.
    now rewrite Nat.add_0_r.
Qed.

Lemma countUp_keys (k : string) (c : Counts) :
  NoDup (ObjectKeys c) -> NoDup (ObjectKeys (countUp k c)).
Proof.
  intros Hnd. unfold countUp.
  destruct (getOwn k c) as [[n|f ones]|]; try now apply keys_setProp_NoDup.
  destruct (ObjectPrototype.isFunctionName k); [now apply keys_setProp_NoDup|].
  destruct (ObjectPrototype.isProto k); [exact Hnd|now apply keys_setProp_NoDup].
Qed.

(** ** Category counts, in general *)

Section CategoryFacts.
Context {host : JSHost}.

Lemma countOf_bump_same (k : string) (o : JSObject nat) :
  countOf k (bump k o) = countOf k o + 1.
Proof. unfold countOf, bump. now rewrite getOwn_setProp_same. Qed.

Lemma countOf_bump_other (k k' : string) (o : JSObject nat) :
  k' <> k -> countOf k' (bump k o) = countOf k' o.
Proof. intros H. unfold countOf, bump. now rewrite getOwn_setProp_other. Qed.

Lemma nonNullTexts_snoc (column : string) (rs : list DataRow) (r : DataRow) :
  List.map ToString
    (filter (fun v => negb (isNullish v)) (List.map (fun r => getProp r column) (rs ++ [r])))
  = List.map ToString
      (filter (fun v => negb (isNullish v)) (List.map (fun r => getProp r column) rs))
    ++ (if isNullish (getProp r column) then [] else [ToString (getProp r column)]).
Proof.
  rewrite map_app, filter_app, map_app. simpl.
  destruct (isNullish (getProp r column)); reflexivity.
Qed.

(** What the dictionary of [getCategoryCounts] holds after the rows. *)
Lemma counts_fold_spec (column : string) (rs : list DataRow) :
  forall done c,
    (forall s, getOwn s c
               = expectedCount
                   (List.map ToString
                      (filter (fun v => negb (isNullish v))
                              (List.map (fun r => getProp r column) done))) s) ->
    forall s,
      getOwn s (fold_left (countRow column) rs c)
      = expectedCount
          (List.map ToString
             (filter (fun v => negb (isNullish v))
                     (List.map (fun r => getProp r column) (done ++ rs)))) s.
Proof.
  induction rs as [|r rest IH]; intros done c Hc s; simpl.
  - now rewrite app_nil_r.
  - replace (done ++ r :: rest) with ((done ++ [r]) ++ rest) by now rewrite <- app_assoc.
    apply IH. intros t. rewrite nonNullTexts_snoc. unfold countRow.
    destruct (isNullish (getProp r column)); simpl.
    + now rewrite app_nil_r.
    + now apply expectedCount_snoc.
Qed.

Lemma counts_fold_keys (column : string) (rs : list DataRow) :
  forall c : Counts,
    NoDup (ObjectKeys c) ->
    NoDup (ObjectKeys (fold_left (countRow column) rs c)).
Proof.
  induction rs as [|r rest IH]; intros c Hnd; simpl; [exact Hnd|].
  apply IH. unfold countRow.
  destruct (isNullish (getProp r column)); simpl; [exact Hnd|].
  now apply countUp_keys.
Qed.

Lemma getOwn_of_entry (V : Type) (o : JSObject V) (k : string) (v : V) :
  NoDup (ObjectKeys o) -> In (k, v) o -> getOwn k o = Some v.
Proof.
  unfold ObjectKeys. induction o as [|[k0 v0] rest IH]; intros Hnd Hin; [destruct Hin|].
  simpl in *. inversion Hnd as [|? ? Hk Hnd']; subst.
  destruct Hin as [Heq|Hin].
  - inversion Heq; subst. now rewrite String.eqb_refl.
  - destruct (String.eqb_spec k0 k) as [->|Hne]; [|now apply IH].
    exfalso. apply Hk. change k with (fst (k, v)). now apply in_map.
Qed.

Lemma In_firstn (A : Type) (n : nat) (l : list A) (x : A) :
  In x (firstn n l) -> In x l.
Proof.
  revert n. induction l as [|y r IH]; intros [|n] H; simpl in *; try contradiction.
  destruct H as [->|H]; [now left|right; eapply IH; exact H].
Qed.





Lemma insertSorted_descending (x : CategoryCount.t) (l : list CategoryCount.t) :
  hasNumber x -> Forall hasNumber l ->
  StronglySorted descending l ->
  StronglySorted descending
    (insertSorted (fun a b => countBelow (CategoryCount.value a) (CategoryCount.value b))
                  x l).
Proof.
  intros [n Hx]. induction l as [|y r IH]; intros Hnum Hs; simpl.
  - constructor; constructor.
  - inversion Hs as [|? ? Hr Hy]; subst.
    inversion Hnum as [|? ? [m Hm] Hnum']; subst.
    rewrite Hx, Hm. simpl. destruct (Nat.ltb_spec n m) as [Hlt|Hge].
    + constructor; [now apply IH|].
      apply Forall_forall. intros z Hz.
      apply (Permutation_in _ (insertSorted_Permutation _ _ x r)) in Hz.
      destruct Hz as [<-|Hz].
      * exists m, n. repeat split; auto. lia.
      * rewrite Forall_forall in Hy. now apply Hy.
    + constructor; [exact Hs|]. constructor.
      * exists n, m. auto.
      * eapply Forall_impl; [|exact Hy]. intros z (a & b & Ha & Hb & Hab).
        exists n, b. repeat split; auto. rewrite Hm in Ha. inversion Ha. lia.
Qed.

Lemma sortWith_descending (l : list CategoryCount.t) :
  Forall hasNumber l ->
  StronglySorted descending
    (sortWith (fun a b => countBelow (CategoryCount.value a) (CategoryCount.value b)) l).
Proof.
  unfold sortWith. induction l as [|x r IH]; intros Hnum; simpl; [constructor|].
  inversion Hnum as [|? ? Hx Hr]; subst.
  apply insertSorted_descending; [exact Hx| |now apply IH].
  apply Forall_forall. intros z Hz.
  apply (Permutation_in _ (sortWith_Permutation _ _ r)) in Hz.
  rewrite Forall_forall in Hr. now apply Hr.
Qed.

Lemma StronglySorted_firstn (A : Type) (R : A -> A -> Prop) (n : nat) (l : list A) :
  StronglySorted R l -> StronglySorted R (firstn n l).
Proof.
  revert n. induction l as [|x r IH]; intros [|n] Hs; simpl; try constructor.
  - inversion Hs; subst. now apply IH.
  - inversion Hs as [|? ? _ Hx]; subst. apply Forall_forall. intros y Hy.
    rewrite Forall_forall in Hx. apply Hx. eapply In_firstn; exact Hy.
Qed.

(** X15.  [getCategoryCounts] returns at most [limit] entries when the
    limit is not negative, at most 10 when no limit is given.  When no
    counted text names a function of [Object.prototype], every value is a
    number and the entries are in descending order of it. *)
Theorem getCategoryCounts_sorted_and_cut (ds : DataSet) (column : string) (limit : option Z) :
  let result := getCategoryCounts ds column limit in
  (forall n, limit = Some n -> (0 <= n)%Z -> List.length result <= Z.to_nat n)
  /\ (limit = None -> List.length result <= 10)
  /\ ((forall s, In s (countedTexts ds column) ->
                 ObjectPrototype.isFunctionName s = false) ->
      StronglySorted descending result).
Proof.
  unfold getCategoryCounts.
  set (counts := fold_left (countRow column) (rows ds) []).
  set (mk := fun e : string * CountValue =>
               {| CategoryCount.name := fst e; CategoryCount.value := snd e |}).
  set (sorted := sortWith _ _).
  set (n := match limit with Some n => n | None => 10%Z end).
  assert (Hlen : (0 <= n)%Z -> List.length (sliceTo n sorted) <= Z.to_nat n).
  { intros Hn. unfold sliceTo. destruct (Z.ltb_spec n 0); [lia|].
    rewrite length_firstn. lia. }
  cbv zeta. split; [|split].
  - intros m Hm Hpos. subst limit. now apply Hlen.
  - intros Hm. subst limit. apply (Hlen ltac:(unfold n; lia)).
  - intros Hplain.
    assert (Hnum : Forall hasNumber (List.map mk counts)).
    { apply Forall_forall. intros e He.
      apply in_map_iff in He. destruct He as [[k v] [<- Hin]].
      assert (Hkeys : NoDup (ObjectKeys counts)) by (apply counts_fold_keys; constructor).
      pose proof (getOwn_of_entry CountValue counts k v Hkeys Hin) as Hget.
      pose proof (counts_fold_spec column (rows ds) [] [] (fun s => eq_refl) k) as Hspec.
      simpl in Hspec. fold counts in Hspec. rewrite Hget in Hspec.
      fold (countedTexts ds column) in Hspec. unfold expectedCount in Hspec.
      destruct (Nat.eqb_spec (count_occ string_dec (countedTexts ds column) k) 0) as [E|E];
        [discriminate|].
      rewrite (Hplain k) in Hspec by (apply (count_occ_In string_dec); lia).
      destruct (ObjectPrototype.isProto k); [discriminate|].
      inversion Hspec. unfold hasNumber. simpl. eauto. }
    unfold sliceTo.
    destruct (n <? 0)%Z; apply StronglySorted_firstn, sortWith_descending, Hnum.
Qed.

End CategoryFacts.

Lemma getCategoryCounts_sorted_and_cut_witness :
  let ds := Sample.dataset
              [[("c", VStr "b")]; [("c", VStr "a")]; [("c", VNull)]; [("c", VStr "a")]] in
  StronglySorted descending (getCategoryCounts (host := RefHost.host) ds "c" None).
Proof.
  intros ds.
  apply (proj2 (proj2 (@getCategoryCounts_sorted_and_cut RefHost.host ds "c" None))).
  intros s [<-|[<-|[<-|[]]]]; reflexivity.
Defined.

(** A category named constructor: its value is a text, not the number of
    its rows, and the text [__proto__] is not counted at all. *)
Example getCategoryCounts_member_names :
  getCategoryCounts (host := RefHost.host)
    (Sample.dataset
       [[("c", VStr "constructor")]; [("c", VStr "a")]; [("c", VStr "__proto__")];
        [("c", VStr "constructor")]])
    "c" None
  = [{| CategoryCount.name := "constructor";
        CategoryCount.value := MemberText "constructor" 2 |};
     {| CategoryCount.name := "a"; CategoryCount.value := 1 |}].
Proof. vm_compute. reflexivity. Qed.

(** ** Descriptive statistics and correlations *)

Section StatisticsFacts.
Context {host : JSHost}.

Lemma numberMode_member (values : list float) (l : list float) :
  forall m,
    In (numberModeVal m) values -> incl l values ->
    In (numberModeVal (fold_left numberModeStep l m)) values.
Proof.
  induction l as [|v r IH]; intros m Hm Hincl; simpl; [exact Hm|].
  apply IH; [|intros z Hz; apply Hincl; now right].
  unfold numberModeStep. destruct (_ <? _); simpl; [|exact Hm].
  apply Hincl. now left.
Qed.

Lemma nth_sorted_member (gt : float -> float -> bool) (l : list float) (i : nat) :
  i < List.length l -> In (nth i (sortWith gt l) PrimFloat.nan) l.
Proof.
  intros Hi. apply (Permutation_in _ (sortWith_Permutation float gt l)).
  apply nth_In. now rewrite (Permutation_length (sortWith_Permutation float gt l)).
Qed.

(** X16.  [generateStatistics] returns one record per profile of type
    Number, in profile order.  A column without numbers gets the all-zero
    record with a null mode.  Otherwise the count is the number of the
    column's numbers, and the minimum, the maximum, both quartiles, the
    mode and, for an odd count, the median are each one of those
    numbers. *)
Theorem generateStatistics_reports_column_values (ds : DataSet) :
  List.map ColumnStats.column (generateStatistics ds) = numericColumns ds
  /\ Forall
       (fun s =>
          let nums := numericCells ds (ColumnStats.column s) in
          ColumnStats.count s = List.length nums
          /\ (nums = [] -> s = zeroStats (ColumnStats.column s))
          /\ (nums <> [] ->
              In (ColumnStats.min s) nums
              /\ In (ColumnStats.max s) nums
              /\ In (ColumnStats.q1 s) nums
              /\ In (ColumnStats.q3 s) nums
              /\ (exists m, ColumnStats.mode s = VNum m /\ In m nums)
              /\ (List.length nums mod 2 = 1 -> In (ColumnStats.median s) nums)))
       (generateStatistics ds).
Proof.
  unfold generateStatistics. split.
  - rewrite map_map. erewrite map_ext; [apply map_id|].
    intros col. unfold columnStatistics. destruct (numericValues _); reflexivity.
  - apply Forall_forall. intros s Hs. apply in_map_iff in Hs.
    destruct Hs as [col [<- _]].
    assert (Hcol : ColumnStats.column (columnStatistics ds col) = col).
    { unfold columnStatistics. destruct (numericValues _); reflexivity. }
    cbv zeta. rewrite Hcol. unfold columnStatistics, numericCells.
    set (gt := fun a b => PrimFloat.ltb 0%float (PrimFloat.sub a b)).
    destruct (numericValues (List.map (fun r => getProp r col) (rows ds)))
      as [|v vs] eqn:E.
    + simpl. split; [reflexivity|]. split; [reflexivity|]. intros Hne. congruence.
    + cbv iota. remember (v :: vs) as nums eqn:Hnums.
      assert (Hlen : List.length (sortWith gt nums) = List.length nums)
        by apply (Permutation_length (sortWith_Permutation float gt nums)).
      assert (Hpos : 0 < List.length nums) by (subst nums; simpl; lia).
      assert (Hne : nums <> []) by (subst nums; discriminate).
      clear Hnums E.
      cbn [ColumnStats.count ColumnStats.min ColumnStats.max ColumnStats.q1
           ColumnStats.q3 ColumnStats.mode ColumnStats.median].
      rewrite Hlen. split; [reflexivity|]. split; [congruence|].
      intros _. repeat split.
      * apply nth_sorted_member. lia.
      * apply nth_sorted_member. lia.
      * apply nth_sorted_member.
        apply Nat.Div0.div_lt_upper_bound. lia.
      * apply nth_sorted_member.
        apply Nat.Div0.div_lt_upper_bound. lia.
      * eexists. split; [reflexivity|].
        apply numberMode_member.
        -- simpl. apply nth_sorted_member. lia.
        -- intros z Hz. apply (Permutation_in _ (sortWith_Permutation float gt nums) Hz).
      * intros Hodd. rewrite Hodd. change (negb (1 =? 0)) with true. cbv iota.
        apply nth_sorted_member. apply Nat.Div0.div_lt_upper_bound. lia.
Qed.

Lemma correlatePairs_length (ds : DataSet) (cols : list string) :
  2 * List.length (correlatePairs ds cols) = List.length cols * (List.length cols - 1).
Proof.
  induction cols as [|c rest IH]; simpl; [reflexivity|].
  rewrite length_app, length_map. rewrite Nat.sub_0_r.
  destruct rest as [|c' rest']; simpl in *; [reflexivity|]. nia.
Qed.

Lemma correlatePairs_columns (ds : DataSet) (cols : list string) (c : CorrelationResult.t) :
  In c (correlatePairs ds cols) ->
  exists pre mid post,
    cols = pre ++ CorrelationResult.column1 c :: mid ++ CorrelationResult.column2 c :: post.
Proof.
  induction cols as [|c0 rest IH]; intros Hin; [destruct Hin|].
  simpl in Hin. apply in_app_iff in Hin. destruct Hin as [Hin|Hin].
  - apply in_map_iff in Hin. destruct Hin as [c2 [<- Hc2]].
    apply in_split in Hc2. destruct Hc2 as [mid [post ->]].
    exists [], mid, post. reflexivity.
  - destruct (IH Hin) as (pre & mid & post & ->).
    exists (c0 :: pre), mid, post. reflexivity.
Qed.

Lemma correlatePairs_pairs (ds : DataSet) (cols : list string) :
  List.map (fun e => (CorrelationResult.column1 e, CorrelationResult.column2 e))
           (correlatePairs ds cols)
  = laterPairs cols.
Proof.
  induction cols as [|c rest IH]; simpl; [reflexivity|].
  now rewrite map_app, map_map, IH.
Qed.

Lemma laterPairs_nth (l : list string) :
  forall i j a b,
    i < j -> nth_error l i = Some a -> nth_error l j = Some b -> In (a, b) (laterPairs l).
Proof.
  induction l as [|c rest IH]; intros i j a b Hij Hi Hj; [destruct i; discriminate|].
  simpl. apply in_or_app. destruct i as [|i]; simpl in Hi.
  - inversion Hi; subst c. left. destruct j as [|j]; [lia|]. simpl in Hj.
    apply in_map. eapply nth_error_In; exact Hj.
  - right. destruct j as [|j]; [lia|]. simpl in Hj.
    apply (IH i j); [lia|assumption..].
Qed.

(** X17.  [calculateCorrelations] returns exactly one entry for every two
    positions of the list of numeric columns, the earlier column first:
    the column pairs of the entries are, up to their order, the pairs of a
    column with each later one, k * (k - 1) / 2 entries for k columns.  An
    entry whose columns have fewer than 2 rows in common with numbers in
    both has value 0. *)
Theorem calculateCorrelations_one_entry_per_pair (ds : DataSet) :
  let cols := numericColumns ds in
  let result := calculateCorrelations ds in
  let columnsOf := fun e => (CorrelationResult.column1 e, CorrelationResult.column2 e) in
  Permutation (List.map columnsOf result) (laterPairs cols)
  /\ (forall i j a b,
        i < j -> nth_error cols i = Some a -> nth_error cols j = Some b ->
        exists e, In e result /\ columnsOf e = (a, b))
  /\ 2 * List.length result = List.length cols * (List.length cols - 1)
  /\ Forall
       (fun c =>
          (exists pre mid post,
              cols = pre ++ CorrelationResult.column1 c
                         :: mid ++ CorrelationResult.column2 c :: post)
          /\ (List.length
                (validPairs ds (columnData ds (CorrelationResult.column1 c))
                               (columnData ds (CorrelationResult.column2 c))) < 2 ->
              CorrelationResult.value c = 0%float))
       result.
Proof.
  intros cols result columnsOf. unfold result, calculateCorrelations.
  set (gt := fun a b : CorrelationResult.t => _).
  pose proof (sortWith_Permutation _ gt (correlatePairs ds cols)) as Hperm.
  fold cols.
  assert (Hpairs : Permutation (List.map columnsOf (sortWith gt (correlatePairs ds cols)))
                               (laterPairs cols)).
  { rewrite <- (correlatePairs_pairs ds cols). now apply Permutation_map. }
  split; [exact Hpairs|]. split; [|split].
  - intros i j a b Hij Hi Hj.
    pose proof (laterPairs_nth cols i j a b Hij Hi Hj) as Hin.
    apply (Permutation_in _ (Permutation_sym Hpairs)) in Hin.
    apply in_map_iff in Hin. destruct Hin as [e [He Hin]]. now exists e.
  - rewrite (Permutation_length Hperm). apply correlatePairs_length.
  - apply Forall_forall. intros c Hc. apply (Permutation_in _ Hperm) in Hc.
    split; [now apply (correlatePairs_columns ds)|].
    clear Hperm Hpairs. revert Hc. generalize cols. clear.
    induction cols as [|c0 rest IH]; intros Hin; [destruct Hin|].
    simpl in Hin. apply in_app_iff in Hin. destruct Hin as [Hin|Hin]; [|now apply IH].
    apply in_map_iff in Hin. destruct Hin as [c2 [<- _]]. simpl.
    intros Hlt. apply Nat.ltb_lt in Hlt. now rewrite Hlt.
Qed.

End StatisticsFacts.

(** ** Scatter samples and grouped means *)

Section ChartFacts.
Context {host : JSHost}.

Lemma scatterPoint_spec (ds : DataSet) (row : DataRow) (xCol yCol : string)
      (data : list ScatterPoint.t) :
  In row (rows ds) ->
  exists pts,
    scatterPoint row xCol yCol data = data ++ pts
    /\ List.length pts <= 1
    /\ Forall (pointOfRow ds xCol yCol) pts.
Proof.
  intros Hin. unfold scatterPoint.
  destruct (getProp row xCol) as [| | |x|] eqn:Ex;
    try (exists []; rewrite app_nil_r; repeat split; [simpl; lia|constructor]).
  destruct (getProp row yCol) as [| | |y|] eqn:Ey;
    try (exists []; rewrite app_nil_r; repeat split; [simpl; lia|constructor]).
  destruct (isNaN x) eqn:Hx; simpl;
    try (exists []; rewrite app_nil_r; repeat split; [simpl; lia|constructor]).
  destruct (isNaN y) eqn:Hy; simpl;
    try (exists []; rewrite app_nil_r; repeat split; [simpl; lia|constructor]).
  eexists. split; [reflexivity|]. split; [simpl; lia|].
  constructor; [|constructor]. exists row. simpl. auto.
Qed.

Lemma scatterLoop_spec (ds : DataSet) (xCol yCol : string) (step : option nat) :
  totalRows ds <= List.length (rows ds) ->
  forall fuel i data,
    exists pts,
      scatterLoop ds xCol yCol step fuel i data = Points (data ++ pts)
      /\ Forall (pointOfRow ds xCol yCol) pts
      /\ (forall s, step = Some s -> 1 <= s ->
                    List.length pts * s < totalRows ds - i + s)
      /\ (step = None -> List.length pts <= 1).
Proof.
  intros Hrows. induction fuel as [|fuel IH]; intros i data; simpl.
  - exists []. rewrite app_nil_r. repeat split; [constructor|simpl; lia|simpl; lia].
  - destruct (Nat.ltb_spec i (totalRows ds)) as [Hlt|Hge].
    + destruct (nth_error (rows ds) i) as [row|] eqn:Hrow.
      * apply nth_error_In in Hrow.
        destruct (scatterPoint_spec ds row xCol yCol data Hrow) as (p1 & Hp1 & Hlen1 & Hall1).
        rewrite Hp1. destruct step as [s|].
        -- destruct (IH (i + s) (data ++ p1)) as (p2 & Hp2 & Hall2 & Hbound & _).
           exists (p1 ++ p2). rewrite Hp2, app_assoc. split; [reflexivity|].
           split; [now apply Forall_app|]. split; [|discriminate].
           intros s' Hs' Hpos. inversion Hs'; subst s'.
           specialize (Hbound s eq_refl Hpos). rewrite length_app.
           assert (Hp1' : List.length p1 = 0 \/ List.length p1 = 1) by lia.
           destruct (Nat.le_gt_cases (i + s) (totalRows ds)) as [Hin'|Hout].
           ++ replace (totalRows ds - (i + s) + s) with (totalRows ds - i) in Hbound by lia.
              destruct Hp1' as [->| ->]; lia.
           ++ replace (totalRows ds - (i + s) + s) with s in Hbound by lia.
              assert (List.length p2 = 0) by nia.
              destruct Hp1' as [->| ->]; lia.
        -- exists p1. repeat split; auto. discriminate.
      * apply nth_error_None in Hrow. unfold DataRow, JSObject in *. lia.
    + exists []. rewrite app_nil_r. repeat split; [constructor|simpl; lia|simpl; lia].
Qed.

Lemma scatter_bound (n limit k s : nat) :
  1 <= limit -> s = Nat.max 1 (n / limit) -> k * s < n + s -> k <= 2 * limit.
Proof.
  intros Hl Hs Hk.
  pose proof (Nat.div_mod_eq n limit) as Hdm.
  pose proof (Nat.mod_upper_bound n limit ltac:(lia)) as Hmod.
  destruct (Nat.le_gt_cases (n / limit) 1) as [Hsmall|Hbig].
  - assert (s = 1) by lia. subst s. nia.
  - assert (s = n / limit) by lia. nia.
Qed.

(** X18.  On a dataset whose [totalRows] does not exceed its number of
    rows, [getScatterData] returns points and never throws; every point
    holds the two number cells of a row; and there are at most twice as
    many points as a positive limit says: at most 1000 when no limit is
    given. *)
Theorem getScatterData_sample (ds : DataSet) (xCol yCol : string) (limit : option Z) :
  totalRows ds <= List.length (rows ds) ->
  exists pts,
    getScatterData ds xCol yCol limit = Points pts
    /\ Forall (pointOfRow ds xCol yCol) pts
    /\ (forall n, limit = Some n -> (0 < n)%Z -> List.length pts <= 2 * Z.to_nat n)
    /\ (limit = None -> List.length pts <= 1000).
Proof.
  intros Hrows. unfold getScatterData.
  set (n := match limit with Some n => n | None => 500%Z end).
  destruct (scatterLoop_spec ds xCol yCol (scatterStep (totalRows ds) n) Hrows
              (totalRows ds) 0 []) as (pts & Hrun & Hall & Hbound & _).
  exists pts. split; [exact Hrun|]. split; [exact Hall|].
  assert (H : (0 < n)%Z -> List.length pts <= 2 * Z.to_nat n).
  { intros Hn. unfold scatterStep in Hbound.
    destruct (Z.ltb_spec 0 n); [|lia].
    specialize (Hbound _ eq_refl ltac:(lia)).
    apply (scatter_bound (totalRows ds) (Z.to_nat n) _ _ ltac:(lia) eq_refl).
    lia. }
  split.
  - intros m Hm Hpos. subst limit. now apply H.
  - intros Hm. subst limit. apply (H ltac:(unfold n; lia)).
Qed.



End ChartFacts.

(** ** The mode of impute *)

Section ModeFacts.
Context {host : JSHost}.

(** X20.  The fill of impute with the mode strategy is a most frequent
    value among the values the scan counts, those that are not missing and
    whose text names no member of [Object.prototype]: when there is such a
    value, the fill is one of them and no text occurs among them more
    often than its text; when there is none, the fill is null and nothing
    is filled. *)
Theorem modeOf_most_frequent (values : list JSValue) :
  ((exists v, In v values /\ counted v = true) ->
   In (modeOf values) values
   /\ counted (modeOf values) = true
   /\ forall s,
        count_occ string_dec (modeTexts values) s
        <= count_occ string_dec (modeTexts values) (ToString (modeOf values)))
  /\ ((forall v, In v values -> counted v = false) -> modeOf values = VNull).
Proof.
  split.
  - intros (v & Hin & Hv). unfold modeOf.
    destruct (modeOf_scan values) as (_ & Hcount & Hmax & _ & Hmode).
    pose proof (modeTexts_counted values v Hin Hv) as Hone.
    rewrite <- Hcount in Hone. pose proof (Hmax (ToString v)) as Hv'.
    destruct Hmode as (H1 & H2 & H3); [lia|].
    split; [exact H1|]. split; [exact H2|].
    intros s. rewrite <- !Hcount, H3. apply Hmax.
  - intros Hnone. apply modeOf_no_basis. intros (v & Hin & Hv).
    rewrite (Hnone v Hin) in Hv. discriminate.
Qed.

End ModeFacts.

(** Three cells hold the text constructor and two the text a: the mode is
    a, the text constructor is not counted. *)
Lemma modeOf_most_frequent_witness :
  let values := [VStr "constructor"; VNull; VStr "a"; VStr "constructor"; VStr "a";
                 VStr "constructor"] in
  modeOf (host := RefHost.host) values = VStr "a"
  /\ In (modeOf (host := RefHost.host) values) values
  /\ counted (host := RefHost.host) (modeOf (host := RefHost.host) values) = true.
Proof.
  intros values.
  destruct (proj1 (@modeOf_most_frequent RefHost.host values)
              (ex_intro _ (VStr "a") (conj (or_intror (or_intror (or_introl eq_refl)))
                                           eq_refl))) as (H1 & H2 & _).
  split; [reflexivity|]. split; [exact H1|exact H2].
Defined.

(** ** What a hypothesis test returns *)

Section ResultFacts.
Context {host : JSHost}.




End ResultFacts.

(** ** normalize_headers *)

Section NormalizeFacts.
Context {host : JSHost}.







End NormalizeFacts.

(** ** The normal form of a header *)

Section StringFacts.
Variable q : ascii -> bool.

Lemma string_append_nil_r (s : string) : s +++ "" = s.
Proof. induction s as [|c r IH]; simpl; [reflexivity|now rewrite IH]. Qed.

Lemma string_append_assoc (a b c : string) : (a +++ b) +++ c = a +++ (b +++ c).
Proof. induction a as [|x r IH]; simpl; [reflexivity|now rewrite IH]. Qed.

Lemma rev_append_acc (s acc : string) :
  JSString.rev_append s acc = JSString.rev_append s "" +++ acc.
Proof.
  revert acc. induction s as [|c r IH]; intros acc; simpl; [reflexivity|].
  rewrite (IH (String c acc)), (IH (String c "")), string_append_assoc. reflexivity.
Qed.

Lemma rev_cons (c : ascii) (r : string) :
  JSString.rev (String c r) = JSString.rev r +++ String c "".
Proof. unfold JSString.rev. simpl. apply rev_append_acc. Qed.

Lemma rev_append_twice (a b c : string) :
  JSString.rev_append (JSString.rev_append a b) c = JSString.rev_append b (a +++ c).
Proof.
  revert b. induction a as [|x r IH]; intros b; simpl; [reflexivity|].
  now rewrite IH.
Qed.

Lemma rev_involutive (s : string) : JSString.rev (JSString.rev s) = s.
Proof.
  unfold JSString.rev. rewrite rev_append_twice. simpl. apply string_append_nil_r.
Qed.

Lemma rev_append_of_append (a b acc : string) :
  JSString.rev_append (a +++ b) acc = JSString.rev_append b (JSString.rev_append a acc).
Proof.
  revert acc. induction a as [|x r IH]; intros acc; simpl; [reflexivity|apply IH].
Qed.

Lemma rev_snoc (a : string) (c : ascii) :
  JSString.rev (a +++ String c "") = String c (JSString.rev a).
Proof. unfold JSString.rev. now rewrite rev_append_of_append. Qed.

Lemma forallb_rev_append (p : ascii -> bool) (s acc : string) :
  JSString.forallb p (JSString.rev_append s acc)
  = JSString.forallb p s && JSString.forallb p acc.
Proof.
  revert acc. induction s as [|c r IH]; intros acc; simpl; [reflexivity|].
  rewrite IH. simpl. destruct (p c), (JSString.forallb p r); reflexivity.
Qed.

Lemma forallb_rev (p : ascii -> bool) (s : string) :
  JSString.forallb p (JSString.rev s) = JSString.forallb p s.
Proof. unfold JSString.rev. rewrite forallb_rev_append. simpl. apply andb_true_r. Qed.

Lemma forallb_dropWhile (p : ascii -> bool) (s : string) :
  JSString.forallb p s = true -> JSString.forallb p (JSString.dropWhile q s) = true.
Proof.
  induction s as [|c r IH]; simpl; [reflexivity|]. intros H.
  apply andb_true_iff in H. destruct H as [Hc Hr].
  destruct (q c); [now apply IH|]. simpl. now rewrite Hc, Hr.
Qed.

Lemma forallb_dropWhileEnd (p : ascii -> bool) (s : string) :
  JSString.forallb p s = true -> JSString.forallb p (JSString.dropWhileEnd q s) = true.
Proof.
  intros H. unfold JSString.dropWhileEnd. rewrite forallb_rev.
  apply forallb_dropWhile. now rewrite forallb_rev.
Qed.

Lemma dropWhile_begins (s : string) : beginsOutside q (JSString.dropWhile q s) = true.
Proof.
  induction s as [|c r IH]; simpl; [reflexivity|].
  destruct (q c) eqn:E; [exact IH|]. simpl. now rewrite E.
Qed.

Lemma dropWhile_fixed (s : string) :
  beginsOutside q s = true -> JSString.dropWhile q s = s.
Proof.
  destruct s as [|c r]; simpl; [reflexivity|].
  destruct (q c); [discriminate|reflexivity].
Qed.

Lemma dropWhile_snoc (a : string) (c : ascii) :
  JSString.dropWhile q (a +++ String c "")
  = match JSString.dropWhile q a with
    | EmptyString => if q c then "" else String c ""
    | d => d +++ String c ""
    end.
Proof.
  induction a as [|x r IH]; simpl; [reflexivity|].
  destruct (q x); [exact IH|reflexivity].
Qed.

Lemma dropWhileEnd_cons (c : ascii) (r : string) :
  JSString.dropWhileEnd q (String c r)
  = match JSString.dropWhile q (JSString.rev r) with
    | EmptyString => if q c then "" else String c ""
    | _ => String c (JSString.dropWhileEnd q r)
    end.
Proof.
  unfold JSString.dropWhileEnd. rewrite rev_cons, dropWhile_snoc.
  destruct (JSString.dropWhile q (JSString.rev r)) as [|x y].
  - destruct (q c); reflexivity.
  - apply rev_snoc.
Qed.

Lemma dropWhileEnd_begins (s : string) :
  beginsOutside q s = true -> beginsOutside q (JSString.dropWhileEnd q s) = true.
Proof.
  destruct s as [|c r]; [reflexivity|]. simpl. intros H.
  rewrite dropWhileEnd_cons.
  destruct (JSString.dropWhile q (JSString.rev r)); [|exact H].
  destruct (q c) eqn:E; [discriminate|]. simpl. now rewrite E.
Qed.

Lemma dropWhileEnd_twice (s : string) :
  JSString.dropWhileEnd q (JSString.dropWhileEnd q s) = JSString.dropWhileEnd q s.
Proof.
  unfold JSString.dropWhileEnd. rewrite rev_involutive.
  now rewrite (dropWhile_fixed _ (dropWhile_begins _)).
Qed.

Lemma dropWhile_none (s : string) :
  JSString.forallb (fun c => negb (q c)) s = true -> JSString.dropWhile q s = s.
Proof.
  intros H. apply dropWhile_fixed. destruct s as [|c r]; [reflexivity|].
  simpl in *. now apply andb_true_iff in H.
Qed.

Lemma dropWhileEnd_none (s : string) :
  JSString.forallb (fun c => negb (q c)) s = true -> JSString.dropWhileEnd q s = s.
Proof.
  intros H. unfold JSString.dropWhileEnd.
  rewrite dropWhile_none by now rewrite forallb_rev.
  apply rev_involutive.
Qed.

End StringFacts.

Lemma forallb_weaken (p p' : ascii -> bool) (s : string) :
  (forall c, p c = true -> p' c = true) ->
  JSString.forallb p s = true -> JSString.forallb p' s = true.
Proof.
  intros Himp. induction s as [|c r IH]; simpl; [reflexivity|]. intros H.
  apply andb_true_iff in H. destruct H as [Hc Hr].
  now rewrite (Himp _ Hc), IH.
Qed.

Lemma headerChar_kept (c : ascii) :
  headerChar c = true ->
  JSString.isWhiteSpace c = false
  /\ JSString.toLowerChar c = c
  /\ JSString.isWordChar c = true.
Proof.
  destruct c as [[] [] [] [] [] [] [] []]; vm_compute; intros H;
    try discriminate H; repeat split.
Qed.

Lemma headerChar_lowered (c : ascii) :
  JSString.isWordChar (JSString.toLowerChar c) = true ->
  headerChar (JSString.toLowerChar c) = true.
Proof.
  destruct c as [[] [] [] [] [] [] [] []]; vm_compute; intros H;
    try discriminate H; reflexivity.
Qed.

Lemma collapseRuns_headerChars (b : bool) (s : string) :
  JSString.forallb headerChar
    (JSString.collapseRuns
       (fun c => JSString.isWhiteSpace c || negb (JSString.isWordChar c)) b
       (JSString.toLowerCase s)) = true.
Proof.
  revert b. induction s as [|c r IH]; intros b; [reflexivity|].
  unfold JSString.toLowerCase in *. cbn [JSString.map JSString.collapseRuns].
  destruct (JSString.isWhiteSpace (JSString.toLowerChar c)
            || negb (JSString.isWordChar (JSString.toLowerChar c))) eqn:E.
  - destruct b; [apply IH|]. cbn [JSString.forallb]. rewrite IH. reflexivity.
  - cbn [JSString.forallb]. rewrite IH.
    apply orb_false_iff in E. destruct E as [_ E]. apply negb_false_iff in E.
    now rewrite (headerChar_lowered c E).
Qed.

Lemma toLowerCase_fixed (s : string) :
  JSString.forallb headerChar s = true -> JSString.toLowerCase s = s.
Proof.
  unfold JSString.toLowerCase.
  induction s as [|c r IH]; cbn [JSString.map JSString.forallb]; [reflexivity|]. intros H.
  apply andb_true_iff in H. destruct H as [Hc Hr].
  destruct (headerChar_kept c Hc) as (_ & -> & _). now rewrite IH.
Qed.

Lemma collapseRuns_fixed (s : string) :
  JSString.forallb headerChar s = true ->
  JSString.collapseRuns
    (fun c => JSString.isWhiteSpace c || negb (JSString.isWordChar c)) false s = s.
Proof.
  induction s as [|c r IH]; cbn [JSString.collapseRuns JSString.forallb]; [reflexivity|].
  intros H. apply andb_true_iff in H. destruct H as [Hc Hr].
  destruct (headerChar_kept c Hc) as (-> & _ & ->). cbn [negb orb]. now rewrite IH.
Qed.

(** X23.  The normal form of a header consists of lower-case letters,
    digits and underscores, neither begins nor ends with an underscore, and
    is its own normal form: normalising headers twice gives what
    normalising them once gives. *)
Theorem normalizeHeader_normal_form (h : string) :
  let n := normalizeHeader h in
  JSString.forallb headerChar n = true
  /\ JSString.dropWhile JSString.isUnderscore n = n
  /\ JSString.dropWhileEnd JSString.isUnderscore n = n
  /\ normalizeHeader n = n.
Proof.
  intros n.
  assert (Hchars : JSString.forallb headerChar n = true).
  { unfold n, normalizeHeader, JSString.stripUnderscores.
    apply forallb_dropWhileEnd, forallb_dropWhile, collapseRuns_headerChars. }
  assert (Hend : JSString.dropWhileEnd JSString.isUnderscore n = n).
  { unfold n, normalizeHeader, JSString.stripUnderscores. apply dropWhileEnd_twice. }
  assert (Hbegin : JSString.dropWhile JSString.isUnderscore n = n).
  { apply dropWhile_fixed. unfold n, normalizeHeader, JSString.stripUnderscores.
    apply dropWhileEnd_begins, dropWhile_begins. }
  split; [exact Hchars|]. split; [exact Hbegin|]. split; [exact Hend|].
  assert (Hws : JSString.forallb (fun c => negb (JSString.isWhiteSpace c)) n = true).
  { apply (forallb_weaken headerChar); [|exact Hchars].
    intros c Hc. destruct (headerChar_kept c Hc) as (-> & _). reflexivity. }
  unfold normalizeHeader at 1, JSString.trim, JSString.stripUnderscores.
  rewrite (dropWhile_none _ n Hws), (dropWhileEnd_none _ n Hws).
  rewrite (toLowerCase_fixed n Hchars), (collapseRuns_fixed n Hchars).
  now rewrite Hbegin.
Qed.

(** ** Histograms *)

Lemma increment_spec (i : nat) (h h' : list HistogramBin.t) :
  increment i h = Some h' ->
  List.length h' = List.length h
  /\ List.map HistogramBin.name h' = List.map HistogramBin.name h
  /\ countedValues h' = S (countedValues h).
Proof.
  unfold countedValues. revert i h'. induction h as [|b r IH]; intros i h' H;
    [destruct i; discriminate|].
  destruct i as [|i]; simpl in H.
  - inversion H. subst h'. simpl. auto.
  - destruct (increment i r) as [r'|] eqn:E; [|discriminate].
    inversion H. subst h'. destruct (IH i r' E) as (H1 & H2 & H3).
    simpl. rewrite H1, H2, H3. repeat split. lia.
Qed.

Lemma increment_in_range (i : nat) (h : list HistogramBin.t) :
  increment i h <> None <-> i < List.length h.
Proof.
  revert i. induction h as [|b r IH]; intros i.
  - destruct i; simpl; split; intros H; [congruence|lia|congruence|lia].
  - destruct i as [|i]; simpl; [split; [lia|discriminate]|].
    specialize (IH i). destruct (increment i r).
    + split; [intros _|discriminate].
      apply -> Nat.succ_lt_mono. apply IH. discriminate.
    + split; [congruence|]. intros H.
      apply Nat.succ_lt_mono in H. apply IH in H. congruence.
Qed.

Section HistogramFacts.
Context {host : JSHost}.

Lemma countValueIn_fold (bins : Z) (min binSize : float) (values : list float) :
  forall acc counted,
    fold_left (countValueIn bins min binSize) values acc = Some counted ->
    exists h,
      acc = Some h
      /\ List.length counted = List.length h
      /\ List.map HistogramBin.name counted = List.map HistogramBin.name h
      /\ countedValues counted = countedValues h + List.length values
      /\ (values <> [] -> 0 < List.length h).
Proof.
  induction values as [|v rest IH]; intros acc counted H; simpl in H.
  - exists counted. split; [exact H|]. split; [reflexivity|]. split; [reflexivity|].
    split; [simpl; lia|congruence].
  - destruct (IH _ _ H) as (h1 & Hstep & Hlen & Hnames & Hsum & _).
    unfold countValueIn in Hstep. destruct acc as [h|]; [|discriminate].
    exists h. split; [reflexivity|].
    destruct (bucketIndex bins (PrimFloat.div (PrimFloat.sub v min) binSize)) as [i|];
      [|discriminate].
    destruct (0 <=? i)%Z; [|discriminate].
    destruct (increment_spec _ _ _ Hstep) as (H1 & H2 & H3).
    assert (Hin : Z.to_nat i < List.length h)
      by (apply increment_in_range; congruence).
    rewrite Hlen, Hnames, Hsum, H1, H2, H3. simpl. repeat split; lia.
Qed.

(** X24.  A histogram that is returned counts every number of the column
    once: its counts add up to the number of the column's numbers.  It is
    empty when the column has no number, holds one bin named by the number
    when all the numbers are equal, and otherwise holds [bins] bins, at
    least one, named by their lower bounds to one decimal. *)
Theorem getHistogramData_counts_every_value (ds : DataSet) (column : string)
        (bins : option Z) (histogram : list HistogramBin.t) :
  getHistogramData ds column bins = Bins histogram ->
  let values := numericCells ds column in
  let n := match bins with Some n => n | None => 10%Z end in
  let min := mathMin values in
  let range := PrimFloat.sub (mathMax values) min in
  countedValues histogram = List.length values
  /\ (values = [] -> histogram = [])
  /\ (values <> [] -> PrimFloat.eqb range 0%float = true ->
      histogram = [{| HistogramBin.name := NumberToString min;
                      HistogramBin.count := List.length values |}])
  /\ (values <> [] -> PrimFloat.eqb range 0%float = false ->
      (1 <= n <= 4294967295)%Z
      /\ List.map HistogramBin.name histogram
         = List.map
             (fun i => NumberToFixed
                         (PrimFloat.add min
                            (PrimFloat.mul (ofNat i) (PrimFloat.div range (ofZ n)))) 1)
             (seq 0 (Z.to_nat n))).
Proof.
  unfold getHistogramData, numericCells. intros H. cbv zeta.
  set (n := match bins with Some n => n | None => 10%Z end) in *.
  set (values := numericValues (List.map (fun r => getProp r column) (rows ds))) in *.
  destruct values as [|v rest] eqn:Hv.
  - inversion H. unfold countedValues. repeat split; auto; congruence.
  - rewrite <- Hv in *.
    set (min := mathMin values) in *.
    set (range := PrimFloat.sub (mathMax values) min) in *.
    destruct (PrimFloat.eqb range 0%float) eqn:Hrange.
    + inversion H. unfold countedValues. simpl.
      repeat split; auto; try congruence; lia.
    + destruct ((n <? 0) || (4294967295 <? n))%Z eqn:Hn; [discriminate|].
      apply orb_false_iff in Hn. destruct Hn as [Hn1 Hn2].
      apply Z.ltb_ge in Hn1, Hn2.
      match type of H with
      | match fold_left ?f ?l ?a with _ => _ end = _ =>
          destruct (fold_left f l a) as [counted|] eqn:Hfold; [|discriminate]
      end.
      inversion H. subst counted.
      destruct (countValueIn_fold _ _ _ _ _ _ Hfold) as (h & Hh & Hlen & Hnames & Hsum & Hpos).
      inversion Hh. subst h. clear Hh.
      rewrite length_map, length_seq in Hpos.
      assert (Hne : values <> []) by (rewrite Hv; discriminate).
      specialize (Hpos Hne).
      split; [|split; [congruence|split; [congruence|]]].
      * rewrite Hsum. unfold countedValues. rewrite map_map. simpl.
        assert (Hz : forall l : list nat, list_sum (List.map (fun _ => 0) l) = 0)
          by (induction l; simpl; auto).
        rewrite Hz. reflexivity.
      * intros _ _. split; [lia|]. rewrite Hnames, map_map. reflexivity.
Qed.

End HistogramFacts.

Lemma getHistogramData_counts_every_value_witness :
  let ds := Sample.dataset
              [[("v", VNum 1)]; [("v", VNum 2)]; [("v", VStr "x")]; [("v", VNum 3)];
               [("v", VNum 4)]] in
  exists histogram,
    getHistogramData (host := RefHost.host) ds "v" (Some 2%Z) = Bins histogram
    /\ countedValues histogram = 4.
Proof.
  intros ds.
  destruct (getHistogramData (host := RefHost.host) ds "v" (Some 2%Z))
    as [histogram| |] eqn:E.
  - exists histogram. split; [reflexivity|].
    destruct (@getHistogramData_counts_every_value RefHost.host ds "v" (Some 2%Z)
                histogram E) as [H _].
    exact H.
  - vm_compute in E. discriminate E.
  - vm_compute in E. discriminate E.
Defined.

Example getHistogramData_example :
  getHistogramData (host := RefHost.host)
    (Sample.dataset
       [[("v", VNum 1)]; [("v", VNum 2)]; [("v", VStr "x")]; [("v", VNum 3)];
        [("v", VNum 4)]])
    "v" (Some 2%Z)
  = Bins [{| HistogramBin.name := "1.0"; HistogramBin.count := 2 |};
          {| HistogramBin.name := "2.5"; HistogramBin.count := 2 |}].
Proof. vm_compute. reflexivity. Qed.

(** With no bin at all the first number finds none to count it. *)
Example getHistogramData_no_bins :
  getHistogramData (host := RefHost.host)
    (Sample.dataset [[("v", VNum 1)]; [("v", VNum 2)]]) "v" (Some 0%Z)
  = NoSuchBin.
Proof. vm_compute. reflexivity. Qed.

Example floorZ_examples :
  List.map floorZ [2.5%float; (-2.5)%float; 0.75%float; (-0.25)%float; 3%float; (-0)%float;
                   1e15%float]
  = [2; -3; 0; -1; 3; 0; 1000000000000000]%Z.
Proof. vm_compute. reflexivity. Qed.

(** ** The further properties at concrete inputs *)

Lemma remove_duplicates_idempotent_witness :
  let st := initialState
              (Sample.dataset [[("a", VNum 1)]; [("a", VNum 1)]; [("a", VNum 2)]]) in
  applyAction (host := RefHost.host) Sample.dedup
    (fst (applyAction (host := RefHost.host) Sample.dedup st))
  = applyAction (host := RefHost.host) Sample.dedup st.
Proof.
  intros st.
  exact (@remove_duplicates_idempotent RefHost.host st Sample.dedup eq_refl).
Defined.

Lemma dropColumn_removes_the_column_witness :
  let st := initialState
              (Sample.dataset [[("a", VNum 1); ("b", VNull)]; [("b", VNum 2); ("a", VStr "7")]]) in
  currentHeaders (dropColumn st (Sample.drop "b"))
  = filter (fun h => negb (String.eqb h "b")) (currentHeaders st).
Proof.
  intros st.
  destruct (dropColumn_removes_the_column st (Sample.drop "b") "b"
              (wellFormed_initial _) eq_refl) as [H _].
  exact H.
Defined.


Lemma cast_Boolean_total_witness :
  let st := initialState
              (Sample.dataset [[("x", VStr "Yes")]; [("x", VNum 0)]; [("x", VBool true)]]) in
  exists st',
    applyAction (host := RefHost.host) (Sample.cast "x" TypeCastTarget.Boolean) st
    = (st', None)
    /\ List.length (currentRows st') = List.length (currentRows st).
Proof.
  intros st.
  destruct (@cast_Boolean_total RefHost.host st (Sample.cast "x" TypeCastTarget.Boolean) "x"
              (wellFormed_initial _) eq_refl eq_refl eq_refl) as (st' & H1 & H2).
  exists st'. split; [exact H1|]. symmetry. exact (Forall2_length H2).
Defined.



Lemma log_transform_cells_witness :
  let st := {| workRows := [[("v", VNum 1)]; [("v", VStr "abc")]; [("v", VNum (-2))]];
               workHeaders := ["v"] |} in
  workHeaders (applyTransformation (host := RefHost.host) st
                 (Sample.transform "v" TransformationMethod.log))
  = ["v"].
Proof.
  intros st.
  destruct (@log_transform_cells RefHost.host st
              (Sample.transform "v" TransformationMethod.log) eq_refl) as [H _].
  exact H.
Defined.

(** The cells 2 and 4 have mean 3 and deviation 1: they become -1 and 1,
    and the row holding a word stays as it is. *)
Lemma z_score_cells_witness :
  let st := {| workRows := [[("v", VNum 2)]; [("v", VStr "abc")]; [("v", VNum 4)]];
               workHeaders := ["v"] |} in
  let st' := applyTransformation (host := RefHost.host) st
               (Sample.transform "v" TransformationMethod.z_score) in
  workRows st' = [[("v", VNum (-1))]; [("v", VStr "abc")]; [("v", VNum 1)]]
  /\ Forall2
       (fun r r' =>
          (isNaN (ToNumber (host := RefHost.host) (getProp r "v")) = true -> r' = r)
          /\ (isNaN (ToNumber (host := RefHost.host) (getProp r "v")) = false ->
              getProp r' "v"
              = VNum (PrimFloat.div
                        (PrimFloat.sub (ToNumber (host := RefHost.host) (getProp r "v"))
                                       3%float)
                        1%float)))
       (workRows st) (workRows st').
Proof.
  intros st st'. split; [reflexivity|].
  eapply Forall2_impl;
    [|exact (proj2 (@z_score_cells RefHost.host st
               (Sample.transform "v" TransformationMethod.z_score) eq_refl))].
  intros r r' (Hskip & Hcell & _). split; [exact Hskip|].
  intros Hn. exact (Hcell Hn eq_refl).
Defined.

(** Three rows and a limit of 2: the step is 1 and all three rows are
    sampled. *)
Example getScatterData_more_than_limit :
  getScatterData
    (Sample.dataset [[("x", VNum 1); ("y", VNum 2)]; [("x", VNum 3); ("y", VNum 4)];
                     [("x", VNum 5); ("y", VNum 6)]])
    "x" "y" (Some 2%Z)
  = Points [{| ScatterPoint.x := 1; ScatterPoint.y := 2 |};
            {| ScatterPoint.x := 3; ScatterPoint.y := 4 |};
            {| ScatterPoint.x := 5; ScatterPoint.y := 6 |}].
Proof. vm_compute. reflexivity. Qed.

Lemma getScatterData_sample_witness :
  let ds := Sample.dataset
              [[("x", VNum 1); ("y", VNum 2)]; [("x", VStr "3"); ("y", VNum 4)];
               [("x", VNum 5); ("y", VNum 6)]] in
  totalRows ds <= List.length (rows ds)
  /\ exists pts,
       getScatterData ds "x" "y" (Some 1%Z) = Points pts
       /\ List.length pts <= 2.
Proof.
  intros ds.
  assert (Hrows : totalRows ds <= List.length (rows ds)) by (simpl; lia).
  split; [exact Hrows|].
  destruct (getScatterData_sample ds "x" "y" (Some 1%Z) Hrows) as (pts & H1 & _ & H2 & _).
  exists pts. split; [exact H1|]. apply (H2 1%Z eq_refl). lia.
Defined.



Example normalize_headers_example :
  Sample.rowsOf
    (settled (performDataCleaning (host := RefHost.host)
       (Sample.dataset [[(" First Name ", VStr "a"); ("AGE (yrs)", VNum 3)]])
       (Sample.plan [Sample.action ActionType.normalize_headers None None])))
  = Some [[("first_name", VStr "a"); ("age_yrs", VNum 3)]].
Proof. vm_compute. reflexivity. Qed.
